(** * Session, authentication and resource clients of the social-media app

    A shallow embedding of the authenticated API-access layer of the
    application: [js/api/config.js] (endpoint builder and auth headers),
    the two [AuthService] classes (the one in [js/api/auth.js] and the
    later one that adds [ensureApiKey]), [PostsService],
    [ProfilesService], [truncateText] of [js/utils/ui.js], and the
    handlers of [js/main.js] that register a user, search the feed, and
    save and delete a post.

    Conventions of the embedding:
    - a JavaScript string is a [string]; every character stands for one
      UTF-16 code unit in the range 0..255 (the Latin-1 block), which is
      where all the literals of the program live;
    - a JavaScript number is an integer [Z] (statuses, page sizes, the
      numbers of a JSON document); where the program prints one, it is
      of magnitude below 10^21, so that its text is its decimal digits;
    - [localStorage] is a finite map from keys to strings;
    - an [async] method is a computation in a state-and-exception monad
      over the browser state (the storage and the log of requests sent);
      the network is an oracle that answers each request knowing the
      requests sent before it.  [await] is sequencing: one call runs at a
      time.  Console output and the timer delay of [createApiKey] are not
      part of the state. *)

From Stdlib Require Import Ascii.
From stdpp Require Import gmap strings list pretty.

Local Open Scope Z_scope.

(** * JavaScript strings *)

Module JsString.

(** Code unit of a character. *)
Definition code (c : ascii) : nat := nat_of_ascii c.

(** [WhiteSpace] and [LineTerminator] code units below 256: TAB, LF, VT,
    FF, CR, SPACE and NBSP. *)
Definition is_whitespace (c : ascii) : bool :=
  bool_decide (code c ∈ [9; 10; 11; 12; 13; 32; 160]%nat).

(** [String.prototype.trimStart] *)
Fixpoint trimStart (s : string) : string :=
  match s with
  | "" => ""
  | String c s' => if is_whitespace c then trimStart s' else s
  end.

(** [String.prototype.trimEnd] *)
Fixpoint trimEnd (s : string) : string :=
  match s with
  | "" => ""
  | String c s' =>
      match trimEnd s' with
      | "" => if is_whitespace c then "" else String c ""
      | t => String c t
      end
  end.

(** [String.prototype.trim] *)
Definition trim (s : string) : string := trimEnd (trimStart s).

(** [s.length > 0], which for a string is also its truthiness. *)
Definition nonempty (s : string) : bool :=
  match s with "" => false | _ => true end.

(** Lower-case mapping of one code unit: A-Z, and the Latin-1 capitals
    U+00C0..U+00DE except the multiplication sign U+00D7. *)
Definition lower_char (c : ascii) : ascii :=
  let n := code c in
  if bool_decide (65 ≤ n ≤ 90 ∨ 192 ≤ n ≤ 214 ∨ 216 ≤ n ≤ 222)%nat
  then ascii_of_nat (n + 32) else c.

(** [String.prototype.toLowerCase] *)
Fixpoint toLowerCase (s : string) : string :=
  match s with
  | "" => ""
  | String c s' => String (lower_char c) (toLowerCase s')
  end.

(** [s.substring(n)] for [0 <= n] *)
Fixpoint drop (n : nat) (s : string) : string :=
  match n, s with
  | O, _ => s
  | S n', String _ s' => drop n' s'
  | S _, "" => ""
  end.

(** [String.prototype.endsWith]: the search string has to fit, and the
    last [searchString.length] code units have to be equal to it. *)
Definition endsWith (s searchString : string) : bool :=
  let len := String.length s in
  let searchLength := String.length searchString in
  if bool_decide (searchLength ≤ len)%nat
  then bool_decide (drop (len - searchLength) s = searchString)
  else false.

(** [s.split(sep)] for a separator of one code unit. *)
Fixpoint split (sep : ascii) (s : string) : list string :=
  match s with
  | "" => [""]
  | String c s' =>
      if bool_decide (c = sep) then "" :: split sep s'
      else match split sep s' with
           | piece :: pieces => String c piece :: pieces
           | [] => [String c ""]
           end
  end.

(** [parts.join(sep)] *)
Fixpoint join (sep : string) (parts : list string) : string :=
  match parts with
  | [] => ""
  | [p] => p
  | p :: rest => p +:+ sep +:+ join sep rest
  end.

(** ** Percent encoding *)

Definition hex_digit (n : nat) : ascii :=
  ascii_of_nat (if bool_decide (n < 10)%nat then 48 + n else 55 + n).

Definition percent (byte : nat) : string :=
  String "%" (String (hex_digit (byte / 16)) (String (hex_digit (byte mod 16)) "")).

(** UTF-8 bytes of a code unit below 256. *)
Definition utf8 (c : ascii) : list nat :=
  let n := code c in
  if bool_decide (n < 128)%nat then [n]
  else [192 + n / 64; 128 + n mod 64]%nat.

Definition is_alnum (n : nat) : bool :=
  bool_decide (48 ≤ n ≤ 57 ∨ 65 ≤ n ≤ 90 ∨ 97 ≤ n ≤ 122)%nat.

(** Characters [encodeURIComponent] leaves alone: alphanumerics and
    [- _ . ! ~ * ' ( )]. *)
Definition uri_unreserved (c : ascii) : bool :=
  is_alnum (code c)
  || bool_decide (code c ∈ [45; 95; 46; 33; 126; 42; 39; 40; 41]%nat).

Definition percent_all (c : ascii) : string :=
  foldr (λ b acc, percent b +:+ acc) "" (utf8 c).

(** [encodeURIComponent] *)
Fixpoint encodeURIComponent (s : string) : string :=
  match s with
  | "" => ""
  | String c s' =>
      (if uri_unreserved c then String c "" else percent_all c)
        +:+ encodeURIComponent s'
  end.

(** Characters the [application/x-www-form-urlencoded] serializer leaves
    alone: alphanumerics and [* - . _]; a space becomes [+]. *)
Definition form_unreserved (c : ascii) : bool :=
  is_alnum (code c) || bool_decide (code c ∈ [42; 45; 46; 95]%nat).

Fixpoint form_urlencode (s : string) : string :=
  match s with
  | "" => ""
  | String c s' =>
      (if bool_decide (code c = 32%nat) then "+"
       else if form_unreserved c then String c "" else percent_all c)
        +:+ form_urlencode s'
  end.

End JsString.

Import JsString.

(** * JavaScript values *)

(** A value produced by [JSON.parse].  A field list keeps each key once. *)
#[warnings="-register-all"]
Inductive json : Type :=
  | JNull
  | JBool (b : bool)
  | JNum (n : Z)
  | JStr (s : string)
  | JArr (items : list json)
  | JObj (fields : list (string * json)).

(** A JavaScript value as the program meets it: [None] is [undefined]. *)
Abbreviation value := (option json).

Module Js.

(** [ToBoolean] *)
Definition truthy (v : value) : bool :=
  match v with
  | None | Some JNull => false
  | Some (JBool b) => b
  | Some (JNum n) => bool_decide (n ≠ 0)
  | Some (JStr s) => nonempty s
  | Some (JArr _) | Some (JObj _) => true
  end.

(** [ToString] of a parsed value; inside an array, [null] prints as the
    empty string. *)
Fixpoint toString (v : json) : string :=
  match v with
  | JNull => "null"
  | JBool b => if b then "true" else "false"
  | JNum n => pretty n
  | JStr s => s
  | JArr items =>
      join "," (map (λ x, match x with JNull => "" | _ => toString x end) items)
  | JObj _ => "[object Object]"
  end.

Definition toString_value (v : value) : string :=
  match v with None => "undefined" | Some j => toString j end.

(** Own property [k] of a field list. *)
Fixpoint field (k : string) (fields : list (string * json)) : value :=
  match fields with
  | [] => None
  | (k', v) :: rest => if decide (k = k') then Some v else field k rest
  end.

(** [v.k] for a base that is not [null], and a name [k] that is neither
    an array index nor the name of a built-in method: objects answer
    with their own field, arrays and strings know [length], every other
    base answers [undefined]. *)
Definition prop (k : string) (v : json) : value :=
  match v with
  | JObj fields => field k fields
  | JArr items =>
      if decide (k = "length") then Some (JNum (Z.of_nat (length items))) else None
  | JStr s =>
      if decide (k = "length") then Some (JNum (Z.of_nat (String.length s))) else None
  | _ => None
  end.

(** [v[i]] for a base that is not [null]. *)
Definition item (i : nat) (v : json) : value :=
  match v with
  | JObj fields => field (pretty i) fields
  | JArr items => items !! i
  | JStr s =>
      match String.get i s with
      | Some c => Some (JStr (String c ""))
      | None => None
      end
  | _ => None
  end.

(** Optional chaining: [v?.k] and [v?.[i]]. *)
Definition prop_opt (k : string) (v : value) : value :=
  match v with
  | None | Some JNull => None
  | Some j => prop k j
  end.

Definition item_opt (i : nat) (v : value) : value :=
  match v with
  | None | Some JNull => None
  | Some j => item i j
  end.

(** [v || fallback] *)
Definition or_else (v : value) (fallback : json) : json :=
  match v with
  | Some j => if truthy v then j else fallback
  | None => fallback
  end.

End Js.

(** * Exceptions, requests and the browser state *)

(** An exception object: the name of its constructor and its message. *)
Record exn : Type := Exn { name : string; message : string }.

Definition Error (msg : string) : exn := Exn "Error" msg.
Definition TypeError (msg : string) : exn := Exn "TypeError" msg.
Definition SyntaxError (msg : string) : exn := Exn "SyntaxError" msg.

(** The request [fetch(url, {method, headers, body})] sends. *)
Record request : Type := Request {
  url : string;
  method : string;
  headers : gmap string string;
  body : option string
}.

(** What [response.json()] finds: a body that does not parse (it rejects
    with a [SyntaxError]) or the parsed document. *)
Inductive content : Type :=
  | Malformed (why : string)
  | Parsed (data : json).

Record response : Type := Response { status : Z; payload : content }.

(** [response.ok] *)
Definition ok (r : response) : bool := bool_decide (200 ≤ status r ≤ 299).

(** What [fetch] settles with: a rejection (no response: [fetch] rejects
    with a [TypeError]) or a response of any status. *)
Inductive reply : Type :=
  | Rejected (why : string)
  | Responded (r : response).

(** The remote side: its answer to a request, given the requests before. *)
Definition network : Type := list request → request → reply.

Record browser : Type := Browser {
  localStorage : gmap string string;
  sent : list request
}.

Inductive completion (A : Type) : Type :=
  | Normal (a : A)
  | Throw (e : exn).
Arguments Normal {A} a.
Arguments Throw {A} e.

(** A computation: from a browser state to a completion and a new state. *)
Definition js (A : Type) : Type := browser → completion A * browser.

Definition ret {A} (a : A) : js A := λ b, (Normal a, b).
Definition throw {A} (e : exn) : js A := λ b, (Throw e, b).
Definition bind {A B} (k : A → js B) (m : js A) : js B :=
  λ b, match m b with
       | (Normal a, b') => k a b'
       | (Throw e, b') => (Throw e, b')
       end.
(** [try { m } catch (e) { handler e }] *)
Definition try_catch {A} (m : js A) (handler : exn → js A) : js A :=
  λ b, match m b with
       | (Normal a, b') => (Normal a, b')
       | (Throw e, b') => handler e b'
       end.

#[global] Instance js_ret : MRet js := @ret.
#[global] Instance js_bind : MBind js := @bind.

Module Storage.
Definition getItem (k : string) : js (option string) :=
  λ b, (Normal (localStorage b !! k), b).
Definition setItem (k v : string) : js unit :=
  λ b, (Normal (), Browser (<[k := v]> (localStorage b)) (sent b)).
Definition removeItem (k : string) : js unit :=
  λ b, (Normal (), Browser (delete k (localStorage b)) (sent b)).
End Storage.

(** Truthiness of what [getItem] returns: [null] and [""] are falsy. *)
Definition present (entry : option string) : bool :=
  match entry with Some s => nonempty s | None => false end.

(** The message of the [TypeError] a property read on [null] raises (the
    wording is V8's; nothing relies on it). *)
Definition null_read (k : string) : string :=
  "Cannot read properties of null (reading '" +:+ k +:+ "')".

(** [v.k] where [v] is a parsed document: a read on [null] throws. *)
Definition member (v : json) (k : string) : js value :=
  match v with
  | JNull => throw (TypeError (null_read k))
  | _ => ret (Js.prop k v)
  end.

Section Fetch.
Variable net : network.

Definition fetch (rq : request) : js response :=
  λ b, let b' := Browser (localStorage b) (sent b ++ [rq]) in
       match net (sent b) rq with
       | Rejected why => (Throw (TypeError why), b')
       | Responded r => (Normal r, b')
       end.
End Fetch.

(** [await response.json()] *)
Definition response_json (r : response) : js json :=
  match payload r with
  | Malformed why => throw (SyntaxError why)
  | Parsed data => ret data
  end.

(** [data.errors?.[0]?.message] *)
Definition first_error_message (data : json) : js value :=
  errors ← member data "errors";
  ret (Js.prop_opt "message" (Js.item_opt 0 errors)).

(** * js/api/config.js *)

Module Config.

Definition BASE_URL : string := "https://v2.api.noroff.dev".

Definition REGISTER : string := "/auth/register".
Definition LOGIN : string := "/auth/login".
Definition PROFILE : string := "/auth/profile".
Definition POSTS : string := "/social/posts".
Definition PROFILES : string := "/social/profiles".
Definition API_KEY : string := "/auth/create-api-key".

Definition HEADERS : gmap string string :=
  {[ "Content-Type" := "application/json" ]}.

Definition getAuthHeaders : js (gmap string string) :=
  token ← Storage.getItem "authToken";
  apiKey ← Storage.getItem "apiKey";
  let headers := HEADERS in
  let headers :=
    match token with
    | Some t => if nonempty t then <["Authorization" := "Bearer " +:+ t]> headers
                else headers
    | None => headers
    end in
  let headers :=
    match apiKey with
    | Some k => if nonempty k then <["X-Noroff-API-Key" := k]> headers
                else headers
    | None => headers
    end in
  ret headers.

Definition buildApiUrl (endpoint : string) : string := BASE_URL +:+ endpoint.

End Config.

(** The methods of [AuthService] that are the same in both versions of
    the class. *)
Module Session.

Definition logout : js unit :=
  Storage.removeItem "authToken";;
  Storage.removeItem "apiKey";;
  Storage.removeItem "userData".

Definition isAuthenticated : js bool :=
  token ← Storage.getItem "authToken";
  apiKey ← Storage.getItem "apiKey";
  ret (present token && present apiKey).

Section CurrentUser.
(** [JSON.parse]: the parsed value, or the reason of its [SyntaxError]. *)
Variable JSON_parse : string → content.

(** The result is [null] or the parsed user. *)
Definition getCurrentUser : js json :=
  userData ← Storage.getItem "userData";
  if present userData then
    match JSON_parse (default "" userData) with
    | Parsed user => ret user
    | Malformed why => throw (SyntaxError why)
    end
  else ret JNull.
End CurrentUser.

Definition noroffDomains : list string := ["@noroff.no"; "@stud.noroff.no"].

Definition isValidNoroffEmail (email : string) : bool :=
  existsb (λ domain, endsWith (toLowerCase email) domain) noroffDomains.

End Session.

(** * js/api/auth.js *)

Module AuthService.
Import Config.

Section Methods.
Variable net : network.
Variable JSON_stringify : json → string.

(** What [localStorage.setItem(k, JSON.stringify(v))] stores:
    [JSON.stringify(undefined)] is [undefined]. *)
Definition stringify_value (v : value) : string :=
  match v with Some j => JSON_stringify j | None => "undefined" end.

Definition createApiKey : js unit :=
  try_catch
    (headers ← getAuthHeaders;
     response ← fetch net (Request (buildApiUrl API_KEY) "POST" headers None);
     data ← response_json response;
     if negb (ok response) then
       detail ← first_error_message data;
       throw (Error (Js.toString (Js.or_else detail (JStr "API key creation failed"))))
     else
       d ← member data "data";
       let key := Js.prop_opt "key" d in
       if Js.truthy key then Storage.setItem "apiKey" (Js.toString_value key)
       else ret ())
    (λ error, ret ()).

Definition login (email password : string) : js json :=
  try_catch
    (response ← fetch net
       (Request (buildApiUrl LOGIN) "POST" HEADERS
          (Some (JSON_stringify
                   (JObj [("email", JStr email); ("password", JStr password)]))));
     data ← response_json response;
     if negb (ok response) then
       detail ← first_error_message data;
       throw (Error (Js.toString (Js.or_else detail (JStr "Login failed"))))
     else
       d ← member data "data";
       let accessToken := Js.prop_opt "accessToken" d in
       (if Js.truthy accessToken then
          Storage.setItem "authToken" (Js.toString_value accessToken);;
          Storage.setItem "userData" (stringify_value d);;
          createApiKey
        else ret ());;
       ret data)
    (λ error, throw (Error ("Login failed: " +:+ message error))).

(** [register] is the same in both versions of the class. *)
Definition register (name email password : string) : js json :=
  try_catch
    (response ← fetch net
       (Request (buildApiUrl REGISTER) "POST" HEADERS
          (Some (JSON_stringify
                   (JObj [("name", JStr name); ("email", JStr email);
                          ("password", JStr password)]))));
     data ← response_json response;
     if negb (ok response) then
       detail ← first_error_message data;
       throw (Error (Js.toString (Js.or_else detail (JStr "Registration failed"))))
     else ret data)
    (λ error, throw (Error ("Registration failed: " +:+ message error))).

End Methods.
End AuthService.

(** * The later [AuthService], with [ensureApiKey] *)

Module AuthService2.
Import Config.

Section Methods.
Variable net : network.
Variable JSON_stringify : json → string.

Definition stringify_value (v : value) : string :=
  match v with Some j => JSON_stringify j | None => "undefined" end.

Definition createApiKey : js unit :=
  try_catch
    (headers ← getAuthHeaders;
     response ← fetch net
       (Request (buildApiUrl API_KEY) "POST" headers
          (Some (JSON_stringify (JObj [("name", JStr "Social Media App Key")]))));
     data ← response_json response;
     (if negb (ok response) then
        if decide (status response = 401) then
          throw (Error "Unauthorized - Please login again")
        else if decide (status response = 500) then
          throw (Error "Server error - Please try again later")
        else
          detail ← first_error_message data;
          throw (Error (Js.toString (Js.or_else detail
            (JStr ("API key creation failed (" +:+ pretty (status response) +:+ ")")))))
      else ret ());;
     d ← member data "data";
     let key := Js.prop_opt "key" d in
     if Js.truthy key then Storage.setItem "apiKey" (Js.toString_value key)
     else throw (Error "No API key returned from server"))
    (λ error, throw error).

Definition ensureApiKey : js unit :=
  existingApiKey ← Storage.getItem "apiKey";
  if present existingApiKey then ret () else createApiKey.

Definition login (email password : string) : js json :=
  try_catch
    (response ← fetch net
       (Request (buildApiUrl LOGIN) "POST" HEADERS
          (Some (JSON_stringify
                   (JObj [("email", JStr email); ("password", JStr password)]))));
     data ← response_json response;
     if negb (ok response) then
       detail ← first_error_message data;
       throw (Error (Js.toString (Js.or_else detail (JStr "Login failed"))))
     else
       d ← member data "data";
       let accessToken := Js.prop_opt "accessToken" d in
       (if Js.truthy accessToken then
          Storage.setItem "authToken" (Js.toString_value accessToken);;
          Storage.setItem "userData" (stringify_value d);;
          try_catch ensureApiKey (λ apiKeyError, ret ())
        else ret ());;
       ret data)
    (λ error, throw (Error ("Login failed: " +:+ message error))).

End Methods.
End AuthService2.

(** * js/api/posts.js *)

Module PostsService.
Import Config.

(** The options object of [getPosts]; an option that is [None] was left
    out by the caller and takes its default. *)
Record options : Type := Options {
  limit : option Z;
  page : option Z;
  tag : option string;
  search : option string
}.

(** [getPosts()] and [getPosts({})] *)
Definition no_options : options := Options None None None None.

(** [new URLSearchParams(...).toString()] on a list of name-value pairs *)
Definition URLSearchParams_toString (params : list (string * string)) : string :=
  join "&" (map (λ p, form_urlencode p.1 +:+ "=" +:+ form_urlencode p.2) params).

(** The parameters [getPosts] collects before it chooses the endpoint.
    [limit.toString()] and [page.toString()] are the decimal digits of
    the number, as for every integer of magnitude below 10^21. *)
Definition getPosts_params (o : options) : list (string * string) :=
  let limit := default 12 (limit o) in
  let page := default 1 (page o) in
  let tag := default "" (tag o) in
  [("limit", pretty limit); ("page", pretty page);
   ("_author", "true"); ("_comments", "true"); ("_reactions", "true")]
  ++ (if nonempty tag then [("_tag", tag)] else []).

Definition getPosts_url (o : options) : string :=
  let params := getPosts_params o in
  let search := default "" (search o) in
  let url := buildApiUrl POSTS +:+ "?" +:+ URLSearchParams_toString params in
  if nonempty search then
    buildApiUrl POSTS +:+ "/search?q=" +:+ encodeURIComponent search +:+ "&"
      +:+ URLSearchParams_toString params
  else url.

(** The argument of [createPost] and [updatePost]: [tags] and [media]
    may be left out ([tags = []]), and [media] may also be [null]; both
    cases of [media] are [None]. *)
Record postData : Type := PostData {
  title : string;
  body : string;
  tags : option (list string);
  media : option string
}.

(** The object [postPayload] both methods build. *)
Definition postPayload (p : postData) : json :=
  let tags := default [] (tags p) in
  let fields :=
    [("title", JStr (trim (title p)));
     ("body", JStr (trim (body p)));
     ("tags", JArr (map (λ tag, JStr (trim tag))
                      (filter (λ tag, (0 < String.length (trim tag))%nat) tags)))] in
  match media p with
  | Some m =>
      if nonempty m && nonempty (trim m) then
        JObj (fields ++
          [("media", JObj [("url", JStr (trim m));
                           ("alt", JStr (if nonempty (title p) then title p
                                         else "Post media"))])])
      else JObj fields
  | None => JObj fields
  end.

Section Methods.
Variable net : network.
Variable JSON_stringify : json → string.

Definition getPosts (o : options) : js json :=
  try_catch
    (let url := getPosts_url o in
     headers ← getAuthHeaders;
     response ← fetch net (Request url "GET" headers None);
     data ← response_json response;
     if negb (ok response) then
       detail ← first_error_message data;
       throw (Error (Js.toString (Js.or_else detail (JStr "Failed to fetch posts"))))
     else ret data)
    (λ error, throw (Error ("Failed to fetch posts: " +:+ message error))).


Definition createPost (p : postData) : js json :=
  try_catch
    (let postPayload := postPayload p in
     headers ← getAuthHeaders;
     response ← fetch net
       (Request (buildApiUrl POSTS) "POST" headers (Some (JSON_stringify postPayload)));
     data ← response_json response;
     if negb (ok response) then
       detail ← first_error_message data;
       throw (Error (Js.toString (Js.or_else detail (JStr "Failed to create post"))))
     else ret data)
    (λ error, throw (Error ("Failed to create post: " +:+ message error))).

Definition updatePost (id : string) (p : postData) : js json :=
  try_catch
    (let postPayload := postPayload p in
     headers ← getAuthHeaders;
     response ← fetch net
       (Request (buildApiUrl POSTS +:+ "/" +:+ id) "PUT" headers
          (Some (JSON_stringify postPayload)));
     data ← response_json response;
     if negb (ok response) then
       detail ← first_error_message data;
       throw (Error (Js.toString (Js.or_else detail (JStr "Failed to update post"))))
     else ret data)
    (λ error, throw (Error ("Failed to update post: " +:+ message error))).

Definition getPostById (id : string) : js json :=
  try_catch
    (let params :=
       [("_author", "true"); ("_comments", "true"); ("_reactions", "true")] in
     headers ← getAuthHeaders;
     response ← fetch net
       (Request (buildApiUrl POSTS +:+ "/" +:+ id +:+ "?"
                   +:+ URLSearchParams_toString params) "GET" headers None);
     data ← response_json response;
     if negb (ok response) then
       detail ← first_error_message data;
       throw (Error (Js.toString (Js.or_else detail (JStr "Failed to fetch post"))))
     else ret data)
    (λ error, throw (Error ("Failed to fetch post: " +:+ message error))).

Definition deletePost (id : string) : js unit :=
  try_catch
    (headers ← getAuthHeaders;
     response ← fetch net
       (Request (buildApiUrl POSTS +:+ "/" +:+ id) "DELETE" headers None);
     if negb (ok response) then
       data ← response_json response;
       detail ← first_error_message data;
       throw (Error (Js.toString (Js.or_else detail (JStr "Failed to delete post"))))
     else ret ())
    (λ error, throw (Error ("Failed to delete post: " +:+ message error))).

End Methods.
End PostsService.

(** * js/main.js: the post form *)

Module SocialMediaApp.
Import PostsService.

(** The values of the four inputs of the post form. *)
Record form : Type := Form {
  postTitle : string;
  postBody : string;
  postTags : string;
  postMedia : string
}.

(** The [postData] that [handleSavePost] hands to the posts service;
    [None] when the title or the content is missing and the handler
    returns after its alert. *)
Definition handleSavePost_postData (f : form) : option postData :=
  let title := trim (postTitle f) in
  let body := trim (postBody f) in
  let tagsInput := trim (postTags f) in
  let media := trim (postMedia f) in
  if negb (nonempty title) || negb (nonempty body) then None
  else
    let tags :=
      if nonempty tagsInput
      then filter (λ tag, nonempty tag) (map trim (split "," tagsInput))
      else [] in
    Some (PostData title body (Some tags) (if nonempty media then Some media else None)).

(** A post as the feed holds it, as far as the post form reads it: the
    title, the body, the tags when the post has a [tags] array, and the
    URL of its media when it has one. *)
Record post : Type := Post {
  post_title : string;
  post_body : string;
  post_tags : option (list string);
  post_media_url : option string
}.

(** What a text input keeps of a value it is given: no line breaks. *)
Fixpoint strip_newlines (s : string) : string :=
  match s with
  | "" => ""
  | String c s' =>
      if bool_decide (code c = 10 ∨ code c = 13)%nat then strip_newlines s'
      else String c (strip_newlines s')
  end.

(** What a textarea keeps: every line break as one LF. *)
Fixpoint normalize_newlines (s : string) : string :=
  match s with
  | "" => ""
  | String c s' =>
      if bool_decide (code c = 13)%nat then
        match s' with
        | String c' s'' =>
            if bool_decide (code c' = 10)%nat
            then String (ascii_of_nat 10) (normalize_newlines s'')
            else String (ascii_of_nat 10) (normalize_newlines s')
        | "" => String (ascii_of_nat 10) ""
        end
      else String c (normalize_newlines s')
  end.

(** ASCII white space: TAB, LF, FF, CR and the space. *)
Definition is_ascii_space (c : ascii) : bool :=
  bool_decide (code c ∈ [9; 10; 12; 13; 32]%nat).

Fixpoint strip_start (s : string) : string :=
  match s with
  | "" => ""
  | String c s' => if is_ascii_space c then strip_start s' else s
  end.

Fixpoint strip_end (s : string) : string :=
  match s with
  | "" => ""
  | String c s' =>
      match strip_end s' with
      | "" => if is_ascii_space c then "" else String c ""
      | t => String c t
      end
  end.

(** What a URL input keeps: no line breaks, and no ASCII white space at
    the ends. *)
Definition sanitize_url (s : string) : string :=
  strip_end (strip_start (strip_newlines s)).

(** The values of the form after [showPostModal(post)] has filled it
    for editing: what it assigns, as the inputs keep it. *)
Definition showPostModal_form (p : post) : form :=
  Form (strip_newlines (post_title p))
       (normalize_newlines (post_body p))
       (strip_newlines
          (match post_tags p with
           | Some tags => join ", " tags
           | None => ""
           end))
       (sanitize_url (default "" (post_media_url p))).

(** The handlers run on the page [index.html], which has every element
    they look up.  The alerts, the spinner, the modal and the rendering
    of the feed touch the document only; they send nothing through
    [fetch] and leave the storage alone, and they are not part of the
    state. *)

Section Methods.
Variable net : network.
Variable JSON_stringify : json → string.

(** [loadPosts({search, filter})] up to the rendering: the filter is
    only used by the rendering, and every error ends in an alert. *)
Definition loadPosts (search : option string) : js unit :=
  try_catch
    (let search := default "" search in
     let options :=
       Options (Some 12) None None (if nonempty search then Some search else None) in
     response ← getPosts net options;
     posts ← member response "data";
     ret ())
    (λ error, ret ()).

(** [handleSavePost()] on the values of the form, with the mode and the
    post id that [showPostModal] left; the id is whatever [post.id] was.
    The handler runs from the modal that [showPostModal] opened, so the
    modal it hides is there.  The reload of the feed is started in the
    same step as the modal is hidden; an error of the service ends in an
    alert. *)
Definition handleSavePost (f : form) (isEditMode : bool)
    (currentPostId : value) : js unit :=
  match handleSavePost_postData f with
  | None => ret ()
  | Some postData =>
      try_catch
        ((if isEditMode && Js.truthy currentPostId
          then updatePost net JSON_stringify (Js.toString_value currentPostId) postData;;
               ret ()
          else createPost net JSON_stringify postData;; ret ());;
         loadPosts None)
        (λ error, ret ())
  end.

Definition handleSearch (query : string) : js unit := loadPosts (Some query).

(** [deletePost(postId)]; [confirmed] is the answer to the dialog. The
    reload of the feed is started in the same step as the success alert. *)
Definition deletePost (postId : string) (confirmed : bool) : js unit :=
  if negb confirmed then ret ()
  else
    try_catch
      (PostsService.deletePost net postId;;
       loadPosts None)
      (λ error, ret ()).

(** [handleRegister()] on the values of the three inputs of the
    registration form; every way out ends in an alert. *)
Definition handleRegister (name email password : string) : js unit :=
  if negb (nonempty name) || negb (nonempty email) || negb (nonempty password)
  then ret ()
  else if negb (Session.isValidNoroffEmail email) then ret ()
  else if bool_decide (String.length password < 8)%nat then ret ()
  else
    try_catch
      (AuthService.register net JSON_stringify name email password;;
       ret ())
      (λ error, ret ()).

End Methods.
End SocialMediaApp.

(** * js/utils/ui.js *)

Module Ui.

(** [text.substring(0, n)] for [0 <= n] *)
Fixpoint take (n : nat) (s : string) : string :=
  match n, s with
  | O, _ => ""
  | S n', String c s' => String c (take n' s')
  | S _, "" => ""
  end.

(** [truncateText(text, maxLength = 150)]; a negative end of
    [substring] counts as 0. *)
Definition truncateText (text : string) (maxLength : option Z) : string :=
  let maxLength := default 150 maxLength in
  if bool_decide (Z.of_nat (String.length text) ≤ maxLength) then text
  else take (Z.to_nat maxLength) text +:+ "...".

End Ui.

(** * js/api/profiles.js *)

Module ProfilesService.
Import Config.

(** The options object of [getProfiles]. *)
Record options : Type := Options {
  limit : option Z;
  page : option Z;
  search : option string
}.

(** An avatar or a banner as [updateProfile] receives it. *)
Record image : Type := Image {
  image_url : option string;
  image_alt : option string
}.

(** The second argument of [updateProfile]. *)
Record profileData : Type := ProfileData {
  bio : option string;
  avatar : option image;
  banner : option image
}.

Definition URLSearchParams_toString := PostsService.URLSearchParams_toString.

Definition getProfiles_params (o : options) : list (string * string) :=
  let limit := default 12 (limit o) in
  let page := default 1 (page o) in
  [("limit", pretty limit); ("page", pretty page);
   ("_followers", "true"); ("_following", "true"); ("_posts", "true")].

Definition getProfiles_url (o : options) : string :=
  let params := getProfiles_params o in
  let search := default "" (search o) in
  let url := buildApiUrl PROFILES +:+ "?" +:+ URLSearchParams_toString params in
  if nonempty search then
    buildApiUrl PROFILES +:+ "/search?q=" +:+ encodeURIComponent search +:+ "&"
      +:+ URLSearchParams_toString params
  else url.

Definition searchProfiles_url (query : string) (limit page : option Z) : string :=
  let limit := default 12 limit in
  let page := default 1 page in
  let params :=
    [("q", query); ("limit", pretty limit); ("page", pretty page);
     ("_followers", "true"); ("_following", "true"); ("_posts", "true")] in
  buildApiUrl PROFILES +:+ "/search?" +:+ URLSearchParams_toString params.

(** One image field of [updateData], when the image has a truthy URL. *)
Definition image_field (name fallback : string) (i : option image)
    : list (string * json) :=
  match i with
  | Some img =>
      match image_url img with
      | Some u =>
          if nonempty u then
            [(name, JObj [("url", JStr (trim u));
                          ("alt", JStr (match image_alt img with
                                        | Some a => if nonempty a then a else fallback
                                        | None => fallback
                                        end))])]
          else []
      | None => []
      end
  | None => []
  end.

(** The object [updateData] of [updateProfile]. *)
Definition updateData (p : profileData) : json :=
  JObj ((match bio p with
         | Some text => [("bio", JStr (trim text))]
         | None => []
         end)
        ++ image_field "avatar" "Profile avatar" (avatar p)
        ++ image_field "banner" "Profile banner" (banner p)).

Section Methods.
Variable net : network.
Variable JSON_stringify : json → string.
Variable JSON_parse : string → content.


Definition getProfileByUsername (username : string) : js json :=
  try_catch
    (let params :=
       [("_followers", "true"); ("_following", "true"); ("_posts", "true")] in
     headers ← getAuthHeaders;
     response ← fetch net
       (Request (buildApiUrl PROFILES +:+ "/" +:+ username +:+ "?"
                   +:+ URLSearchParams_toString params) "GET" headers None);
     data ← response_json response;
     if negb (ok response) then
       detail ← first_error_message data;
       throw (Error (Js.toString (Js.or_else detail (JStr "Failed to fetch profile"))))
     else ret data)
    (λ error, throw (Error ("Failed to fetch profile: " +:+ message error))).

Definition getCurrentProfile : js json :=
  try_catch
    (stored ← Storage.getItem "userData";
     let text := if present stored then default "" stored else "{}" in
     userData ← match JSON_parse text with
                | Parsed user => ret user
                | Malformed why => throw (SyntaxError why)
                end;
     name ← member userData "name";
     if negb (Js.truthy name) then throw (Error "No authenticated user found")
     else getProfileByUsername (Js.toString_value name))
    (λ error, throw (Error ("Failed to fetch current profile: " +:+ message error))).


Definition followUser (username : string) : js json :=
  try_catch
    (headers ← getAuthHeaders;
     response ← fetch net
       (Request (buildApiUrl PROFILES +:+ "/" +:+ username +:+ "/follow") "PUT"
          headers None);
     data ← response_json response;
     if negb (ok response) then
       detail ← first_error_message data;
       throw (Error (Js.toString (Js.or_else detail (JStr "Failed to follow user"))))
     else ret data)
    (λ error, throw (Error ("Failed to follow user: " +:+ message error))).




End Methods.
End ProfilesService.

(** * A concrete serializer and concrete networks *)

Module Example.

(** Lower-case hexadecimal digit. *)
Definition hex (n : nat) : ascii :=
  ascii_of_nat (if bool_decide (n < 10)%nat then 48 + n else 87 + n).

(** The double quote. *)
Definition dquote : ascii := ascii_of_nat 34.

(** The escape of one character inside a JSON string. *)
Definition escape (c : ascii) : string :=
  let n := code c in
  if bool_decide (n = 34)%nat then String "\" (String dquote "")
  else if bool_decide (n = 92)%nat then "\\"
  else if bool_decide (n = 8)%nat then "\b"
  else if bool_decide (n = 9)%nat then "\t"
  else if bool_decide (n = 10)%nat then "\n"
  else if bool_decide (n = 12)%nat then "\f"
  else if bool_decide (n = 13)%nat then "\r"
  else if bool_decide (n < 32)%nat
       then "\u00" +:+ String (hex (n / 16)) (String (hex (n mod 16)) "")
  else String c "".

Fixpoint escape_all (s : string) : string :=
  match s with
  | "" => ""
  | String c s' => escape c +:+ escape_all s'
  end.

Definition quote (s : string) : string :=
  String dquote (escape_all s +:+ String dquote "").

(** [JSON.stringify] for documents whose objects have no key that is an
    array index (those keys would come first). *)
Fixpoint serialize (v : json) : string :=
  match v with
  | JNull => "null"
  | JBool b => if b then "true" else "false"
  | JNum n => pretty n
  | JStr s => quote s
  | JArr items => "[" +:+ join "," (map serialize items) +:+ "]"
  | JObj fields =>
      "{" +:+ join "," (map (λ kv, match kv with
                                   | (k, x) => quote k +:+ ":" +:+ serialize x
                                   end) fields) +:+ "}"
  end.

(** ** A parser for the documents [serialize] writes *)

Definition is_space (c : ascii) : bool :=
  bool_decide (code c ∈ [32; 9; 10; 13]%nat).

Fixpoint skip_spaces (s : string) : string :=
  match s with
  | String c s' => if is_space c then skip_spaces s' else s
  | "" => ""
  end.

(** [Some rest] when [s] starts with [word]. *)
Fixpoint expect (word s : string) : option string :=
  match word, s with
  | "", _ => Some s
  | String w word', String c s' => if decide (w = c) then expect word' s' else None
  | String _ _, "" => None
  end.

Definition digit (c : ascii) : option Z :=
  let n := code c in
  if bool_decide (48 ≤ n ≤ 57)%nat then Some (Z.of_nat (n - 48)) else None.

Fixpoint digits (acc : Z) (s : string) : Z * string :=
  match s with
  | String c s' =>
      match digit c with
      | Some d => digits (10 * acc + d) s'
      | None => (acc, s)
      end
  | "" => (acc, "")
  end.

(** An integer: an optional sign and at least one digit. *)
Definition number (s : string) : option (Z * string) :=
  let unsigned (t : string) :=
    match t with
    | String c _ =>
        match digit c with
        | Some _ => Some (digits 0 t)
        | None => None
        end
    | "" => None
    end in
  match s with
  | String c s' =>
      if bool_decide (code c = 45)%nat then
        match unsigned s' with
        | Some (n, rest) => Some (- n, rest)
        | None => None
        end
      else unsigned s
  | "" => None
  end.

Definition hex_value (c : ascii) : option nat :=
  let n := code c in
  if bool_decide (48 ≤ n ≤ 57)%nat then Some (n - 48)%nat
  else if bool_decide (97 ≤ n ≤ 102)%nat then Some (n - 87)%nat
  else if bool_decide (65 ≤ n ≤ 70)%nat then Some (n - 55)%nat
  else None.

(** The character an escape letter stands for. *)
Definition unescape (c : ascii) : option ascii :=
  let n := code c in
  if bool_decide (n = 34 ∨ n = 92 ∨ n = 47)%nat then Some c
  else if bool_decide (n = 98)%nat then Some (ascii_of_nat 8)
  else if bool_decide (n = 116)%nat then Some (ascii_of_nat 9)
  else if bool_decide (n = 110)%nat then Some (ascii_of_nat 10)
  else if bool_decide (n = 102)%nat then Some (ascii_of_nat 12)
  else if bool_decide (n = 114)%nat then Some (ascii_of_nat 13)
  else None.

(** The rest of a string literal, after its opening quote. *)
Fixpoint literal (s : string) : option (string * string) :=
  match s with
  | "" => None
  | String c s' =>
      if bool_decide (code c = 34)%nat then Some ("", s')
      else if bool_decide (code c = 92)%nat then
        match s' with
        | String e s'' =>
            if bool_decide (code e = 117)%nat then
              match s'' with
              | String h1 (String h2 (String h3 (String h4 s4))) =>
                  match hex_value h1, hex_value h2, hex_value h3, hex_value h4 with
                  | Some 0%nat, Some 0%nat, Some a, Some b =>
                      match literal s4 with
                      | Some (text, rest) =>
                          Some (String (ascii_of_nat (16 * a + b)) text, rest)
                      | None => None
                      end
                  | _, _, _, _ => None
                  end
              | _ => None
              end
            else
              match unescape e, literal s'' with
              | Some x, Some (text, rest) => Some (String x text, rest)
              | _, _ => None
              end
        | "" => None
        end
      else
        match literal s' with
        | Some (text, rest) => Some (String c text, rest)
        | None => None
        end
  end.

(** A value with at most [fuel] nested levels and [fuel] items a level. *)
Fixpoint value_of (fuel : nat) (s : string) : option (json * string) :=
  match fuel with
  | O => None
  | S fuel' =>
      let items :=
        fix items (n : nat) (s : string) : option (list json * string) :=
          match n with
          | O => None
          | S n' =>
              match value_of fuel' s with
              | Some (v, rest) =>
                  match skip_spaces rest with
                  | String c rest' =>
                      if bool_decide (code c = 44)%nat then
                        match items n' rest' with
                        | Some (vs, rest'') => Some (v :: vs, rest'')
                        | None => None
                        end
                      else if bool_decide (code c = 93)%nat then Some ([v], rest')
                      else None
                  | "" => None
                  end
              | None => None
              end
          end in
      let members :=
        fix members (n : nat) (s : string) : option (list (string * json) * string) :=
          match n with
          | O => None
          | S n' =>
              match skip_spaces s with
              | String q s1 =>
                  if bool_decide (code q = 34)%nat then
                    match literal s1 with
                    | Some (k, s2) =>
                        match skip_spaces s2 with
                        | String colon s3 =>
                            if bool_decide (code colon = 58)%nat then
                              match value_of fuel' s3 with
                              | Some (v, rest) =>
                                  match skip_spaces rest with
                                  | String c rest' =>
                                      if bool_decide (code c = 44)%nat then
                                        match members n' rest' with
                                        | Some (kvs, rest'') => Some ((k, v) :: kvs, rest'')
                                        | None => None
                                        end
                                      else if bool_decide (code c = 125)%nat
                                      then Some ([(k, v)], rest')
                                      else None
                                  | "" => None
                                  end
                              | None => None
                              end
                            else None
                        | "" => None
                        end
                    | None => None
                    end
                  else None
              | "" => None
              end
          end in
      match skip_spaces s with
      | "" => None
      | String c s' =>
          let n := code c in
          if bool_decide (n = 110)%nat then
            match expect "ull" s' with Some rest => Some (JNull, rest) | None => None end
          else if bool_decide (n = 116)%nat then
            match expect "rue" s' with
            | Some rest => Some (JBool true, rest)
            | None => None
            end
          else if bool_decide (n = 102)%nat then
            match expect "alse" s' with
            | Some rest => Some (JBool false, rest)
            | None => None
            end
          else if bool_decide (n = 34)%nat then
            match literal s' with
            | Some (text, rest) => Some (JStr text, rest)
            | None => None
            end
          else if bool_decide (n = 91)%nat then
            match skip_spaces s' with
            | String c' rest =>
                if bool_decide (code c' = 93)%nat then Some (JArr [], rest)
                else match items fuel' s' with
                     | Some (vs, rest') => Some (JArr vs, rest')
                     | None => None
                     end
            | "" => None
            end
          else if bool_decide (n = 123)%nat then
            match skip_spaces s' with
            | String c' rest =>
                if bool_decide (code c' = 125)%nat then Some (JObj [], rest)
                else match members fuel' s' with
                     | Some (kvs, rest') => Some (JObj kvs, rest')
                     | None => None
                     end
            | "" => None
            end
          else
            match number (String c s') with
            | Some (z, rest) => Some (JNum z, rest)
            | None => None
            end
      end
  end.

(** [JSON.parse] for documents with integer numbers: one value, and only
    white space after it. *)
Definition parse (s : string) : content :=
  match value_of (S (String.length s)) s with
  | Some (v, rest) =>
      match skip_spaces rest with
      | "" => Parsed v
      | _ => Malformed "Unexpected non-whitespace character after JSON"
      end
  | None => Malformed "Unexpected token in JSON"
  end.

(** A network that answers every request with the same response. *)
Definition replies (r : response) : network := λ _ _, Responded r.

(** A network without connection. *)
Definition offline : network := λ _ _, Rejected "Failed to fetch".

(** A server that signs the user in and whose key endpoint answers with
    the response [key]. *)
Definition server (key : response) : network :=
  λ _ rq,
    if decide (url rq = Config.buildApiUrl Config.LOGIN) then
      Responded (Response 200 (Parsed (JObj
        [("data", JObj [("name", JStr "ola"); ("email", JStr "ola@stud.noroff.no");
                        ("accessToken", JStr "t0k3n")]);
         ("meta", JObj [])])))
    else if decide (url rq = Config.buildApiUrl Config.API_KEY) then Responded key
    else Responded (Response 404 (Parsed (JObj
           [("errors", JArr [JObj [("message", JStr "Not found")]])]))).

End Example.

(** * The vocabulary of the statements *)

(** [getAuthHeaders] as a function of the two entries it reads. *)
Definition auth_headers_of (token apiKey : option string) : gmap string string :=
  let headers := Config.HEADERS in
  let headers :=
    if present token then <["Authorization" := "Bearer " +:+ default "" token]> headers
    else headers in
  if present apiKey then <["X-Noroff-API-Key" := default "" apiKey]> headers
  else headers.

(** The reading of C8 in which "a token is stored" means that the storage
    has the entry: the header set has [Authorization] exactly when the
    entry [authToken] exists, and the API-key header exactly when the entry
    [apiKey] exists. *)
Definition headers_follow_entries (b : browser) : Prop :=
  ∃ headers,
    Config.getAuthHeaders b = (Normal headers, b) ∧
    (is_Some (headers !! "Authorization") ↔ is_Some (localStorage b !! "authToken")) ∧
    (is_Some (headers !! "X-Noroff-API-Key") ↔ is_Some (localStorage b !! "apiKey")).

(** A string of white space only. *)
Fixpoint blank (s : string) : bool :=
  match s with
  | "" => true
  | String c s' => is_whitespace c && blank s'
  end.

(** No white space at the front, none at the back. *)
Definition tight_front (s : string) : Prop :=
  ∀ c s', s = String c s' → is_whitespace c = false.
Definition tight_back (s : string) : Prop :=
  ∀ s' c, s = s' +:+ String c "" → is_whitespace c = false.




(** A computation that completes normally. *)
Definition returns_normally {A} (outcome : completion A * browser) : Prop :=
  ∃ a, outcome.1 = Normal a.

Section Vocabulary.
Import PostsService.
Variable net : network.
Variable JSON_stringify : json → string.

(** The shape the methods of [PostsService] share: build a request
    around the auth headers, send it, read the body, and turn a status
    outside 2xx into an error. *)
Definition call (mk : gmap string string → request) (fallback prefix : string)
    : js json :=
  try_catch
    (headers ← Config.getAuthHeaders;
     response ← fetch net (mk headers);
     data ← response_json response;
     if negb (ok response) then
       detail ← first_error_message data;
       throw (Error (Js.toString (Js.or_else detail (JStr fallback))))
     else ret data)
    (λ error, throw (Error (prefix +:+ message error))).


(** The tags that are left of a list: every tag trimmed, without the
    ones that are empty then. *)
Definition clean_tags (tags : list string) : list string :=
  omap (λ tag, if decide (trim tag = "") then None else Some (trim tag)) tags.

(** The fields of the payload that are always there. *)
Definition base_fields (p : postData) : list (string * json) :=
  [("title", JStr (trim (title p)));
   ("body", JStr (trim (body p)));
   ("tags", JArr (JStr <$> clean_tags (default [] (tags p))))].

(** The media object of a payload. *)
Definition media_field (p : postData) (m : string) : json :=
  JObj [("url", JStr (trim m));
        ("alt", JStr (if nonempty (title p) then title p else "Post media"))].

(** The request [createApiKey] of the later [AuthService] sends. *)
Definition key_request (b : browser) : request :=
  Request (Config.buildApiUrl Config.API_KEY) "POST"
    (auth_headers_of (localStorage b !! "authToken") (localStorage b !! "apiKey"))
    (Some (JSON_stringify (JObj [("name", JStr "Social Media App Key")]))).

(** The request [createApiKey] of [js/api/auth.js] sends: no body. *)
Definition bare_key_request (b : browser) : request :=
  Request (Config.buildApiUrl Config.API_KEY) "POST"
    (auth_headers_of (localStorage b !! "authToken") (localStorage b !! "apiKey"))
    None.

(** The state once a request has gone out. *)
Definition after_request (b : browser) (rq : request) : browser :=
  Browser (localStorage b) (sent b ++ [rq]).

(** What [createApiKey] makes of the reply to its request: the key to
    store, or the exception to throw. *)
Definition key_of_reply (answer : reply) : completion string :=
  match answer with
  | Rejected why => Throw (TypeError why)
  | Responded r =>
      match payload r with
      | Malformed why => Throw (SyntaxError why)
      | Parsed data =>
          if ok r then
            match data with
            | JNull => Throw (TypeError (null_read "data"))
            | _ =>
                let key := Js.prop_opt "key" (Js.prop "data" data) in
                if Js.truthy key then Normal (Js.toString_value key)
                else Throw (Error "No API key returned from server")
            end
          else if decide (status r = 401) then
            Throw (Error "Unauthorized - Please login again")
          else if decide (status r = 500) then
            Throw (Error "Server error - Please try again later")
          else
            match data with
            | JNull => Throw (TypeError (null_read "errors"))
            | _ =>
                Throw (Error (Js.toString (Js.or_else
                  (Js.prop_opt "message" (Js.item_opt 0 (Js.prop "errors" data)))
                  (JStr ("API key creation failed (" +:+ pretty (status r) +:+ ")")))))
            end
      end
  end.

(** What [createApiKey] of [js/api/auth.js] keeps of the reply to its
    request: the key of a 2xx answer with a truthy [data.key]. *)
Definition key_in_reply (answer : reply) : option string :=
  match answer with
  | Responded r =>
      match payload r with
      | Parsed data =>
          let key := Js.prop_opt "key" (Js.prop "data" data) in
          if ok r && Js.truthy key then Some (Js.toString_value key) else None
      | Malformed _ => None
      end
  | Rejected _ => None
  end.

(** The request of the token exchange. *)
Definition login_request (email password : string) : request :=
  Request (Config.buildApiUrl Config.LOGIN) "POST" Config.HEADERS
    (Some (JSON_stringify (JObj [("email", JStr email); ("password", JStr password)]))).

(** The state [login] reaches once it has stored the token and the user
    of the document [data]. *)
Definition signed_in (b : browser) (rq : request) (data : json) : browser :=
  let d := Js.prop "data" data in
  Browser
    (<["userData" := AuthService2.stringify_value JSON_stringify d]>
       (<["authToken" := Js.toString_value (Js.prop_opt "accessToken" d)]>
          (localStorage b)))
    (sent b ++ [rq]).

(** The exceptions by which [createApiKey] tells a 401 and a 500. *)
Definition Unauthorized : exn := Error "Unauthorized - Please login again".
Definition ServerError : exn := Error "Server error - Please try again later".

(** The exception for the other statuses outside 2xx: the first error
    message of the server, or else a text with the status. *)
Definition KeyCreationFailed (data : json) (status : Z) : exn :=
  Error (Js.toString (Js.or_else
    (Js.prop_opt "message" (Js.item_opt 0 (Js.prop "errors" data)))
    (JStr ("API key creation failed (" +:+ pretty status +:+ ")")))).

End Vocabulary.

(** ** The vocabulary of the further statements *)

(** What a method makes of the reply to its one request: the document
    of a 2xx answer, or an [Error] whose message is the prefix of the
    method followed by the reason. *)
Definition call_outcome (answer : reply) (fallback prefix : string)
    : completion json :=
  match answer with
  | Rejected why => Throw (Error (prefix +:+ why))
  | Responded r =>
      match payload r with
      | Malformed why => Throw (Error (prefix +:+ why))
      | Parsed data =>
          if ok r then Normal data
          else
            match data with
            | JNull => Throw (Error (prefix +:+ null_read "errors"))
            | _ =>
                Throw (Error (prefix +:+ Js.toString (Js.or_else
                  (Js.prop_opt "message" (Js.item_opt 0 (Js.prop "errors" data)))
                  (JStr fallback))))
            end
      end
  end.

(** A completion whose exceptions are all [Error]s with a message that
    starts with [prefix]. *)
Definition prefixed {A} (prefix : string) (c : completion A) : Prop :=
  ∀ e, c = Throw e → name e = "Error" ∧ ∃ reason, message e = prefix +:+ reason.

(** The request with the auth headers of the storage of [b]. *)
Definition authorized (b : browser) (mk : gmap string string → request) : request :=
  mk (auth_headers_of (localStorage b !! "authToken") (localStorage b !! "apiKey")).

(** The request of [register]. *)
Definition register_request (JSON_stringify : json → string)
    (name email password : string) : request :=
  Request (Config.buildApiUrl Config.REGISTER) "POST" Config.HEADERS
    (Some (JSON_stringify
             (JObj [("name", JStr name); ("email", JStr email);
                    ("password", JStr password)]))).

(** The method [m] sends the one request [rq] and leaves the storage
    alone; whatever goes wrong comes out as an [Error] with the prefix
    of the method: the reason of a transport failure, or the first
    error message of a response outside 2xx. *)
Definition wraps (net : network) {A} (m : js A) (rq : request) (prefix : string)
    (b : browser) : Prop :=
  ∃ c, m b = (c, after_request b rq) ∧
       prefixed prefix c ∧
       (∀ why, net (sent b) rq = Rejected why →
               c = Throw (Error (prefix +:+ why))) ∧
       (∀ r data detail,
          net (sent b) rq = Responded r → ok r = false → payload r = Parsed data →
          Js.prop_opt "message" (Js.item_opt 0 (Js.prop "errors" data))
            = Some (JStr detail) →
          detail ≠ "" →
          c = Throw (Error (prefix +:+ detail))).

(** A string of characters that both encoders of a query leave alone:
    letters, digits and [* - . _]. *)
Fixpoint plain (s : string) : bool :=
  match s with
  | "" => true
  | String c s' => form_unreserved c && plain s'
  end.

(** The character [c] occurs in [s]. *)
Fixpoint has_char (c : ascii) (s : string) : bool :=
  match s with
  | "" => false
  | String c' s' => bool_decide (c' = c) || has_char c s'
  end.

(** * Properties *)

(** ** Running a computation *)

Lemma run_bind {A B} (m : js A) (k : A → js B) (b : browser) :
  (m ≫= k) b =
  match m b with
  | (Normal a, b') => k a b'
  | (Throw e, b') => (Throw e, b')
  end.
Proof. reflexivity. Qed.

Lemma run_getItem (k : string) (b : browser) :
  Storage.getItem k b = (Normal (localStorage b !! k), b).
Proof. reflexivity. Qed.

(** [present] is the truthiness of a storage entry. *)
Lemma present_true (entry : option string) :
  present entry = true ↔ ∃ s, entry = Some s ∧ s ≠ "".
Proof.
  destruct entry as [[|c s]|]; simpl; split; try done.
  - intros (s & [= <-] & Hs). done.
  - intros _. by eexists.
  - intros (s & ? & _). done.
Qed.

Lemma present_false (entry : option string) :
  present entry = false ↔ entry = None ∨ entry = Some "".
Proof.
  destruct entry as [[|c s]|]; simpl; split; try done; auto.
  intros [?|?]; done.
Qed.

(** ** Session state *)

(** C1: [isAuthenticated()] completes normally in every storage state,
    leaves the state alone, and answers [true] exactly when both the
    bearer token and the API key are stored and are not the empty string;
    it answers [false] as soon as one of the two entries is absent or
    empty. *)
Theorem isAuthenticated_iff_token_and_key (b : browser) :
  ∃ answer : bool,
    Session.isAuthenticated b = (Normal answer, b) ∧
    (answer = true ↔
       ∃ token apiKey,
         localStorage b !! "authToken" = Some token ∧ token ≠ "" ∧
         localStorage b !! "apiKey" = Some apiKey ∧ apiKey ≠ "") ∧
    (localStorage b !! "authToken" = None ∨ localStorage b !! "authToken" = Some "" ∨
     localStorage b !! "apiKey" = None ∨ localStorage b !! "apiKey" = Some "" →
     answer = false).
Proof.
  exists (present (localStorage b !! "authToken")
          && present (localStorage b !! "apiKey")).
  split; [reflexivity|]. split.
  - rewrite andb_true_iff, !present_true. split.
    + intros [(t & Ht & ?) (k & Hk & ?)]. by exists t, k.
    + intros (t & k & ? & ? & ? & ?). split; by eexists.
  - rewrite andb_false_iff, !present_false. tauto.
Qed.

(** [logout] as a function on the state. *)
Lemma run_logout (b : browser) :
  Session.logout b =
  (Normal (),
   Browser (delete "userData" (delete "apiKey" (delete "authToken" (localStorage b))))
           (sent b)).
Proof. reflexivity. Qed.

(** C9: from every state [logout()] completes normally, removes the
    three session entries and only those, and sends no request;
    afterwards [getCurrentUser()] returns [null] and [isAuthenticated()]
    returns [false], both without touching the state. *)
Theorem logout_clears_session (JSON_parse : string → content) (b : browser) :
  ∃ b',
    Session.logout b = (Normal (), b') ∧
    localStorage b' !! "authToken" = None ∧
    localStorage b' !! "apiKey" = None ∧
    localStorage b' !! "userData" = None ∧
    (∀ k, k ∉ ["authToken"; "apiKey"; "userData"] →
          localStorage b' !! k = localStorage b !! k) ∧
    sent b' = sent b ∧
    Session.getCurrentUser JSON_parse b' = (Normal JNull, b') ∧
    Session.isAuthenticated b' = (Normal false, b').
Proof.
  eexists. split; [apply run_logout|].
  assert (∀ k : string,
    delete "userData" (delete "apiKey" (delete "authToken" (localStorage b))) !! k
    = if bool_decide (k ∈ ["authToken"; "apiKey"; "userData"]) then None
      else localStorage b !! k) as Hlook.
  { intros k. rewrite !lookup_delete. case_bool_decide as Hk.
    - repeat case_decide; try done.
      rewrite !elem_of_cons, elem_of_nil in Hk.
      destruct Hk as [?|[?|[?|[]]]]; done.
    - rewrite !not_elem_of_cons in Hk. destruct Hk as (? & ? & ? & _).
      repeat case_decide; done. }
  repeat split; simpl.
  - by rewrite Hlook.
  - by rewrite Hlook.
  - by rewrite Hlook.
  - intros k Hk. rewrite Hlook. by rewrite bool_decide_eq_false_2.
  - unfold Session.getCurrentUser. rewrite run_bind, run_getItem. simpl.
    by rewrite Hlook.
  - unfold Session.isAuthenticated. rewrite !run_bind, !run_getItem. simpl.
    rewrite run_bind, run_getItem. simpl. by rewrite !Hlook.
Qed.

(** ** Auth headers *)

Lemma run_getAuthHeaders (b : browser) :
  Config.getAuthHeaders b =
  (Normal (auth_headers_of (localStorage b !! "authToken") (localStorage b !! "apiKey")), b).
Proof.
  unfold Config.getAuthHeaders. rewrite !run_bind, run_getItem. simpl.
  rewrite run_bind, run_getItem. simpl. unfold ret, auth_headers_of.
  by destruct (localStorage b !! "authToken") as [[|c t]|],
              (localStorage b !! "apiKey") as [[|c' k]|].
Qed.

Lemma auth_headers_Authorization (token apiKey : option string) :
  auth_headers_of token apiKey !! "Authorization" =
  if present token then Some ("Bearer " +:+ default "" token) else None.
Proof.
  unfold auth_headers_of, Config.HEADERS.
  destruct (present token), (present apiKey); simpl;
    rewrite ?lookup_insert; repeat case_decide; try done.
Qed.

Lemma auth_headers_api_key (token apiKey : option string) :
  auth_headers_of token apiKey !! "X-Noroff-API-Key" =
  if present apiKey then Some (default "" apiKey) else None.
Proof.
  unfold auth_headers_of, Config.HEADERS.
  destruct (present token), (present apiKey); simpl;
    rewrite ?lookup_insert; repeat case_decide; try done.
Qed.

Lemma auth_headers_content_type (token apiKey : option string) :
  auth_headers_of token apiKey !! "Content-Type" = Some "application/json".
Proof.
  unfold auth_headers_of, Config.HEADERS.
  destruct (present token), (present apiKey); simpl;
    rewrite ?lookup_insert; repeat case_decide; try done.
Qed.

(** The builder never throws and never changes the state. *)
Lemma getAuthHeaders_total (b : browser) :
  ∃ headers, Config.getAuthHeaders b = (Normal headers, b).
Proof. eexists. apply run_getAuthHeaders. Qed.

(** C8, as stated, fails when the stored token is the empty string: the
    entry exists, and the header is left out. *)
Lemma getAuthHeaders_empty_token :
  ¬ headers_follow_entries (Browser {[ "authToken" := "" ]} []).
Proof.
  intros (headers & Hrun & Htoken & _).
  rewrite run_getAuthHeaders in Hrun. injection Hrun as <-.
  rewrite auth_headers_Authorization in Htoken. simpl in Htoken.
  destruct Htoken as [_ Htoken].
  destruct Htoken as [? [=]]. by eexists.
Qed.

(** C8 (amended): in every storage state [getAuthHeaders()] completes
    normally without changing the state; its result has
    [Authorization: Bearer <token>] exactly when a non-empty token is
    stored, and [X-Noroff-API-Key: <key>] exactly when a non-empty API
    key is stored, each whatever the other entry is; [Content-Type] is
    always there and no other header is. *)
Theorem getAuthHeaders_nonempty_entries (b : browser) :
  ∃ headers,
    Config.getAuthHeaders b = (Normal headers, b) ∧
    (∀ v, headers !! "Authorization" = Some v ↔
          ∃ token, localStorage b !! "authToken" = Some token ∧ token ≠ "" ∧
                   v = "Bearer " +:+ token) ∧
    (∀ v, headers !! "X-Noroff-API-Key" = Some v ↔
          localStorage b !! "apiKey" = Some v ∧ v ≠ "") ∧
    headers !! "Content-Type" = Some "application/json" ∧
    (∀ h, h ∉ ["Authorization"; "X-Noroff-API-Key"; "Content-Type"] →
          headers !! h = None).
Proof.
  eexists. split; [apply run_getAuthHeaders|].
  set (token := localStorage b !! "authToken").
  set (apiKey := localStorage b !! "apiKey").
  split_and!.
  - intros v. rewrite auth_headers_Authorization. split.
    + destruct token as [[|c t]|]; simpl; [done| |done].
      intros [= <-]. by eexists.
    + intros (t & -> & Ht & ->). by destruct t.
  - intros v. rewrite auth_headers_api_key. split.
    + destruct apiKey as [[|c k]|]; simpl; [done| |done].
      by intros [= <-].
    + intros [-> Hv]. by destruct v.
  - apply auth_headers_content_type.
  - intros h Hh. rewrite !not_elem_of_cons in Hh. destruct Hh as (? & ? & ? & _).
    unfold auth_headers_of, Config.HEADERS.
    destruct (present token), (present apiKey); simpl;
      rewrite ?lookup_insert_ne by done; by rewrite lookup_singleton_ne.
Qed.

(** ** Strings *)

Section Strings.

Lemma string_app_cons (c : ascii) (s t : string) :
  String c s +:+ t = String c (s +:+ t).
Proof. reflexivity. Qed.

Lemma string_app_nil_l (s : string) : "" +:+ s = s.
Proof. reflexivity. Qed.

Lemma string_app_nil_r (s : string) : s +:+ "" = s.
Proof. induction s as [|c s IH]; [done|]. by rewrite string_app_cons, IH. Qed.

Lemma string_app_assoc (s1 s2 s3 : string) :
  (s1 +:+ s2) +:+ s3 = s1 +:+ s2 +:+ s3.
Proof. induction s1 as [|c s1 IH]; [done|]. by rewrite !string_app_cons, IH. Qed.

Lemma string_length_app (s1 s2 : string) :
  String.length (s1 +:+ s2) = (String.length s1 + String.length s2)%nat.
Proof.
  induction s1 as [|c s1 IH]; [done|]. rewrite string_app_cons. cbn. by rewrite IH.
Qed.

Lemma drop_app_length (p d : string) : drop (String.length p) (p +:+ d) = d.
Proof. induction p as [|c p IH]; [by destruct d|]. apply IH. Qed.

Lemma drop_suffix (n : nat) (s : string) : ∃ p, s = p +:+ drop n s.
Proof.
  revert s. induction n as [|n IH]; intros s.
  - by exists "".
  - destruct s as [|c s]; [by exists ""|].
    destruct (IH s) as [p Hp]. exists (String c p).
    rewrite string_app_cons. cbn [drop]. by rewrite <-Hp.
Qed.

(** [endsWith] is the suffix relation. *)
Lemma endsWith_suffix (s d : string) :
  endsWith s d = true ↔ ∃ p, s = p +:+ d.
Proof.
  unfold endsWith. split.
  - case_bool_decide; [|done]. intros Hd%bool_decide_eq_true.
    destruct (drop_suffix (String.length s - String.length d) s) as [p Hp].
    exists p. by rewrite Hd in Hp.
  - intros [p ->]. rewrite string_length_app.
    rewrite bool_decide_eq_true_2 by lia.
    replace (String.length p + String.length d - String.length d)%nat
      with (String.length p) by lia.
    apply bool_decide_eq_true, drop_app_length.
Qed.

Lemma lower_char_idemp (c : ascii) : lower_char (lower_char c) = lower_char c.
Proof. by destruct c as [[] [] [] [] [] [] [] []]. Qed.

Lemma toLowerCase_idemp (s : string) : toLowerCase (toLowerCase s) = toLowerCase s.
Proof.
  induction s as [|c s IH]; [done|]. cbn [toLowerCase].
  by rewrite lower_char_idemp, IH.
Qed.

Lemma trimStart_spec (s : string) :
  ∃ l, s = l +:+ trimStart s ∧ blank l = true ∧ tight_front (trimStart s).
Proof.
  induction s as [|c s (l & Hl & Hblank & Htight)].
  - exists "". by split_and!.
  - cbn [trimStart]. destruct (is_whitespace c) eqn:Hc.
    + exists (String c l). rewrite string_app_cons, <-Hl. cbn [blank].
      rewrite Hc. by split_and!.
    + exists "". split_and!; [done..|]. by intros ?? [= <- <-].
Qed.

Lemma trimEnd_nil (s : string) : trimEnd s = "" → blank s = true.
Proof.
  induction s as [|c s IH]; [done|]. cbn [trimEnd blank].
  destruct (trimEnd s); [|done].
  destruct (is_whitespace c); [|done]. intros _. by rewrite IH.
Qed.

Lemma tight_back_cons (c : ascii) (s : string) :
  s ≠ "" → tight_back s → tight_back (String c s).
Proof.
  intros Hs Htight [|c' s'] c0; rewrite ?string_app_cons, ?string_app_nil_l.
  - intros [= -> ->]. done.
  - intros [= -> ->]. by eapply Htight.
Qed.

Lemma trimEnd_spec (s : string) :
  ∃ r, s = trimEnd s +:+ r ∧ blank r = true ∧ tight_back (trimEnd s).
Proof.
  induction s as [|c s (r & Hr & Hblank & Htight)].
  - exists "". split_and!; [done..|]. by intros [|??] ?.
  - cbn [trimEnd]. destruct (trimEnd s) as [|c' t] eqn:Ht.
    + destruct (is_whitespace c) eqn:Hc.
      * exists (String c s). cbn [blank]. rewrite Hc.
        split_and!; [done| |by intros [|??] ?].
        by apply trimEnd_nil.
      * exists r. rewrite string_app_cons, string_app_nil_l.
        rewrite string_app_nil_l in Hr. subst r. split_and!; [done..|].
        intros [|c1 s1] c0; rewrite ?string_app_cons, ?string_app_nil_l;
          [by intros [= <-]|].
        intros [= _ Habs]. by destruct s1.
    + exists r. rewrite string_app_cons, <-Hr. split_and!; [done..|].
      by apply tight_back_cons.
Qed.

Lemma trimEnd_front (s : string) : tight_front s → tight_front (trimEnd s).
Proof.
  intros Htight c t. destruct s as [|c0 s]; [done|]. cbn [trimEnd].
  specialize (Htight c0 s eq_refl).
  destruct (trimEnd s); [destruct (is_whitespace c0) eqn:?; [done|]|];
    by intros [= <- <-].
Qed.

Lemma trimStart_tight (s : string) : tight_front s → trimStart s = s.
Proof.
  destruct s as [|c s]; [done|]. intros Htight. cbn.
  by rewrite (Htight c s eq_refl).
Qed.

Lemma trimEnd_tight (s : string) : tight_back s → trimEnd s = s.
Proof.
  induction s as [|c s IH]; [done|]. intros Htight. cbn [trimEnd].
  destruct s as [|c' s].
  - cbn. by rewrite (Htight "" c eq_refl).
  - rewrite IH; [done|]. intros s' c0 Hs. apply (Htight (String c s') c0).
    by rewrite string_app_cons, <-Hs.
Qed.

(** [trim] cuts white space, and nothing else, from both ends. *)
Lemma trim_spec (s : string) :
  ∃ l r, s = l +:+ trim s +:+ r ∧ blank l = true ∧ blank r = true ∧
         tight_front (trim s) ∧ tight_back (trim s).
Proof.
  destruct (trimStart_spec s) as (l & Hl & Hbl & Hfront).
  destruct (trimEnd_spec (trimStart s)) as (r & Hr & Hbr & Hback).
  exists l, r. unfold trim. rewrite <-Hr.
  split_and!; [done..|by apply trimEnd_front|done].
Qed.

Lemma trim_idemp (s : string) : trim (trim s) = trim s.
Proof.
  destruct (trim_spec s) as (_ & _ & _ & _ & _ & Hfront & Hback).
  unfold trim at 1. rewrite trimStart_tight by done. by apply trimEnd_tight.
Qed.

Lemma nonempty_true (s : string) : nonempty s = true ↔ s ≠ "".
Proof. by destruct s. Qed.

Lemma nonempty_length (s : string) : (0 < String.length s)%nat ↔ s ≠ "".
Proof. destruct s; cbn; split; try done; lia. Qed.




End Strings.

(** ** Email domains *)

(** C7: [isValidNoroffEmail] is a function of its argument alone; it
    answers [true] exactly when the lower-cased email ends with
    [@noroff.no] or [@stud.noroff.no]; two emails that differ only in
    case get the same answer; it accepts [X@STUD.NOROFF.NO] and rejects
    [x@gmail.com]. *)
Theorem isValidNoroffEmail_suffix_match :
  Session.noroffDomains = ["@noroff.no"; "@stud.noroff.no"] ∧
  (∀ email,
     Session.isValidNoroffEmail email = true ↔
     ∃ domain prefix,
       domain ∈ Session.noroffDomains ∧ toLowerCase email = prefix +:+ domain) ∧
  (∀ email1 email2,
     toLowerCase email1 = toLowerCase email2 →
     Session.isValidNoroffEmail email1 = Session.isValidNoroffEmail email2) ∧
  (∀ email, Session.isValidNoroffEmail (toLowerCase email)
            = Session.isValidNoroffEmail email) ∧
  Session.isValidNoroffEmail "X@STUD.NOROFF.NO" = true ∧
  Session.isValidNoroffEmail "x@gmail.com" = false.
Proof.
  split_and!; [done| | | |done..].
  - intros email. unfold Session.isValidNoroffEmail.
    rewrite existsb_exists. split.
    + intros (domain & Hin%list_elem_of_In & [prefix Hp]%endsWith_suffix).
      by exists domain, prefix.
    + intros (domain & prefix & Hin & Hp). exists domain.
      split; [by apply list_elem_of_In|]. apply endsWith_suffix. by exists prefix.
  - intros email1 email2 Heq. unfold Session.isValidNoroffEmail. by rewrite Heq.
  - intros email. unfold Session.isValidNoroffEmail. by rewrite toLowerCase_idemp.
Qed.

(** ** Resource requests *)

Section Calls.
Variable net : network.
Variable JSON_stringify : json → string.

(** A call sends exactly one request, with the auth headers of the
    current storage, and leaves the storage alone. *)
Lemma run_call mk fallback prefix (b : browser) :
  ∃ c, call net mk fallback prefix b =
       (c, Browser (localStorage b)
             (sent b ++ [mk (auth_headers_of (localStorage b !! "authToken")
                                             (localStorage b !! "apiKey"))])).
Proof.
  unfold call, try_catch. rewrite run_bind, run_getAuthHeaders.
  rewrite run_bind. unfold fetch at 1.
  destruct (net _ _) as [why|r]; [by eexists|].
  rewrite run_bind. unfold response_json.
  destruct (payload r) as [why|data]; [by eexists|]. unfold ret at 1.
  destruct (ok r); cbn [negb]; [by eexists|].
  unfold first_error_message. rewrite run_bind.
  destruct data; by eexists.
Qed.

Lemma getPosts_call (o : PostsService.options) :
  PostsService.getPosts net o =
  call net (λ headers, Request (PostsService.getPosts_url o) "GET" headers None)
       "Failed to fetch posts" "Failed to fetch posts: ".
Proof. reflexivity. Qed.

Lemma createPost_call (p : PostsService.postData) :
  PostsService.createPost net JSON_stringify p =
  call net (λ headers, Request (Config.buildApiUrl Config.POSTS) "POST" headers
                     (Some (JSON_stringify (PostsService.postPayload p))))
       "Failed to create post" "Failed to create post: ".
Proof. reflexivity. Qed.

Lemma updatePost_call (id : string) (p : PostsService.postData) :
  PostsService.updatePost net JSON_stringify id p =
  call net (λ headers, Request (Config.buildApiUrl Config.POSTS +:+ "/" +:+ id) "PUT"
                     headers (Some (JSON_stringify (PostsService.postPayload p))))
       "Failed to update post" "Failed to update post: ".
Proof. reflexivity. Qed.

End Calls.

Section Posts.
Import PostsService.
Variable net : network.
Variable JSON_stringify : json → string.


(** ** Post payloads *)

Lemma clean_tags_filter_map (tags : list string) :
  map (λ tag, JStr (trim tag))
      (filter (λ tag, (0 < String.length (trim tag))%nat) tags)
  = JStr <$> clean_tags tags.
Proof.
  induction tags as [|tag tags IH]; [done|].
  rewrite filter_cons.
  change (clean_tags (tag :: tags))
    with (match (if decide (trim tag = "") then None else Some (trim tag)) with
          | Some t => t :: clean_tags tags
          | None => clean_tags tags
          end).
  destruct (decide (trim tag = "")) as [Heq|Hne].
  - rewrite decide_False by (rewrite Heq; cbn; lia). apply IH.
  - rewrite decide_True by (by apply nonempty_length).
    cbn [map fmap list_fmap]. f_equal. apply IH.
Qed.

Lemma elem_of_clean_tags (tags : list string) (t : string) :
  t ∈ clean_tags tags ↔ t ≠ "" ∧ ∃ raw, raw ∈ tags ∧ t = trim raw.
Proof.
  unfold clean_tags. rewrite list_elem_of_omap. split.
  - intros (raw & Hin & Hraw). case_decide; [done|]. injection Hraw as <-. eauto.
  - intros (Ht & raw & Hin & ->). exists raw. split; [done|]. by case_decide.
Qed.

Lemma clean_tags_tight (tags : list string) (t : string) :
  t ∈ clean_tags tags → trim t = t ∧ tight_front t ∧ tight_back t.
Proof.
  intros (_ & raw & _ & ->)%elem_of_clean_tags.
  destruct (trim_spec raw) as (_ & _ & _ & _ & _ & ? & ?).
  split_and!; [apply trim_idemp|done..].
Qed.

Lemma postPayload_cases (p : postData) :
  postPayload p =
  match media p with
  | Some m =>
      if decide (trim m = "") then JObj (base_fields p)
      else JObj (base_fields p ++ [("media", media_field p m)])
  | None => JObj (base_fields p)
  end.
Proof.
  unfold postPayload, base_fields, media_field. rewrite clean_tags_filter_map.
  destruct (media p) as [m|]; [|done].
  case_decide as Hm.
  - rewrite Hm. by rewrite andb_false_r.
  - rewrite (proj2 (nonempty_true (trim m)) Hm).
    assert (nonempty m = true) as ->; [|done].
    apply nonempty_true. by intros ->.
Qed.

Lemma blank_trimStart (s : string) : blank s = true → trimStart s = "".
Proof.
  induction s as [|c s IH]; [done|]. cbn [blank trimStart].
  intros [-> Hs]%andb_true_iff. auto.
Qed.

Lemma blank_app (s1 s2 : string) :
  blank (s1 +:+ s2) = blank s1 && blank s2.
Proof.
  induction s1 as [|c s1 IH]; [done|]. rewrite string_app_cons. cbn [blank].
  by rewrite IH, andb_assoc.
Qed.

(** A string trims to nothing exactly when it is empty or white space. *)
Lemma trim_nil_blank (s : string) : trim s = "" ↔ blank s = true.
Proof.
  split.
  - intros Hs. destruct (trim_spec s) as (l & r & Heq & Hl & Hr & _).
    rewrite Hs, string_app_nil_l in Heq. by rewrite Heq, blank_app, Hl, Hr.
  - intros Hs. unfold trim. by rewrite blank_trimStart.
Qed.

Lemma createPost_sends (p : postData) (b : browser) :
  ∃ c headers,
    createPost net JSON_stringify p b =
    (c, Browser (localStorage b)
          (sent b ++ [Request (Config.buildApiUrl Config.POSTS) "POST" headers
                        (Some (JSON_stringify (postPayload p)))])).
Proof.
  rewrite createPost_call.
  destruct (run_call net
    (λ headers, Request (Config.buildApiUrl Config.POSTS) "POST" headers
                  (Some (JSON_stringify (postPayload p))))
    "Failed to create post" "Failed to create post: " b) as [c Hc].
  by eexists _, _.
Qed.

Lemma updatePost_sends (id : string) (p : postData) (b : browser) :
  ∃ c headers,
    updatePost net JSON_stringify id p b =
    (c, Browser (localStorage b)
          (sent b ++ [Request (Config.buildApiUrl Config.POSTS +:+ "/" +:+ id) "PUT"
                        headers (Some (JSON_stringify (postPayload p)))])).
Proof.
  rewrite updatePost_call.
  destruct (run_call net
    (λ headers, Request (Config.buildApiUrl Config.POSTS +:+ "/" +:+ id) "PUT" headers
                  (Some (JSON_stringify (postPayload p))))
    "Failed to update post" "Failed to update post: " b) as [c Hc].
  by eexists _, _.
Qed.

(** C5: [createPost] and [updatePost] send the serialized [postPayload].
    When the media URL is left out, [null], empty or white space only,
    the payload has no [media] field; otherwise its [media] field is an
    object whose [url] is the trimmed URL. *)
Theorem postPayload_media (id : string) (p : postData) (b : browser) :
  (∃ c headers,
     createPost net JSON_stringify p b =
     (c, Browser (localStorage b)
           (sent b ++ [Request (Config.buildApiUrl Config.POSTS) "POST" headers
                         (Some (JSON_stringify (postPayload p)))]))) ∧
  (∃ c headers,
     updatePost net JSON_stringify id p b =
     (c, Browser (localStorage b)
           (sent b ++ [Request (Config.buildApiUrl Config.POSTS +:+ "/" +:+ id) "PUT"
                         headers (Some (JSON_stringify (postPayload p)))]))) ∧
  (media p = None ∨ (∃ m, media p = Some m ∧ blank m = true) →
   Js.prop "media" (postPayload p) = None) ∧
  (∀ m, media p = Some m → blank m = false →
        ∃ alt, Js.prop "media" (postPayload p)
               = Some (JObj [("url", JStr (trim m)); ("alt", alt)])).
Proof.
  split_and!.
  - apply createPost_sends.
  - apply updatePost_sends.
  - rewrite postPayload_cases. intros [->|(m & -> & Hm%trim_nil_blank)]; [done|].
    by rewrite decide_True.
  - intros m Hm Hblank. rewrite postPayload_cases, Hm.
    rewrite decide_False; [by eexists|].
    rewrite trim_nil_blank. by rewrite Hblank.
Qed.

Lemma clean_tags_idemp (tags : list string) :
  clean_tags (clean_tags tags) = clean_tags tags.
Proof.
  induction tags as [|tag tags IH]; [done|].
  change (clean_tags (tag :: tags))
    with (match (if decide (trim tag = "") then None else Some (trim tag)) with
          | Some t => t :: clean_tags tags
          | None => clean_tags tags
          end).
  destruct (decide (trim tag = "")) as [Heq|Hne]; [done|].
  change (clean_tags (trim tag :: clean_tags tags))
    with (match (if decide (trim (trim tag) = "") then None
                 else Some (trim (trim tag))) with
          | Some t => t :: clean_tags (clean_tags tags)
          | None => clean_tags (clean_tags tags)
          end).
  rewrite trim_idemp, decide_False by done. by rewrite IH.
Qed.

Lemma filter_map_trim (pieces : list string) :
  filter (λ tag, nonempty tag) (map trim pieces) = clean_tags pieces.
Proof.
  induction pieces as [|piece pieces IH]; [done|].
  cbn [map]. rewrite filter_cons.
  change (clean_tags (piece :: pieces))
    with (match (if decide (trim piece = "") then None else Some (trim piece)) with
          | Some t => t :: clean_tags pieces
          | None => clean_tags pieces
          end).
  destruct (decide (trim piece = "")) as [Heq|Hne].
  - rewrite Heq. rewrite decide_False by (cbn; tauto). apply IH.
  - rewrite decide_True by (by apply Is_true_true, nonempty_true). by rewrite IH.
Qed.

(** The tags the form handler passes on. *)
Lemma handleSavePost_tags (f : SocialMediaApp.form) (pd : postData) :
  SocialMediaApp.handleSavePost_postData f = Some pd →
  tags pd = Some (clean_tags (split "," (trim (SocialMediaApp.postTags f)))).
Proof.
  unfold SocialMediaApp.handleSavePost_postData.
  destruct (negb _ || negb _); [done|]. intros [= <-]. cbn [tags]. f_equal.
  destruct (trim (SocialMediaApp.postTags f)) as [|c s] eqn:Hs; [done|].
  cbn [nonempty]. apply filter_map_trim.
Qed.

(** C4: [createPost] and [updatePost] send the serialized [postPayload];
    its [title] and [body] are the trimmed strings, and its [tags] are
    the submitted tags, each trimmed, in their order, without those that
    are empty after trimming, where trimming removes white space, and
    only white space, from both ends. The form handler splits the tag
    input at commas before that, so that the input ["a, , b ,"] ends as
    the tags [["a"; "b"]]. *)
Theorem postPayload_trims_tags (id : string) (p : postData)
    (f : SocialMediaApp.form) (b : browser) :
  let submitted := default [] (tags p) in
  (∃ c headers,
     createPost net JSON_stringify p b =
     (c, Browser (localStorage b)
           (sent b ++ [Request (Config.buildApiUrl Config.POSTS) "POST" headers
                         (Some (JSON_stringify (postPayload p)))]))) ∧
  (∃ c headers,
     updatePost net JSON_stringify id p b =
     (c, Browser (localStorage b)
           (sent b ++ [Request (Config.buildApiUrl Config.POSTS +:+ "/" +:+ id) "PUT"
                         headers (Some (JSON_stringify (postPayload p)))]))) ∧
  Js.prop "title" (postPayload p) = Some (JStr (trim (title p))) ∧
  Js.prop "body" (postPayload p) = Some (JStr (trim (body p))) ∧
  Js.prop "tags" (postPayload p) = Some (JArr (JStr <$> clean_tags submitted)) ∧
  (∀ t, t ∈ clean_tags submitted ↔
        t ≠ "" ∧ ∃ raw, raw ∈ submitted ∧ t = trim raw) ∧
  (∀ t, t ∈ clean_tags submitted → tight_front t ∧ tight_back t) ∧
  (∀ s, ∃ l r, s = l +:+ trim s +:+ r ∧ blank l = true ∧ blank r = true) ∧
  (∀ pd, SocialMediaApp.handleSavePost_postData f = Some pd →
         Js.prop "tags" (postPayload pd)
         = Some (JArr (JStr <$> clean_tags
                         (split "," (trim (SocialMediaApp.postTags f)))))) ∧
  (SocialMediaApp.postTags f = "a, , b ," →
   ∀ pd, SocialMediaApp.handleSavePost_postData f = Some pd →
         Js.prop "tags" (postPayload pd) = Some (JArr [JStr "a"; JStr "b"])) ∧
  clean_tags (split "," "a, , b ,") = ["a"; "b"].
Proof.
  intros submitted.
  assert (∀ q, Js.prop "title" (postPayload q) = Some (JStr (trim (title q))) ∧
               Js.prop "body" (postPayload q) = Some (JStr (trim (body q))) ∧
               Js.prop "tags" (postPayload q)
               = Some (JArr (JStr <$> clean_tags (default [] (tags q))))) as Hfields.
  { intros q. rewrite postPayload_cases.
    destruct (media q) as [m|]; [case_decide|]; by split_and!. }
  assert (∀ pd, SocialMediaApp.handleSavePost_postData f = Some pd →
            Js.prop "tags" (postPayload pd)
            = Some (JArr (JStr <$> clean_tags
                            (split "," (trim (SocialMediaApp.postTags f)))))) as Hform.
  { intros pd Hpd. destruct (Hfields pd) as (_ & _ & ->).
    rewrite (handleSavePost_tags f pd Hpd). cbn [from_option Datatypes.id].
    by rewrite clean_tags_idemp. }
  split_and!.
  - apply createPost_sends.
  - apply updatePost_sends.
  - apply Hfields.
  - apply Hfields.
  - apply Hfields.
  - intros t. apply elem_of_clean_tags.
  - intros t Ht. by apply clean_tags_tight in Ht as (_ & ? & ?).
  - intros s. destruct (trim_spec s) as (l & r & ? & ? & ? & _). by exists l, r.
  - apply Hform.
  - intros Htags pd Hpd. rewrite (Hform pd Hpd), Htags. reflexivity.
  - reflexivity.
Qed.

End Posts.

(** ** API-key provisioning *)

Section Keys.
Variable net : network.
Variable JSON_stringify : json → string.

Lemma run_createApiKey (b : browser) :
  AuthService2.createApiKey net JSON_stringify b =
  let rq := key_request JSON_stringify b in
  match key_of_reply (net (sent b) rq) with
  | Normal key =>
      (Normal (), Browser (<["apiKey" := key]> (localStorage b)) (sent b ++ [rq]))
  | Throw e => (Throw e, after_request b rq)
  end.
Proof.
  unfold AuthService2.createApiKey, try_catch.
  rewrite run_bind, run_getAuthHeaders. rewrite run_bind. unfold fetch at 1.
  fold (key_request JSON_stringify b). cbn zeta. unfold key_of_reply.
  destruct (net (sent b) (key_request JSON_stringify b)) as [why|r]; [done|].
  rewrite run_bind. unfold response_json.
  destruct (payload r) as [why|data]; [done|]. unfold ret at 1.
  rewrite run_bind.
  destruct (ok r); cbn [negb].
  - unfold ret at 1. rewrite run_bind.
    destruct data; try done; cbn [member]; unfold ret at 1;
      match goal with |- context [Js.truthy ?k] => destruct (Js.truthy k) end; done.
  - repeat case_decide; try done.
    unfold first_error_message. rewrite run_bind.
    destruct data; done.
Qed.

Lemma run_ensureApiKey (b : browser) :
  AuthService2.ensureApiKey net JSON_stringify b =
  if present (localStorage b !! "apiKey") then (Normal (), b)
  else AuthService2.createApiKey net JSON_stringify b.
Proof.
  unfold AuthService2.ensureApiKey. rewrite run_bind, run_getItem.
  by destruct (present _).
Qed.

(** A failed provisioning leaves the storage as it was, without a key;
    a provisioning, failed or not, touches no entry but [apiKey]. *)
Lemma ensureApiKey_storage (b b' : browser) (c : completion ()) :
  AuthService2.ensureApiKey net JSON_stringify b = (c, b') →
  (∀ k, k ≠ "apiKey" → localStorage b' !! k = localStorage b !! k) ∧
  (∀ e, c = Throw e →
        localStorage b' = localStorage b ∧
        present (localStorage b !! "apiKey") = false).
Proof.
  rewrite run_ensureApiKey.
  destruct (present (localStorage b !! "apiKey")) eqn:Hkey.
  - intros [= <- <-]. split; [done|]. by intros e [=].
  - rewrite run_createApiKey. cbn zeta.
    destruct (key_of_reply _) as [key|e0]; intros [= <- <-]; cbn [localStorage].
    + split; [|by intros e [=]]. intros k Hk. by rewrite lookup_insert_ne.
    + split; [done|]. by intros e _.
Qed.

(** The [createApiKey] of [js/api/auth.js] reports nothing: it completes
    normally whatever the network does, and stores a key only when the
    answer brings one. *)
Lemma run_createApiKey_silent (b : browser) :
  AuthService.createApiKey net b =
  (Normal (),
   Browser
     (match key_in_reply (net (sent b) (bare_key_request b)) with
      | Some key => <["apiKey" := key]> (localStorage b)
      | None => localStorage b
      end)
     (sent b ++ [bare_key_request b])).
Proof.
  unfold AuthService.createApiKey, try_catch.
  rewrite run_bind, run_getAuthHeaders. rewrite run_bind. unfold fetch at 1.
  fold (bare_key_request b). unfold key_in_reply.
  destruct (net _ _) as [why|r]; [done|].
  rewrite run_bind. unfold response_json.
  destruct (payload r) as [why|data]; [done|]. unfold ret at 1.
  destruct (ok r); cbn [negb andb].
  - rewrite run_bind.
    destruct data; cbn [member]; try done; unfold ret at 1;
      match goal with |- context [Js.truthy ?k] => destruct (Js.truthy k) end;
      done.
  - unfold first_error_message. rewrite !run_bind.
    destruct data; done.
Qed.

End Keys.

(** ** Login *)

Section Login.
Variable net : network.
Variable JSON_stringify : json → string.

(** [login] of the later [AuthService] after a token exchange that
    brought a token: the provisioning runs in the signed-in state, and
    whatever it does, the document is returned. *)
Lemma run_login_token (email password : string) (b : browser) (r : response)
    (data : json) :
  net (sent b) (login_request JSON_stringify email password) = Responded r →
  ok r = true →
  payload r = Parsed data →
  Js.truthy (Js.prop_opt "accessToken" (Js.prop "data" data)) = true →
  AuthService2.login net JSON_stringify email password b =
  (Normal data,
   (AuthService2.ensureApiKey net JSON_stringify
      (signed_in JSON_stringify b (login_request JSON_stringify email password) data)).2).
Proof.
  intros Hnet Hok Hpayload Htoken.
  unfold AuthService2.login, try_catch. rewrite run_bind. unfold fetch at 1.
  fold (login_request JSON_stringify email password). rewrite Hnet.
  rewrite run_bind. unfold response_json. rewrite Hpayload. unfold ret at 1.
  rewrite Hok. cbn [negb]. rewrite run_bind.
  assert (member data "data" = ret (Js.prop "data" data)) as ->.
  { by destruct data. }
  unfold ret at 1. rewrite Htoken. rewrite !run_bind.
  unfold Storage.setItem at 1. rewrite run_bind.
  unfold Storage.setItem at 1. cbn [localStorage sent].
  fold (signed_in JSON_stringify b (login_request JSON_stringify email password) data).
  by destruct (AuthService2.ensureApiKey _ _ _) as [[?|?] ?].
Qed.

(** [isAuthenticated] is false in every state without a key. *)
Lemma isAuthenticated_without_key (b : browser) :
  present (localStorage b !! "apiKey") = false →
  Session.isAuthenticated b = (Normal false, b).
Proof.
  intros Hkey. unfold Session.isAuthenticated.
  rewrite run_bind, run_getItem, run_bind, run_getItem. unfold ret.
  by rewrite Hkey, andb_false_r.
Qed.

(** A status 500 from the key endpoint makes the provisioning fail. *)
Lemma ensureApiKey_500 (b : browser) (r : response) (data : json) :
  present (localStorage b !! "apiKey") = false →
  net (sent b) (key_request JSON_stringify b) = Responded r →
  status r = 500 →
  payload r = Parsed data →
  AuthService2.ensureApiKey net JSON_stringify b =
  (Throw (Error "Server error - Please try again later"),
   after_request b (key_request JSON_stringify b)).
Proof.
  intros Hkey Hnet Hstatus Hpayload.
  rewrite run_ensureApiKey, Hkey, run_createApiKey. cbn zeta.
  rewrite Hnet. unfold key_of_reply. rewrite Hpayload. unfold ok.
  rewrite Hstatus. by rewrite bool_decide_eq_false_2 by lia.
Qed.

(** [login] of [js/api/auth.js] after a token exchange that brought a
    token: the key request runs in the signed-in state, and the document
    is returned. *)
Lemma run_login_auth_js_token (email password : string) (b : browser)
    (r : response) (data : json) :
  net (sent b) (login_request JSON_stringify email password) = Responded r →
  ok r = true →
  payload r = Parsed data →
  Js.truthy (Js.prop_opt "accessToken" (Js.prop "data" data)) = true →
  AuthService.login net JSON_stringify email password b =
  (Normal data,
   (AuthService.createApiKey net
      (signed_in JSON_stringify b (login_request JSON_stringify email password) data)).2).
Proof.
  intros Hnet Hok Hpayload Htoken.
  unfold AuthService.login, try_catch. rewrite run_bind. unfold fetch at 1.
  fold (login_request JSON_stringify email password). rewrite Hnet.
  rewrite run_bind. unfold response_json. rewrite Hpayload. unfold ret at 1.
  rewrite Hok. cbn [negb]. rewrite run_bind.
  assert (member data "data" = ret (Js.prop "data" data)) as ->.
  { by destruct data. }
  unfold ret at 1. rewrite Htoken. rewrite !run_bind.
  unfold Storage.setItem at 1. rewrite run_bind.
  unfold Storage.setItem at 1. cbn [localStorage sent].
  change (AuthService.stringify_value JSON_stringify)
    with (AuthService2.stringify_value JSON_stringify).
  fold (signed_in JSON_stringify b (login_request JSON_stringify email password) data).
  by rewrite run_createApiKey_silent.
Qed.

(** C2 (amended): when the token exchange of [login] is answered with a
    2xx status and a document whose [data.accessToken] is truthy, both
    logins return that document, and afterwards the storage holds the
    token and, under [userData], the text of [data.data], whatever the
    provisioning of the API key does. In the later [AuthService], when
    the provisioning throws (a status 500 from the key endpoint makes it
    throw), the exception does not leave [login], the storage is exactly
    the one with the token and the user written, no key was stored
    before, and [isAuthenticated()] answers [false] then and in every
    later state whose [apiKey] entry is still the same. The login of
    [js/api/auth.js] asks for a key on every such login; when that
    brings no key (no response, or a status outside 2xx), the storage is
    again exactly the one with the token and the user written, and
    [isAuthenticated()] answers [false] when no key was stored before,
    but [true] when one was and the token is not the empty text. *)
Theorem login_survives_key_failure (email password : string) (b : browser)
    (r : response) (data token : json) :
  let rq := login_request JSON_stringify email password in
  let d := Js.prop "data" data in
  let stored := signed_in JSON_stringify b rq data in
  let kept (b' : browser) :=
    localStorage b' !! "authToken" = Some (Js.toString token) ∧
    ∃ user, d = Some user ∧
            localStorage b' !! "userData" = Some (JSON_stringify user) in
  net (sent b) rq = Responded r →
  ok r = true →
  payload r = Parsed data →
  Js.prop_opt "accessToken" d = Some token →
  Js.truthy (Some token) = true →
  (∃ b',
    AuthService2.login net JSON_stringify email password b = (Normal data, b') ∧
    kept b' ∧
    (∀ e b1,
       AuthService2.ensureApiKey net JSON_stringify stored = (Throw e, b1) →
       b' = b1 ∧
       localStorage b' = localStorage stored ∧
       present (localStorage b !! "apiKey") = false ∧
       Session.isAuthenticated b' = (Normal false, b') ∧
       (∀ later, localStorage later !! "apiKey" = localStorage b' !! "apiKey" →
                 Session.isAuthenticated later = (Normal false, later))) ∧
    (∀ r' data',
       present (localStorage b !! "apiKey") = false →
       net (sent stored) (key_request JSON_stringify stored) = Responded r' →
       status r' = 500 →
       payload r' = Parsed data' →
       ∃ e b1,
         AuthService2.ensureApiKey net JSON_stringify stored = (Throw e, b1))) ∧
  (∃ b',
    AuthService.login net JSON_stringify email password b = (Normal data, b') ∧
    kept b' ∧
    sent b' = sent stored ++ [bare_key_request stored] ∧
    (key_in_reply (net (sent stored) (bare_key_request stored)) = None →
     localStorage b' = localStorage stored ∧
     Session.isAuthenticated b'
     = (Normal (nonempty (Js.toString token)
                && present (localStorage b !! "apiKey")), b') ∧
     (present (localStorage b !! "apiKey") = false →
      ∀ later, localStorage later !! "apiKey" = localStorage b' !! "apiKey" →
               Session.isAuthenticated later = (Normal false, later))) ∧
    ((∃ why, net (sent stored) (bare_key_request stored) = Rejected why) ∨
     (∃ r', net (sent stored) (bare_key_request stored) = Responded r' ∧
            ok r' = false) →
     key_in_reply (net (sent stored) (bare_key_request stored)) = None)).
Proof.
  intros rq d stored kept Hnet Hok Hpayload Htoken Htruthy.
  assert (Js.truthy (Js.prop_opt "accessToken" (Js.prop "data" data)) = true) as Ht.
  { fold d. by rewrite Htoken. }
  assert (∃ user, d = Some user) as [user Huser].
  { destruct d as [user|]; [by exists user|done]. }
  assert (localStorage stored !! "authToken" = Some (Js.toString token)) as Hstored.
  { unfold stored, signed_in. cbn [localStorage]. fold d.
    rewrite Htoken. rewrite lookup_insert_ne by done. by rewrite lookup_insert_eq. }
  assert (localStorage stored !! "userData" = Some (JSON_stringify user)) as Hdata.
  { unfold stored, signed_in. cbn [localStorage]. fold d.
    by rewrite lookup_insert_eq, Huser. }
  assert (localStorage stored !! "apiKey" = localStorage b !! "apiKey") as Hkey0.
  { unfold stored, signed_in. cbn [localStorage]. by rewrite !lookup_insert_ne. }
  split.
  - eexists. split; [by apply (run_login_token email password b r data)|].
    fold rq. fold stored.
    destruct (AuthService2.ensureApiKey net JSON_stringify stored)
      as [c b1] eqn:Hensure.
    destruct (ensureApiKey_storage _ _ _ _ _ Hensure) as [Hframe Hthrow].
    cbn [snd]. split_and!.
    + unfold kept. rewrite !Hframe by done. split; [done|by exists user].
    + intros e b2 [= -> <-]. destruct (Hthrow e eq_refl) as [Hsame Hkey].
      assert (present (localStorage b1 !! "apiKey") = false) as Hkey1.
      { by rewrite Hsame. }
      split_and!; [done|done|by rewrite <-Hkey0|
                   by apply isAuthenticated_without_key|].
      intros later Hlater. apply isAuthenticated_without_key. by rewrite Hlater.
    + intros r' data' Hkey Hnet' Hstatus Hpayload'.
      assert (present (localStorage stored !! "apiKey") = false) as Hk.
      { by rewrite Hkey0. }
      pose proof (ensureApiKey_500 stored r' data' Hk Hnet' Hstatus Hpayload')
        as H500.
      rewrite Hensure in H500. injection H500 as -> ->. by eexists _, _.
  - eexists. split; [by apply (run_login_auth_js_token email password b r data)|].
    fold rq. fold stored. rewrite run_createApiKey_silent. cbn [snd].
    split_and!.
    + unfold kept. cbn [localStorage].
      destruct (key_in_reply _) as [key|].
      * rewrite !lookup_insert_ne by done. split; [done|by exists user].
      * split; [done|by exists user].
    + done.
    + intros ->. cbn [localStorage]. split_and!; [done| |].
      * unfold Session.isAuthenticated. rewrite run_bind, run_getItem.
        rewrite run_bind, run_getItem. cbn [localStorage].
        by rewrite Hstored, Hkey0.
      * intros Hnone later Hlater. apply isAuthenticated_without_key.
        by rewrite Hlater, Hkey0.
    + intros [[why ->]|(r' & -> & Hok')]; [done|]. unfold key_in_reply.
      destruct (payload r'); [done|]. by rewrite Hok'.
Qed.

End Login.

(** ** Errors of the key provisioning *)

Section KeyErrors.
Variable net : network.
Variable JSON_stringify : json → string.

(** C3 (amended): [createApiKey] sends one request and then throws,
    for a response whose body is a JSON document, [Unauthorized] at the
    status 401, [ServerError] at the status 500, and at every other
    status outside 2xx (the other 5xx statuses too) an [Error] with the
    first error message of the server or, without a truthy one, a text
    that names the status; at these other statuses the document [null]
    makes the read of its [errors] throw a [TypeError] instead. A body
    that is not JSON ends in the [SyntaxError] of the parser at every
    status, and when no response arrives [createApiKey] throws the
    [TypeError] of [fetch]. The storage is untouched in all these
    cases. The two fixed exceptions differ from each other and from the
    text that names a status; no [TypeError] or [SyntaxError] is one of
    these [Error]s, nor is a [TypeError] a [SyntaxError]; the [Error] of
    the other statuses is one of the two fixed ones exactly when the
    first error message of the server is that very text. A 2xx response with a truthy [data.key] stores the key. *)
Theorem createApiKey_error_kinds (b : browser) :
  let rq := key_request JSON_stringify b in
  let throws (e : exn) :=
    AuthService2.createApiKey net JSON_stringify b = (Throw e, after_request b rq) in
  (∀ r data, net (sent b) rq = Responded r → payload r = Parsed data →
             status r = 401 → throws Unauthorized) ∧
  (∀ r data, net (sent b) rq = Responded r → payload r = Parsed data →
             status r = 500 → throws ServerError) ∧
  (∀ r data, net (sent b) rq = Responded r → payload r = Parsed data →
             data ≠ JNull → ok r = false → status r ≠ 401 → status r ≠ 500 →
             throws (KeyCreationFailed data (status r))) ∧
  (∀ r, net (sent b) rq = Responded r → payload r = Parsed JNull →
        ok r = false → status r ≠ 401 → status r ≠ 500 →
        throws (TypeError (null_read "errors"))) ∧
  (∀ r why, net (sent b) rq = Responded r → payload r = Malformed why →
            throws (SyntaxError why)) ∧
  (∀ why, net (sent b) rq = Rejected why → throws (TypeError why)) ∧
  (∀ r data key,
     net (sent b) rq = Responded r → payload r = Parsed data → ok r = true →
     Js.prop_opt "key" (Js.prop "data" data) = Some key →
     Js.truthy (Some key) = true →
     AuthService2.createApiKey net JSON_stringify b =
     (Normal (), Browser (<["apiKey" := Js.toString key]> (localStorage b))
                   (sent b ++ [rq]))) ∧
  localStorage (after_request b rq) = localStorage b ∧
  Unauthorized ≠ ServerError ∧
  (∀ why, TypeError why ≠ Unauthorized ∧ TypeError why ≠ ServerError) ∧
  (∀ why data status, TypeError why ≠ KeyCreationFailed data status) ∧
  (∀ status, KeyCreationFailed (JObj []) status ≠ Unauthorized ∧
             KeyCreationFailed (JObj []) status ≠ ServerError) ∧
  (∀ why, SyntaxError why ≠ Unauthorized ∧ SyntaxError why ≠ ServerError ∧
          (∀ data status, SyntaxError why ≠ KeyCreationFailed data status) ∧
          ∀ why', SyntaxError why ≠ TypeError why') ∧
  (∀ data status (fixed : exn),
     fixed = Unauthorized ∨ fixed = ServerError →
     let detail := Js.prop_opt "message" (Js.item_opt 0 (Js.prop "errors" data)) in
     KeyCreationFailed data status = fixed ↔
     Js.truthy detail = true ∧ Js.toString_value detail = message fixed).
Proof.
  intros rq throws. unfold throws. split_and!.
  - intros r data Hnet Hpayload Hstatus. rewrite run_createApiKey. cbn zeta.
    fold rq. rewrite Hnet. unfold key_of_reply. rewrite Hpayload. unfold ok.
    rewrite Hstatus. by rewrite bool_decide_eq_false_2 by lia.
  - intros r data Hnet Hpayload Hstatus. rewrite run_createApiKey. cbn zeta.
    fold rq. rewrite Hnet. unfold key_of_reply. rewrite Hpayload. unfold ok.
    rewrite Hstatus. by rewrite bool_decide_eq_false_2 by lia.
  - intros r data Hnet Hpayload Hdata Hok H401 H500. rewrite run_createApiKey.
    cbn zeta. fold rq. rewrite Hnet. unfold key_of_reply.
    rewrite Hpayload, Hok. rewrite !decide_False by done. by destruct data.
  - intros r Hnet Hpayload Hok H401 H500. rewrite run_createApiKey.
    cbn zeta. fold rq. rewrite Hnet. unfold key_of_reply.
    rewrite Hpayload, Hok. by rewrite !decide_False by done.
  - intros r why Hnet Hpayload. rewrite run_createApiKey. cbn zeta. fold rq.
    rewrite Hnet. unfold key_of_reply. by rewrite Hpayload.
  - intros why Hnet. rewrite run_createApiKey. cbn zeta. fold rq. by rewrite Hnet.
  - intros r data key Hnet Hpayload Hok Hkey Htruthy. rewrite run_createApiKey.
    cbn zeta. fold rq. rewrite Hnet. unfold key_of_reply.
    rewrite Hpayload, Hok, Hkey, Htruthy. by destruct data.
  - done.
  - done.
  - done.
  - done.
  - intros status. unfold KeyCreationFailed, Unauthorized, ServerError. cbn.
    split; intros [= Heq]; discriminate Heq.
  - done.
  - intros data status fixed Hfixed. unfold KeyCreationFailed, Js.or_else.
    destruct (Js.prop_opt "message" (Js.item_opt 0 (Js.prop "errors" data)))
      as [j|] eqn:Hdetail.
    + destruct (Js.truthy (Some j)) eqn:Htruthy.
      * cbn [Js.toString_value]. split.
        -- intros Heq. split; [done|]. by rewrite <-Heq.
        -- intros [_ Heq]. destruct Hfixed as [->| ->]; by rewrite Heq.
      * split; [|by intros [? _]].
        destruct Hfixed as [->| ->]; intros [= Heq]; discriminate Heq.
    + split; [|by intros [? _]].
      destruct Hfixed as [->| ->]; intros [= Heq]; discriminate Heq.
Qed.

End KeyErrors.

(** ** Login without a token *)

Section LoginWithoutToken.
Variable net : network.
Variable JSON_stringify : json → string.

(** C10 (amended): when the token exchange is answered with a 2xx
    status and a JSON document that is not [null] and whose
    [data.accessToken] is missing or falsy, [login] (of either
    [AuthService]) returns that document; the only request sent is the
    token exchange, no entry of the storage changes, and
    [isAuthenticated()] answers afterwards what it answered before, so
    [false] stays [false]. *)
Theorem login_without_token_writes_nothing (email password : string)
    (b : browser) (r : response) (data : json) :
  let rq := login_request JSON_stringify email password in
  net (sent b) rq = Responded r →
  ok r = true →
  payload r = Parsed data →
  data ≠ JNull →
  Js.truthy (Js.prop_opt "accessToken" (Js.prop "data" data)) = false →
  AuthService.login net JSON_stringify email password b
    = (Normal data, after_request b rq) ∧
  AuthService2.login net JSON_stringify email password b
    = (Normal data, after_request b rq) ∧
  localStorage (after_request b rq) = localStorage b ∧
  sent (after_request b rq) = sent b ++ [rq] ∧
  (∀ answer, Session.isAuthenticated b = (Normal answer, b) →
             Session.isAuthenticated (after_request b rq)
             = (Normal answer, after_request b rq)).
Proof.
  intros rq Hnet Hok Hpayload Hdata Htoken.
  assert (member data "data" = ret (Js.prop "data" data)) as Hmember.
  { by destruct data. }
  split_and!; [| |done..|].
  - unfold AuthService.login, try_catch. rewrite run_bind. unfold fetch at 1.
    fold (login_request JSON_stringify email password). fold rq. rewrite Hnet.
    rewrite run_bind. unfold response_json. rewrite Hpayload. unfold ret at 1.
    rewrite Hok. cbn [negb]. rewrite run_bind, Hmember. unfold ret at 1.
    by rewrite Htoken.
  - unfold AuthService2.login, try_catch. rewrite run_bind. unfold fetch at 1.
    fold (login_request JSON_stringify email password). fold rq. rewrite Hnet.
    rewrite run_bind. unfold response_json. rewrite Hpayload. unfold ret at 1.
    rewrite Hok. cbn [negb]. rewrite run_bind, Hmember. unfold ret at 1.
    by rewrite Htoken.
  - intros answer. unfold Session.isAuthenticated.
    rewrite !run_bind, !run_getItem. cbn [localStorage after_request].
    rewrite !run_bind, !run_getItem. unfold ret. by intros [= <-].
Qed.

(** [login] of [js/api/auth.js] after a token exchange that brought a
    token: it returns the document as well, with the token and the user
    stored, whatever its [createApiKey] meets; when no key was stored
    before and the key endpoint brings none, [isAuthenticated()] answers
    [false]. *)
Lemma login_auth_js_token (email password : string) (b : browser) (r : response)
    (data : json) :
  let rq := login_request JSON_stringify email password in
  let b1 := signed_in JSON_stringify b rq data in
  net (sent b) rq = Responded r →
  ok r = true →
  payload r = Parsed data →
  Js.truthy (Js.prop_opt "accessToken" (Js.prop "data" data)) = true →
  ∃ b',
    AuthService.login net JSON_stringify email password b = (Normal data, b') ∧
    (∀ k, k ≠ "apiKey" → localStorage b' !! k = localStorage b1 !! k) ∧
    (present (localStorage b !! "apiKey") = false →
     key_in_reply (net (sent b1) (bare_key_request b1)) = None →
     Session.isAuthenticated b' = (Normal false, b')).
Proof.
  intros rq b1 Hnet Hok Hpayload Htoken.
  unfold AuthService.login, try_catch. rewrite run_bind. unfold fetch at 1.
  fold (login_request JSON_stringify email password). fold rq. rewrite Hnet.
  rewrite run_bind. unfold response_json. rewrite Hpayload. unfold ret at 1.
  rewrite Hok. cbn [negb]. rewrite run_bind.
  assert (member data "data" = ret (Js.prop "data" data)) as ->.
  { by destruct data. }
  unfold ret at 1. rewrite Htoken. rewrite !run_bind.
  unfold Storage.setItem at 1. rewrite run_bind.
  unfold Storage.setItem at 1. cbn [localStorage sent].
  change (AuthService.stringify_value JSON_stringify)
    with (AuthService2.stringify_value JSON_stringify).
  fold (signed_in JSON_stringify b rq data). fold b1.
  rewrite run_createApiKey_silent. eexists. split; [reflexivity|]. split.
  - intros k Hk. cbn [localStorage].
    destruct (key_in_reply _); [by rewrite lookup_insert_ne|done].
  - intros Hkey ->. apply isAuthenticated_without_key. cbn [localStorage].
    unfold b1, signed_in. cbn [localStorage]. by rewrite !lookup_insert_ne.
Qed.

End LoginWithoutToken.

(** ** The statements at concrete inputs *)

(** The key endpoint answers 500 and the storage is empty: both logins
    of [ola] succeed, the token and the user are stored, the user reads
    back, and the session is not authenticated. *)
Lemma login_survives_key_failure_at_500 :
  let net := Example.server (Response 500 (Parsed (JObj []))) in
  let user := JObj [("name", JStr "ola"); ("email", JStr "ola@stud.noroff.no");
                    ("accessToken", JStr "t0k3n")] in
  let ends (outcome : completion json * browser) :=
    ∃ data b',
      outcome = (Normal data, b') ∧
      localStorage b' !! "authToken" = Some "t0k3n" ∧
      localStorage b' !! "userData" = Some (Example.serialize user) ∧
      Session.getCurrentUser Example.parse b' = (Normal user, b') ∧
      Session.isAuthenticated b' = (Normal false, b') in
  ends (AuthService2.login net Example.serialize "ola@stud.noroff.no" "hemmelig"
          (Browser ∅ [])) ∧
  ends (AuthService.login net Example.serialize "ola@stud.noroff.no" "hemmelig"
          (Browser ∅ [])).
Proof.
  intros net user ends.
  destruct (login_survives_key_failure net Example.serialize
              "ola@stud.noroff.no" "hemmelig" (Browser ∅ [])
              (Response 200 (Parsed (JObj [("data", user); ("meta", JObj [])])))
              _ (JStr "t0k3n") eq_refl eq_refl eq_refl eq_refl eq_refl)
    as [(b2 & Hlogin2 & (Htoken2 & user2 & Huser2 & Hdata2) & Hfails & H500)
        (b1 & Hlogin1 & (Htoken1 & user1 & Huser1 & Hdata1) & _ & Hnokey & Hfailed)].
  injection Huser2 as <-. injection Huser1 as <-.
  split.
  - destruct (H500 (Response 500 (Parsed (JObj []))) (JObj []) eq_refl eq_refl
                eq_refl eq_refl) as (e & b3 & Hthrow).
    destruct (Hfails e b3 Hthrow) as (_ & _ & _ & Hauth & _).
    exists (JObj [("data", user); ("meta", JObj [])]), b2.
    split_and!; [exact Hlogin2|exact Htoken2|exact Hdata2| |exact Hauth].
    unfold Session.getCurrentUser. by rewrite run_bind, run_getItem, Hdata2.
  - destruct Hnokey as (_ & Hauth & _).
    { apply Hfailed. right. by eexists. }
    exists (JObj [("data", user); ("meta", JObj [])]), b1.
    split_and!; [exact Hlogin1|exact Htoken1|exact Hdata1| |exact Hauth].
    unfold Session.getCurrentUser. by rewrite run_bind, run_getItem, Hdata1.
Defined.

(** C2, as stated, fails for the login of [js/api/auth.js] when a key
    from before is in the storage: the session is not authenticated,
    the token exchange succeeds, the key endpoint answers 500 and the
    stored key stays as it was, and [isAuthenticated()] answers [true]
    although no key was provisioned. *)
Lemma login_auth_js_stale_key_authenticated :
  let net := Example.server (Response 500 (Parsed (JObj []))) in
  let b := Browser {[ "apiKey" := "0ld" ]} [] in
  Session.isAuthenticated b = (Normal false, b) ∧
  (∀ before rq, url rq = Config.buildApiUrl Config.API_KEY →
                net before rq = Responded (Response 500 (Parsed (JObj [])))) ∧
  ∃ data b',
    AuthService.login net Example.serialize "ola@stud.noroff.no" "hemmelig" b
    = (Normal data, b') ∧
    url <$> sent b' = [Config.buildApiUrl Config.LOGIN;
                       Config.buildApiUrl Config.API_KEY] ∧
    localStorage b' !! "authToken" = Some "t0k3n" ∧
    localStorage b' !! "apiKey" = Some "0ld" ∧
    Session.isAuthenticated b' = (Normal true, b').
Proof.
  intros net b. split_and!.
  - reflexivity.
  - intros before rq Hurl. unfold net, Example.server. rewrite Hurl.
    by rewrite decide_False, decide_True.
  - eexists _, _. split_and!; reflexivity.
Qed.

(** A status 401 from the key endpoint, met without any session; a
    status 400 with the document [null]; and a status 503 whose first
    error message is the text of [ServerError]. *)
Lemma createApiKey_error_kinds_at_401 :
  let at_reply (r : response) :=
    (AuthService2.createApiKey (Example.replies r) Example.serialize
       (Browser ∅ [])).1 in
  let busy := JObj [("errors", JArr [JObj
                [("message", JStr "Server error - Please try again later")]])] in
  at_reply (Response 401 (Parsed (JObj []))) = Throw Unauthorized ∧
  at_reply (Response 400 (Parsed JNull))
  = Throw (TypeError "Cannot read properties of null (reading 'errors')") ∧
  at_reply (Response 503 (Parsed busy)) = Throw ServerError.
Proof.
  intros at_reply busy. unfold at_reply. split_and!.
  - destruct (createApiKey_error_kinds
                (Example.replies (Response 401 (Parsed (JObj []))))
                Example.serialize (Browser ∅ [])) as (H401 & _).
    by rewrite (H401 (Response 401 (Parsed (JObj []))) (JObj []) eq_refl eq_refl
                  eq_refl).
  - destruct (createApiKey_error_kinds
                (Example.replies (Response 400 (Parsed JNull)))
                Example.serialize (Browser ∅ [])) as (_ & _ & _ & Hnull & _).
    by rewrite (Hnull (Response 400 (Parsed JNull)) eq_refl eq_refl eq_refl
                  ltac:(discriminate) ltac:(discriminate)).
  - destruct (createApiKey_error_kinds
                (Example.replies (Response 503 (Parsed busy)))
                Example.serialize (Browser ∅ []))
      as (_ & _ & Hother & _ & _ & _ & _ & _ & _ & _ & _ & _ & _ & Hsame).
    rewrite (Hother (Response 503 (Parsed busy)) busy eq_refl eq_refl
               ltac:(discriminate) eq_refl ltac:(discriminate) ltac:(discriminate)).
    apply (f_equal Throw).
    by apply (proj2 (Hsame busy 503 ServerError (or_intror eq_refl))).
Defined.

(** C3, as stated, fails at the status 503: the exception is the one of
    the other statuses (here without a message of the server), not the
    one the status 500 gets. *)
Lemma createApiKey_503_is_not_ServerError :
  let at_status (n : Z) :=
    AuthService2.createApiKey (Example.replies (Response n (Parsed (JObj []))))
      Example.serialize (Browser ∅ []) in
  (at_status 503).1 = Throw (Error "API key creation failed (503)") ∧
  (at_status 503).1 ≠ Throw ServerError ∧
  (at_status 500).1 = Throw ServerError ∧
  (at_status 400).1 = Throw (Error "API key creation failed (400)").
Proof. split_and!; [reflexivity|intros [=]|reflexivity..]. Qed.

(** A 2xx answer with a document without token. *)
Lemma login_without_token_at_empty_document :
  let net := Example.replies (Response 200 (Parsed (JObj []))) in
  let b := Browser {[ "theme" := "dark" ]} [] in
  ∃ b', AuthService2.login net Example.serialize "ola@stud.noroff.no" "hemmelig" b
        = (Normal (JObj []), b') ∧
        localStorage b' = localStorage b ∧
        length (sent b') = 1%nat.
Proof.
  intros net b.
  destruct (login_without_token_writes_nothing net Example.serialize
              "ola@stud.noroff.no" "hemmelig" b
              (Response 200 (Parsed (JObj []))) (JObj [])
              eq_refl eq_refl eq_refl ltac:(discriminate) eq_refl)
    as (_ & Hlogin & Hstorage & Hsent & _).
  eexists. split_and!; [exact Hlogin|exact Hstorage|by rewrite Hsent].
Defined.

(** C10, as stated, fails when the 2xx answer is the document [null]:
    reading [data.data] throws, and [login] ends in [Login failed]. *)
Lemma login_null_document_throws :
  let net := Example.replies (Response 200 (Parsed JNull)) in
  ok (Response 200 (Parsed JNull)) = true ∧
  ¬ returns_normally
      (AuthService.login net Example.serialize "ola@stud.noroff.no" "hemmelig"
         (Browser ∅ [])) ∧
  ¬ returns_normally
      (AuthService2.login net Example.serialize "ola@stud.noroff.no" "hemmelig"
         (Browser ∅ [])).
Proof. split_and!; [done|intros [a [=]]..]. Qed.


(** A post without media, and one with a media URL between spaces. *)
Lemma postPayload_media_at_blank_and_url :
  let p1 := PostsService.PostData "Hei" "Hallo" None (Some "  ") in
  let p2 := PostsService.PostData "Hei" "Hallo" None
              (Some " https://img.example/a.png ") in
  Js.prop "media" (PostsService.postPayload p1) = None ∧
  Js.prop_opt "url" (Js.prop "media" (PostsService.postPayload p2))
  = Some (JStr "https://img.example/a.png").
Proof.
  intros p1 p2. split.
  - destruct (postPayload_media Example.offline Example.serialize "1" p1 (Browser ∅ []))
      as (_ & _ & Hnone & _).
    apply Hnone. right. by eexists.
  - destruct (postPayload_media Example.offline Example.serialize "1" p2 (Browser ∅ []))
      as (_ & _ & _ & Hsome).
    destruct (Hsome _ eq_refl eq_refl) as [alt ->]. reflexivity.
Defined.

(** The tag input ["a, , b ,"] of the form. *)
Lemma postPayload_trims_tags_at_form :
  let f := SocialMediaApp.Form " Hei " "Hallo" "a, , b ," "" in
  ∃ pd, SocialMediaApp.handleSavePost_postData f = Some pd ∧
        Js.prop "title" (PostsService.postPayload pd) = Some (JStr "Hei") ∧
        Js.prop "tags" (PostsService.postPayload pd) = Some (JArr [JStr "a"; JStr "b"]).
Proof.
  intros f.
  destruct (SocialMediaApp.handleSavePost_postData f) as [pd|] eqn:Hpd; [|done].
  destruct (postPayload_trims_tags Example.offline Example.serialize "1" pd f
              (Browser ∅ []))
    as (_ & _ & Htitle & _ & _ & _ & _ & _ & _ & Htags & _).
  exists pd. split_and!; [done| |by apply Htags].
  rewrite Htitle. by injection Hpd as <-.
Defined.

(** * Further properties *)

(** ** The outcome of a request *)

Lemma call_outcome_prefixed (answer : reply) (fallback prefix : string) :
  prefixed prefix (call_outcome answer fallback prefix).
Proof.
  intros e. unfold call_outcome.
  destruct answer as [why|r]; [intros [= <-]; split; [done|by eexists]|].
  destruct (payload r) as [why|data]; [intros [= <-]; split; [done|by eexists]|].
  destruct (ok r); [done|].
  destruct data; intros [= <-]; (split; [done|by eexists]).
Qed.

Section Outcomes.
Variable net : network.
Variable JSON_stringify : json → string.

(** A call, completely: its outcome and its one request. *)
Lemma run_call_outcome mk fallback prefix (b : browser) :
  call net mk fallback prefix b =
  (call_outcome (net (sent b) (authorized b mk)) fallback prefix,
   after_request b (authorized b mk)).
Proof.
  unfold call, try_catch, call_outcome, authorized, after_request.
  rewrite run_bind, run_getAuthHeaders.
  rewrite run_bind. unfold fetch at 1.
  destruct (net _ _) as [why|r]; [done|].
  rewrite run_bind. unfold response_json.
  destruct (payload r) as [why|data]; [done|]. unfold ret at 1.
  destruct (ok r); cbn [negb]; [done|].
  unfold first_error_message. rewrite run_bind.
  destruct data; done.
Qed.

Lemma call_outcome_wraps (rq : request) (fallback prefix : string) (b : browser)
    {A} (m : js A) (c : completion A) :
  m b = (c, after_request b rq) →
  (∀ e, call_outcome (net (sent b) rq) fallback prefix = Throw e ↔ c = Throw e) →
  wraps net m rq prefix b.
Proof.
  intros Hrun Hthrow. exists c. split_and!; [done| | |].
  - intros e He%Hthrow. by eapply call_outcome_prefixed.
  - intros why Hnet. apply Hthrow. by rewrite Hnet.
  - intros r data detail Hnet Hok Hpayload Hdetail Hne. apply Hthrow.
    rewrite Hnet. unfold call_outcome. rewrite Hpayload, Hok, Hdetail.
    destruct data; try done; by destruct detail.
Qed.

Lemma call_wraps mk fallback prefix (b : browser) :
  wraps net (call net mk fallback prefix) (authorized b mk) prefix b.
Proof.
  eapply call_outcome_wraps; [apply run_call_outcome|]. done.
Qed.

Lemma run_deletePost (id : string) (b : browser) :
  let rq := authorized b (λ headers,
    Request (Config.buildApiUrl Config.POSTS +:+ "/" +:+ id) "DELETE" headers None) in
  PostsService.deletePost net id b =
  (match net (sent b) rq with
   | Responded r =>
       if ok r then Normal ()
       else match call_outcome (Responded r) "Failed to delete post"
                    "Failed to delete post: " with
            | Normal _ => Normal ()
            | Throw e => Throw e
            end
   | Rejected why => Throw (Error ("Failed to delete post: " +:+ why))
   end,
   after_request b rq).
Proof.
  intros rq. unfold PostsService.deletePost, try_catch.
  rewrite run_bind, run_getAuthHeaders. rewrite run_bind. unfold fetch at 1.
  fold (authorized b (λ headers,
    Request (Config.buildApiUrl Config.POSTS +:+ "/" +:+ id) "DELETE" headers None)).
  fold rq. unfold after_request, call_outcome.
  destruct (net _ _) as [why|r]; [done|].
  destruct (ok r) eqn:Hok; cbn [negb]; [done|].
  rewrite run_bind. unfold response_json.
  destruct (payload r) as [why|data]; [done|]. unfold ret at 1.
  unfold first_error_message. rewrite !run_bind.
  destruct data; done.
Qed.

(** X1: every method of [PostsService] sends exactly one request, built
    around the auth headers of the current storage, and writes nothing
    to the storage; every exception it throws is an [Error] whose
    message starts with the prefix of the method. A transport failure
    comes out that way too, with the reason of the failure behind the
    prefix, and so does the first error message of a response outside
    2xx. *)
Theorem PostsService_wraps_errors (o : PostsService.options) (id : string)
    (p : PostsService.postData) (b : browser) :
  wraps net (PostsService.getPosts net o)
    (authorized b (λ h, Request (PostsService.getPosts_url o) "GET" h None))
    "Failed to fetch posts: " b ∧
  wraps net (PostsService.getPostById net id)
    (authorized b (λ h,
       Request (Config.buildApiUrl Config.POSTS +:+ "/" +:+ id
                  +:+ "?_author=true&_comments=true&_reactions=true") "GET" h None))
    "Failed to fetch post: " b ∧
  wraps net (PostsService.createPost net JSON_stringify p)
    (authorized b (λ h,
       Request (Config.buildApiUrl Config.POSTS) "POST" h
         (Some (JSON_stringify (PostsService.postPayload p)))))
    "Failed to create post: " b ∧
  wraps net (PostsService.updatePost net JSON_stringify id p)
    (authorized b (λ h,
       Request (Config.buildApiUrl Config.POSTS +:+ "/" +:+ id) "PUT" h
         (Some (JSON_stringify (PostsService.postPayload p)))))
    "Failed to update post: " b ∧
  wraps net (PostsService.deletePost net id)
    (authorized b (λ h,
       Request (Config.buildApiUrl Config.POSTS +:+ "/" +:+ id) "DELETE" h None))
    "Failed to delete post: " b.
Proof.
  split_and!.
  - rewrite getPosts_call. apply call_wraps.
  - apply (call_wraps (λ h,
      Request (Config.buildApiUrl Config.POSTS +:+ "/" +:+ id
                 +:+ "?_author=true&_comments=true&_reactions=true") "GET" h None)
      "Failed to fetch post" "Failed to fetch post: ").
  - rewrite createPost_call. apply call_wraps.
  - rewrite updatePost_call. apply call_wraps.
  - eexists. split; [apply run_deletePost|]. cbn zeta. split_and!.
    + intros e. destruct (net _ _) as [why|r].
      * intros [= <-]. split; [done|by eexists].
      * destruct (ok r); [done|].
        pose proof (call_outcome_prefixed (Responded r) "Failed to delete post"
                      "Failed to delete post: ") as Hprefixed.
        destruct (call_outcome _ _ _); [done|]. intros [= <-]. by apply Hprefixed.
    + by intros why ->.
    + intros r data detail -> Hok Hpayload Hdetail Hne. rewrite Hok.
      unfold call_outcome. rewrite Hpayload, Hok, Hdetail.
      destruct data; try done; by destruct detail.
Qed.

End Outcomes.

(** ** Registration and login *)

Section Accounts.
Variable net : network.
Variable JSON_stringify : json → string.

Lemma run_register (name email password : string) (b : browser) :
  let rq := register_request JSON_stringify name email password in
  AuthService.register net JSON_stringify name email password b =
  (call_outcome (net (sent b) rq) "Registration failed" "Registration failed: ",
   after_request b rq).
Proof.
  intros rq. unfold AuthService.register, try_catch, call_outcome, after_request.
  rewrite run_bind. unfold fetch at 1.
  fold (register_request JSON_stringify name email password). fold rq.
  destruct (net _ _) as [why|r]; [done|].
  rewrite run_bind. unfold response_json.
  destruct (payload r) as [why|data]; [done|]. unfold ret at 1.
  destruct (ok r); cbn [negb]; [done|].
  unfold first_error_message. rewrite run_bind.
  destruct data; done.
Qed.

(** X2: [register] sends exactly one request, the POST of the name, the
    email and the password to the registration endpoint; that request
    carries the plain headers only, never the bearer token or the API
    key of a session that is stored; the storage is not written. A 2xx
    answer with a JSON body is returned as it is. Every failure is an
    [Error] whose message starts with [Registration failed: ]. Behind
    the prefix comes, for a response outside 2xx whose body is a JSON
    document other than [null], the first error message of the server
    or, without a truthy one, [Registration failed] again; for a
    response outside 2xx whose body is the document [null], the reason
    of the failed read of its [errors]; and for a body that is not JSON,
    whatever the status, the reason of the parser. *)
Theorem register_sends_plain_request (name email password : string) (b : browser) :
  let rq := register_request JSON_stringify name email password in
  wraps net (AuthService.register net JSON_stringify name email password) rq
    "Registration failed: " b ∧
  url rq = "https://v2.api.noroff.dev/auth/register" ∧
  method rq = "POST" ∧
  (∀ h, headers rq !! h = if decide (h = "Content-Type") then Some "application/json"
                          else None) ∧
  (∀ r data,
     net (sent b) rq = Responded r → ok r = true → payload r = Parsed data →
     AuthService.register net JSON_stringify name email password b
     = (Normal data, after_request b rq)) ∧
  (∀ r data,
     net (sent b) rq = Responded r → ok r = false → payload r = Parsed data →
     data ≠ JNull →
     Js.truthy (Js.prop_opt "message" (Js.item_opt 0 (Js.prop "errors" data))) = false →
     AuthService.register net JSON_stringify name email password b
     = (Throw (Error "Registration failed: Registration failed"),
        after_request b rq)) ∧
  (∀ r data detail,
     net (sent b) rq = Responded r → ok r = false → payload r = Parsed data →
     data ≠ JNull →
     Js.prop_opt "message" (Js.item_opt 0 (Js.prop "errors" data)) = Some detail →
     Js.truthy (Some detail) = true →
     AuthService.register net JSON_stringify name email password b
     = (Throw (Error ("Registration failed: " +:+ Js.toString detail)),
        after_request b rq)) ∧
  (∀ r,
     net (sent b) rq = Responded r → ok r = false → payload r = Parsed JNull →
     AuthService.register net JSON_stringify name email password b
     = (Throw (Error ("Registration failed: " +:+ null_read "errors")),
        after_request b rq)) ∧
  (∀ r why,
     net (sent b) rq = Responded r → payload r = Malformed why →
     AuthService.register net JSON_stringify name email password b
     = (Throw (Error ("Registration failed: " +:+ why)), after_request b rq)).
Proof.
  intros rq. split_and!.
  - eapply (call_outcome_wraps net _ "Registration failed"); [apply run_register|done].
  - reflexivity.
  - reflexivity.
  - intros h. cbn [headers rq register_request]. unfold Config.HEADERS.
    case_decide as Hh; [by rewrite Hh, lookup_singleton_eq|].
    by rewrite lookup_singleton_ne.
  - intros r data Hnet Hok Hpayload. rewrite run_register. cbn zeta. fold rq.
    rewrite Hnet. unfold call_outcome. by rewrite Hpayload, Hok.
  - intros r data Hnet Hok Hpayload Hdata Hdetail. rewrite run_register.
    cbn zeta. fold rq. rewrite Hnet. unfold call_outcome. rewrite Hpayload, Hok.
    assert (Js.or_else (Js.prop_opt "message" (Js.item_opt 0 (Js.prop "errors" data)))
              (JStr "Registration failed") = JStr "Registration failed") as ->.
    { unfold Js.or_else. rewrite Hdetail. by destruct (Js.prop_opt _ _). }
    by destruct data.
  - intros r data detail Hnet Hok Hpayload Hdata Hdetail Htruthy.
    rewrite run_register. cbn zeta. fold rq. rewrite Hnet. unfold call_outcome.
    rewrite Hpayload, Hok, Hdetail. unfold Js.or_else. rewrite Htruthy.
    by destruct data.
  - intros r Hnet Hok Hpayload. rewrite run_register. cbn zeta. fold rq.
    rewrite Hnet. unfold call_outcome. by rewrite Hpayload, Hok.
  - intros r why Hnet Hpayload. rewrite run_register. cbn zeta. fold rq.
    rewrite Hnet. unfold call_outcome. by rewrite Hpayload.
Qed.

(** X3: a [login] that throws, of either [AuthService], has written
    nothing: the storage is the one before the call and the only
    request sent is the token exchange; what it throws is an [Error]
    whose message starts with [Login failed: ]. *)
Theorem login_failure_writes_nothing (email password : string) (b b' : browser)
    (e : exn) :
  AuthService.login net JSON_stringify email password b = (Throw e, b') ∨
  AuthService2.login net JSON_stringify email password b = (Throw e, b') →
  b' = after_request b (login_request JSON_stringify email password) ∧
  localStorage b' = localStorage b ∧
  name e = "Error" ∧
  ∃ reason, message e = "Login failed: " +:+ reason.
Proof.
  set (rq := login_request JSON_stringify email password).
  assert (∀ o : completion json * browser,
            o = (Throw e, b') →
            (∃ reason, o = (Throw (Error ("Login failed: " +:+ reason)),
                            after_request b rq)) →
            b' = after_request b rq ∧ localStorage b' = localStorage b ∧
            name e = "Error" ∧ ∃ reason, message e = "Login failed: " +:+ reason)
    as Hthrows.
  { intros o -> [reason [= -> ->]]. split_and!; [done..|by eexists]. }
  destruct (net (sent b) rq) as [why|r] eqn:Hnet.
  { intros [Hlogin|Hlogin]; eapply Hthrows; try exact Hlogin; exists why;
      [unfold AuthService.login|unfold AuthService2.login]; unfold try_catch;
      rewrite run_bind; unfold fetch at 1;
      fold (login_request JSON_stringify email password); fold rq; by rewrite Hnet. }
  destruct (payload r) as [why|data] eqn:Hpayload.
  { intros [Hlogin|Hlogin]; eapply Hthrows; try exact Hlogin; exists why;
      [unfold AuthService.login|unfold AuthService2.login]; unfold try_catch;
      rewrite run_bind; unfold fetch at 1;
      fold (login_request JSON_stringify email password); fold rq; rewrite Hnet;
      rewrite run_bind; unfold response_json; by rewrite Hpayload. }
  destruct (ok r) eqn:Hok.
  - assert (data = JNull ∨ data ≠ JNull) as [->|Hdata].
    { destruct data; auto. }
    { intros [Hlogin|Hlogin]; eapply Hthrows; try exact Hlogin;
        exists (null_read "data");
        [unfold AuthService.login|unfold AuthService2.login]; unfold try_catch;
        rewrite run_bind; unfold fetch at 1;
        fold (login_request JSON_stringify email password); fold rq; rewrite Hnet;
        rewrite run_bind; unfold response_json; rewrite Hpayload; unfold ret at 1;
        rewrite Hok; cbn [negb]; by rewrite run_bind. }
    destruct (Js.truthy (Js.prop_opt "accessToken" (Js.prop "data" data))) eqn:Htoken.
    + intros [Hlogin|Hlogin].
      * destruct (login_auth_js_token net JSON_stringify email password b r data
                    Hnet Hok Hpayload Htoken) as (b1 & Hrun & _).
        rewrite Hrun in Hlogin. done.
      * rewrite (run_login_token net JSON_stringify email password b r data
                   Hnet Hok Hpayload Htoken) in Hlogin. done.
    + assert (member data "data" = ret (Js.prop "data" data)) as Hmember.
      { by destruct data. }
      intros [Hlogin|Hlogin]; revert Hlogin;
        [unfold AuthService.login|unfold AuthService2.login]; unfold try_catch;
        rewrite run_bind; unfold fetch at 1;
        fold (login_request JSON_stringify email password); fold rq; rewrite Hnet;
        rewrite run_bind; unfold response_json; rewrite Hpayload; unfold ret at 1;
        rewrite Hok; cbn [negb]; rewrite run_bind, Hmember; unfold ret at 1;
        rewrite Htoken; done.
  - intros [Hlogin|Hlogin]; eapply Hthrows; try exact Hlogin;
      (exists (match data with
               | JNull => null_read "errors"
               | _ => Js.toString (Js.or_else
                        (Js.prop_opt "message" (Js.item_opt 0 (Js.prop "errors" data)))
                        (JStr "Login failed"))
               end));
      [unfold AuthService.login|unfold AuthService2.login]; unfold try_catch;
      rewrite run_bind; unfold fetch at 1;
      fold (login_request JSON_stringify email password); fold rq; rewrite Hnet;
      rewrite run_bind; unfold response_json; rewrite Hpayload; unfold ret at 1;
      rewrite Hok; cbn [negb]; unfold first_error_message; rewrite !run_bind;
      by destruct data.
Qed.

End Accounts.

(** ** Sessions *)

Section Sessions.
Variable net : network.
Variable JSON_stringify : json → string.
Variable JSON_parse : string → content.

Lemma stored_without_key (b : browser) (rq : request) (data : json) :
  localStorage (signed_in JSON_stringify b rq data) !! "apiKey"
  = localStorage b !! "apiKey".
Proof. unfold signed_in. cbn [localStorage]. by rewrite !lookup_insert_ne. Qed.

(** X4: a [login] whose token exchange brings a non-empty token string,
    in a storage without API key, and whose key request is answered 2xx
    with a non-empty key string, ends authenticated: the token, the user
    and the key are stored, [isAuthenticated()] answers [true], exactly
    two requests went out, and the key request already carried the
    bearer token of this very login (and no API-key header). *)
Theorem login_provisions_key (email password token key : string) (b : browser)
    (r r' : response) (data data' : json) :
  let rq := login_request JSON_stringify email password in
  let stored := signed_in JSON_stringify b rq data in
  let key_rq := key_request JSON_stringify stored in
  net (sent b) rq = Responded r →
  ok r = true →
  payload r = Parsed data →
  Js.prop_opt "accessToken" (Js.prop "data" data) = Some (JStr token) →
  token ≠ "" →
  present (localStorage b !! "apiKey") = false →
  net (sent stored) key_rq = Responded r' →
  ok r' = true →
  payload r' = Parsed data' →
  Js.prop_opt "key" (Js.prop "data" data') = Some (JStr key) →
  key ≠ "" →
  ∃ b',
    AuthService2.login net JSON_stringify email password b = (Normal data, b') ∧
    localStorage b' = <["apiKey" := key]> (localStorage stored) ∧
    localStorage b' !! "authToken" = Some token ∧
    localStorage b' !! "apiKey" = Some key ∧
    sent b' = sent b ++ [rq; key_rq] ∧
    headers key_rq !! "Authorization" = Some ("Bearer " +:+ token) ∧
    headers key_rq !! "X-Noroff-API-Key" = None ∧
    Session.isAuthenticated b' = (Normal true, b').
Proof.
  intros rq stored key_rq Hnet Hok Hpayload Htoken Hne Hnokey Hnet' Hok' Hpayload'
    Hkey Hkne.
  assert (Js.truthy (Js.prop_opt "accessToken" (Js.prop "data" data)) = true) as Ht.
  { rewrite Htoken. by apply nonempty_true. }
  assert (localStorage stored !! "authToken" = Some token) as Hstored.
  { unfold stored, signed_in. cbn [localStorage].
    rewrite lookup_insert_ne by done. by rewrite lookup_insert_eq, Htoken. }
  rewrite (run_login_token net JSON_stringify email password b r data
             Hnet Hok Hpayload Ht).
  fold rq. fold stored.
  rewrite run_ensureApiKey. unfold stored at 1. rewrite stored_without_key, Hnokey.
  fold stored. rewrite run_createApiKey. cbn zeta. fold key_rq. rewrite Hnet'.
  unfold key_of_reply. rewrite Hpayload', Hok', Hkey.
  assert (Js.truthy (Some (JStr key)) = true) as -> by (by apply nonempty_true).
  assert (data' ≠ JNull) as Hdata' by (by intros ->).
  exists (Browser (<["apiKey" := key]> (localStorage stored)) (sent stored ++ [key_rq])).
  split.
  { by destruct data'. }
  cbn [localStorage sent]. split_and!.
  - done.
  - by rewrite lookup_insert_ne.
  - by rewrite lookup_insert_eq.
  - unfold stored at 1, signed_in. cbn [sent]. by rewrite <-app_assoc.
  - unfold key_rq, key_request. cbn [headers].
    rewrite auth_headers_Authorization, Hstored. cbn [present default from_option].
    by rewrite (proj2 (nonempty_true token) Hne).
  - unfold key_rq, key_request. cbn [headers].
    rewrite auth_headers_api_key. unfold stored at 1.
    by rewrite stored_without_key, Hnokey.
  - unfold Session.isAuthenticated. rewrite !run_bind, !run_getItem.
    cbn [localStorage]. rewrite run_bind, run_getItem. cbn [localStorage].
    rewrite lookup_insert_ne by done. rewrite Hstored, lookup_insert_eq.
    unfold ret, present.
    by rewrite (proj2 (nonempty_true token) Hne), (proj2 (nonempty_true key) Hkne).
Qed.

(** X5: with a non-empty API key in the storage, the [login] of the
    later [AuthService] sends the token exchange and nothing else, and
    leaves the key as it is; the [login] of [js/api/auth.js] requests a
    key on every login that brings a token. *)
Theorem login_with_stored_key (email password : string) (b : browser)
    (r : response) (data : json) :
  let rq := login_request JSON_stringify email password in
  let stored := signed_in JSON_stringify b rq data in
  net (sent b) rq = Responded r →
  ok r = true →
  payload r = Parsed data →
  Js.truthy (Js.prop_opt "accessToken" (Js.prop "data" data)) = true →
  present (localStorage b !! "apiKey") = true →
  AuthService2.login net JSON_stringify email password b = (Normal data, stored) ∧
  sent stored = sent b ++ [rq] ∧
  localStorage stored !! "apiKey" = localStorage b !! "apiKey" ∧
  ∃ b', AuthService.login net JSON_stringify email password b = (Normal data, b') ∧
        sent b' = sent b ++ [rq; bare_key_request stored].
Proof.
  intros rq stored Hnet Hok Hpayload Htoken Hkey.
  split_and!.
  - rewrite (run_login_token net JSON_stringify email password b r data
               Hnet Hok Hpayload Htoken).
    fold rq. fold stored. rewrite run_ensureApiKey. unfold stored at 1.
    by rewrite stored_without_key, Hkey.
  - done.
  - apply stored_without_key.
  - unfold AuthService.login, try_catch. rewrite run_bind. unfold fetch at 1.
    fold (login_request JSON_stringify email password). fold rq. rewrite Hnet.
    rewrite run_bind. unfold response_json. rewrite Hpayload. unfold ret at 1.
    rewrite Hok. cbn [negb]. rewrite run_bind.
    assert (member data "data" = ret (Js.prop "data" data)) as ->.
    { by destruct data. }
    unfold ret at 1. rewrite Htoken. rewrite !run_bind.
    unfold Storage.setItem at 1. rewrite run_bind.
    unfold Storage.setItem at 1. cbn [localStorage sent].
    change (AuthService.stringify_value JSON_stringify)
      with (AuthService2.stringify_value JSON_stringify).
    fold (signed_in JSON_stringify b rq data). fold stored.
    rewrite run_createApiKey_silent. eexists. split; [reflexivity|].
    cbn [sent]. unfold stored at 1, signed_in. cbn [sent]. by rewrite <-app_assoc.
Qed.

(** X6: after a [login] that returned, of either [AuthService], with a
    token exchange that brought a token, [getCurrentUser()] returns
    the [data] object of the answer, provided that [JSON.parse] reads
    back what [JSON.stringify] wrote for it. *)
Theorem login_then_getCurrentUser (email password : string) (b b' : browser)
    (r : response) (data user : json) :
  let rq := login_request JSON_stringify email password in
  net (sent b) rq = Responded r →
  ok r = true →
  payload r = Parsed data →
  Js.prop "data" data = Some user →
  Js.truthy (Js.prop_opt "accessToken" (Some user)) = true →
  JSON_stringify user ≠ "" →
  JSON_parse (JSON_stringify user) = Parsed user →
  AuthService.login net JSON_stringify email password b = (Normal data, b') ∨
  AuthService2.login net JSON_stringify email password b = (Normal data, b') →
  Session.getCurrentUser JSON_parse b' = (Normal user, b').
Proof.
  intros rq Hnet Hok Hpayload Huser Htoken Hne Hparse Hlogin.
  rewrite <-Huser in Htoken.
  assert (localStorage b' !! "userData" = Some (JSON_stringify user)) as Hstored.
  { assert (localStorage (signed_in JSON_stringify b rq data) !! "userData"
            = Some (JSON_stringify user)) as Hsigned.
    { unfold signed_in. cbn [localStorage]. by rewrite lookup_insert_eq, Huser. }
    destruct Hlogin as [Hlogin|Hlogin].
    - destruct (login_auth_js_token net JSON_stringify email password b r data
                  Hnet Hok Hpayload Htoken) as (b1 & Hrun & Hframe & _).
      rewrite Hrun in Hlogin. injection Hlogin as <-.
      by rewrite Hframe.
    - rewrite (run_login_token net JSON_stringify email password b r data
                 Hnet Hok Hpayload Htoken) in Hlogin.
      injection Hlogin as <-. fold rq.
      destruct (AuthService2.ensureApiKey net JSON_stringify
                  (signed_in JSON_stringify b rq data)) as [c b1] eqn:Hensure.
      destruct (ensureApiKey_storage _ _ _ _ _ Hensure) as [Hframe _].
      cbn [snd]. by rewrite Hframe. }
  unfold Session.getCurrentUser. rewrite run_bind, run_getItem, Hstored.
  cbn [present default from_option]. rewrite (proj2 (nonempty_true _) Hne).
  unfold id. by rewrite Hparse.
Qed.

(** X7: [ensureApiKey] sends at most one request. With a non-empty key
    in the storage it sends none and changes nothing. When it returns,
    the storage has an [apiKey] entry, and if that entry is not empty a
    second [ensureApiKey] is a no-op; when it throws, the storage is as
    before. *)
Theorem ensureApiKey_idempotent (b b' : browser) (c : completion ()) :
  AuthService2.ensureApiKey net JSON_stringify b = (c, b') →
  (length (sent b') ≤ S (length (sent b)))%nat ∧
  (present (localStorage b !! "apiKey") = true → c = Normal () ∧ b' = b) ∧
  (c = Normal () →
   is_Some (localStorage b' !! "apiKey") ∧
   (present (localStorage b' !! "apiKey") = true →
    AuthService2.ensureApiKey net JSON_stringify b' = (Normal (), b'))) ∧
  (∀ e, c = Throw e → localStorage b' = localStorage b).
Proof.
  intros Hrun. pose proof Hrun as Hcases. rewrite run_ensureApiKey in Hcases.
  destruct (present (localStorage b !! "apiKey")) eqn:Hkey.
  - injection Hcases as <- <-. split_and!; [lia|done| |done].
    intros _. split.
    + apply present_true in Hkey as (k & -> & _). by eexists.
    + intros _. by rewrite run_ensureApiKey, Hkey.
  - rewrite run_createApiKey in Hcases. cbn zeta in Hcases.
    destruct (key_of_reply _) as [key|e0]; injection Hcases as <- <-.
    + cbn [sent localStorage]. split_and!.
      * rewrite length_app. cbn. lia.
      * done.
      * intros _. rewrite lookup_insert_eq. split; [by eexists|].
        intros Hpresent. rewrite run_ensureApiKey. cbn [localStorage].
        by rewrite lookup_insert_eq, Hpresent.
      * done.
    + cbn [sent localStorage after_request]. split_and!; [|done..].
      rewrite length_app. cbn. lia.
Qed.

End Sessions.

(** ** The handlers of the page *)

Section Handlers.
Variable net : network.
Variable JSON_stringify : json → string.

(** The address of the first page of the feed. *)
Lemma feed_url :
  PostsService.getPosts_url (PostsService.Options (Some 12) None None None)
  = "https://v2.api.noroff.dev/social/posts?limit=12&page=1&_author=true&_comments=true&_reactions=true".
Proof. reflexivity. Qed.

Lemma run_loadPosts (search : option string) (b : browser) :
  let query := default "" search in
  SocialMediaApp.loadPosts net search b =
  (Normal (),
   after_request b (authorized b (λ h,
     Request (PostsService.getPosts_url
                (PostsService.Options (Some 12) None None
                   (if nonempty query then Some query else None)))
             "GET" h None))).
Proof.
  intros query. unfold SocialMediaApp.loadPosts, try_catch. cbn zeta. fold query.
  rewrite run_bind, getPosts_call, run_call_outcome.
  destruct (call_outcome _ _ _) as [response|e]; [|done].
  rewrite run_bind. by destruct response.
Qed.

(** X8: [handleSearch] never throws and sends exactly one GET without
    body: for the empty query the first page of the plain listing, and
    for any other query the search endpoint with the encoded query and
    the same page parameters. The storage is not written. *)
Theorem handleSearch_request (query : string) (b : browser) :
  ∃ rq,
    SocialMediaApp.handleSearch net query b = (Normal (), after_request b rq) ∧
    method rq = "GET" ∧
    body rq = None ∧
    headers rq = auth_headers_of (localStorage b !! "authToken")
                   (localStorage b !! "apiKey") ∧
    url rq =
      if nonempty query then
        "https://v2.api.noroff.dev/social/posts/search?q="
          +:+ encodeURIComponent query
          +:+ "&limit=12&page=1&_author=true&_comments=true&_reactions=true"
      else
        "https://v2.api.noroff.dev/social/posts?limit=12&page=1&_author=true&_comments=true&_reactions=true".
Proof.
  eexists. split; [apply run_loadPosts|]. cbn [default from_option Datatypes.id].
  split_and!; [done..|]. unfold authorized. cbn [url].
  destruct (nonempty query) eqn:Hq; [|done].
  unfold PostsService.getPosts_url.
  cbn [PostsService.search default from_option Datatypes.id]. by rewrite Hq.
Qed.


(** X10: [deletePost] of the page sends nothing when the dialog is
    declined. When it is confirmed, the DELETE goes out; after a 2xx
    answer, whatever its body, the first page of the feed is requested
    again, and after any other outcome nothing more is sent. The
    handler never throws and never writes the storage. *)
Theorem deletePost_then_reload (postId : string) (confirmed : bool) (b : browser) :
  let delete := authorized b (λ h,
    Request (Config.buildApiUrl Config.POSTS +:+ "/" +:+ postId) "DELETE" h None) in
  let reload := authorized b (λ h,
    Request "https://v2.api.noroff.dev/social/posts?limit=12&page=1&_author=true&_comments=true&_reactions=true"
            "GET" h None) in
  (confirmed = false →
   SocialMediaApp.deletePost net postId confirmed b = (Normal (), b)) ∧
  (confirmed = true →
   ∀ r, net (sent b) delete = Responded r → ok r = true →
        SocialMediaApp.deletePost net postId confirmed b
        = (Normal (), after_request (after_request b delete) reload)) ∧
  (confirmed = true →
   (∃ why, net (sent b) delete = Rejected why) ∨
   (∃ r, net (sent b) delete = Responded r ∧ ok r = false) →
   SocialMediaApp.deletePost net postId confirmed b
   = (Normal (), after_request b delete)).
Proof.
  intros delete reload. split_and!.
  - by intros ->.
  - intros -> r Hnet Hok. unfold SocialMediaApp.deletePost, try_catch. cbn [negb].
    rewrite run_bind, run_deletePost. cbn zeta. fold delete. rewrite Hnet, Hok.
    by rewrite run_loadPosts.
  - intros -> Hfail. unfold SocialMediaApp.deletePost, try_catch. cbn [negb].
    rewrite run_bind, run_deletePost. cbn zeta. fold delete.
    destruct Hfail as [[why ->]|(r & -> & Hok)]; [done|]. rewrite Hok.
    unfold call_outcome. rewrite Hok.
    destruct (payload r) as [why|data]; [done|]. by destruct data.
Qed.

Lemma run_handleRegister_valid (name email password : string) (b : browser) :
  name ≠ "" → email ≠ "" → password ≠ "" →
  Session.isValidNoroffEmail email = true →
  (8 ≤ String.length password)%nat →
  SocialMediaApp.handleRegister net JSON_stringify name email password b =
  (Normal (), after_request b (register_request JSON_stringify name email password)).
Proof.
  intros Hname%nonempty_true Hemail%nonempty_true Hpassword%nonempty_true Hdomain Hlen.
  unfold SocialMediaApp.handleRegister.
  rewrite Hname, Hemail, Hpassword, Hdomain. cbn [negb orb].
  rewrite bool_decide_eq_false_2 by lia.
  unfold try_catch. rewrite run_bind, run_register. cbn zeta.
  by destruct (call_outcome _ _ _).
Qed.

(** X11: [handleRegister] sends a request only for a name, an email and
    a password that are all non-empty, with an email of a Noroff domain
    and a password of at least 8 characters, and then exactly the one
    registration request with these values; in every other case it
    sends nothing. It never throws and never writes the storage. *)
Theorem handleRegister_validates (name email password : string) (b : browser) :
  let accepted :=
    name ≠ "" ∧ email ≠ "" ∧ password ≠ "" ∧
    Session.isValidNoroffEmail email = true ∧
    (8 ≤ String.length password)%nat in
  (accepted →
   SocialMediaApp.handleRegister net JSON_stringify name email password b =
   (Normal (),
    after_request b (register_request JSON_stringify name email password))) ∧
  (¬ accepted →
   SocialMediaApp.handleRegister net JSON_stringify name email password b =
   (Normal (), b)).
Proof.
  intros accepted. split.
  - intros (? & ? & ? & ? & ?). by apply run_handleRegister_valid.
  - intros Hrejected. unfold SocialMediaApp.handleRegister.
    destruct (nonempty name) eqn:Hname; [|done].
    destruct (nonempty email) eqn:Hemail; [|done].
    destruct (nonempty password) eqn:Hpassword; [|done]. cbn [negb orb].
    destruct (Session.isValidNoroffEmail email) eqn:Hdomain; [|done]. cbn [negb].
    case_bool_decide as Hlen; [done|].
    destruct Hrejected. unfold accepted.
    apply nonempty_true in Hname, Hemail, Hpassword. split_and!; [done..|lia].
Qed.

(** X12: [handleSavePost] stops at a title or a content that is empty
    or white space only: it returns without a request, whatever the
    mode of the form is, and those are the only forms it stops at. For
    every other form it sends the post: a PUT to the address of the
    post when the form is in edit mode with a truthy post id, a POST to
    the collection otherwise (so also in edit mode with the id 0). After
    a 2xx answer with a JSON body it requests the first page of the feed
    again; after any other outcome it sends nothing more. It never
    throws. *)
Theorem handleSavePost_saves_then_reloads (f : SocialMediaApp.form)
    (isEditMode : bool) (currentPostId : value) (b : browser) :
  let editing := isEditMode && Js.truthy currentPostId in
  let save pd := authorized b (λ h,
    if editing
    then Request (Config.buildApiUrl Config.POSTS +:+ "/"
                    +:+ Js.toString_value currentPostId) "PUT" h
           (Some (JSON_stringify (PostsService.postPayload pd)))
    else Request (Config.buildApiUrl Config.POSTS) "POST" h
           (Some (JSON_stringify (PostsService.postPayload pd)))) in
  let reload := authorized b (λ h,
    Request "https://v2.api.noroff.dev/social/posts?limit=12&page=1&_author=true&_comments=true&_reactions=true"
            "GET" h None) in
  let run := SocialMediaApp.handleSavePost net JSON_stringify f isEditMode
               currentPostId b in
  (SocialMediaApp.handleSavePost_postData f = None ↔
   blank (SocialMediaApp.postTitle f) = true ∨
   blank (SocialMediaApp.postBody f) = true) ∧
  (SocialMediaApp.handleSavePost_postData f = None → run = (Normal (), b)) ∧
  (∀ pd, SocialMediaApp.handleSavePost_postData f = Some pd →
     (∀ r data,
        net (sent b) (save pd) = Responded r → ok r = true →
        payload r = Parsed data →
        run = (Normal (), after_request (after_request b (save pd)) reload)) ∧
     ((∃ why, net (sent b) (save pd) = Rejected why) ∨
      (∃ r, net (sent b) (save pd) = Responded r ∧
            (ok r = false ∨ ∃ why, payload r = Malformed why)) →
      run = (Normal (), after_request b (save pd)))) ∧
  (isEditMode = true → currentPostId = Some (JNum 0) → editing = false).
Proof.
  intros editing save reload run.
  assert (SocialMediaApp.handleSavePost_postData f = None ↔
          blank (SocialMediaApp.postTitle f) = true ∨
          blank (SocialMediaApp.postBody f) = true) as Hguard.
  { unfold SocialMediaApp.handleSavePost_postData. rewrite <-!trim_nil_blank.
    destruct (trim (SocialMediaApp.postTitle f)), (trim (SocialMediaApp.postBody f));
      cbn [nonempty negb orb]; split; try done; auto.
    intros [?|?]; done. }
  split_and!; [done| | |by intros -> ->].
  { intros Hpd. unfold run, SocialMediaApp.handleSavePost. by rewrite Hpd. }
  intros pd Hpd.
  assert (run =
    match call_outcome (net (sent b) (save pd))
            (if editing then "Failed to update post" else "Failed to create post")
            (if editing then "Failed to update post: " else "Failed to create post: ")
    with
    | Normal _ => (Normal (), after_request (after_request b (save pd)) reload)
    | Throw _ => (Normal (), after_request b (save pd))
    end) as Hrun.
  { unfold run, SocialMediaApp.handleSavePost, try_catch. rewrite Hpd.
    fold editing. unfold save. rewrite run_bind.
    destruct editing.
    - rewrite run_bind, updatePost_call, run_call_outcome.
      destruct (call_outcome _ _ _) as [data|e]; [|done].
      unfold ret at 1. by rewrite run_loadPosts.
    - rewrite run_bind, createPost_call, run_call_outcome.
      destruct (call_outcome _ _ _) as [data|e]; [|done].
      unfold ret at 1. by rewrite run_loadPosts. }
  split.
  - intros r data Hnet Hok Hpayload. rewrite Hrun, Hnet. unfold call_outcome.
    by rewrite Hpayload, Hok.
  - intros [[why Hnet]|(r & Hnet & Hbad)]; rewrite Hrun, Hnet; [done|].
    unfold call_outcome.
    destruct (payload r) as [why|data] eqn:Hpayload; [done|].
    destruct Hbad as [->|[why [=]]]. by destruct data.
Qed.

End Handlers.

(** ** Truncated text *)

Lemma length_take (n : nat) (s : string) :
  String.length (Ui.take n s) = (n `min` String.length s)%nat.
Proof.
  revert s. induction n as [|n IH]; intros [|c s]; cbn; try done. by rewrite IH.
Qed.

Lemma take_prefix (n : nat) (s : string) : ∃ rest, s = Ui.take n s +:+ rest.
Proof.
  revert s. induction n as [|n IH]; intros s.
  - by exists s.
  - destruct s as [|c s]; [by exists ""|].
    destruct (IH s) as [rest Hrest]. exists rest. cbn [Ui.take].
    by rewrite string_app_cons, <-Hrest.
Qed.

Lemma take_app_exact (p rest : string) : Ui.take (String.length p) (p +:+ rest) = p.
Proof.
  induction p as [|c p IH]; [done|]. rewrite string_app_cons. cbn. by rewrite IH.
Qed.

(** X13: [truncateText] returns a text of at most [maxLength] code units
    as it is, and of a longer one the first [maxLength] code units
    followed by three dots; so the result has at most [maxLength + 3]
    code units (3 for a negative [maxLength]), can be up to two units
    longer than the text (three for a negative [maxLength]), and
    truncating it again changes nothing. *)
Theorem truncateText_bounds (text : string) (maxLength : option Z) :
  let limit := default 150 maxLength in
  let out := Ui.truncateText text maxLength in
  (Z.of_nat (String.length text) ≤ limit → out = text) ∧
  (limit < Z.of_nat (String.length text) →
   ∃ kept rest, text = kept +:+ rest ∧ out = kept +:+ "..." ∧
                String.length kept = Z.to_nat limit) ∧
  Z.of_nat (String.length out) ≤ Z.max 0 limit + 3 ∧
  (String.length out ≤ String.length text + 3)%nat ∧
  (0 ≤ limit → (String.length out ≤ String.length text + 2)%nat) ∧
  Ui.truncateText out maxLength = out.
Proof.
  intros limit out. unfold out, Ui.truncateText. fold limit.
  case_bool_decide as Hshort.
  - split_and!; [done|lia|lia|lia|lia|]. by rewrite bool_decide_eq_true_2.
  - assert (String.length (Ui.take (Z.to_nat limit) text) = Z.to_nat limit) as Hkept.
    { rewrite length_take. lia. }
    split_and!.
    + lia.
    + intros _. destruct (take_prefix (Z.to_nat limit) text) as [rest Hrest].
      by exists (Ui.take (Z.to_nat limit) text), rest.
    + rewrite string_length_app, Hkept. cbn. lia.
    + rewrite string_length_app, Hkept. cbn. lia.
    + rewrite string_length_app, Hkept. cbn. lia.
    + rewrite bool_decide_eq_false_2.
      * rewrite <-Hkept at 1. by rewrite take_app_exact.
      * rewrite string_length_app, Hkept. cbn. lia.
Qed.

(** ** Editing a post *)

Lemma split_without_separator (sep : ascii) (s : string) :
  has_char sep s = false → split sep s = [s].
Proof.
  induction s as [|c s IH]; [done|]. cbn [has_char split].
  intros [Hc Hs]%orb_false_iff. rewrite Hc. by rewrite IH.
Qed.

Lemma split_app_separator (sep : ascii) (t s : string) :
  has_char sep t = false →
  split sep (t +:+ String sep s) = t :: split sep s.
Proof.
  induction t as [|c t IH].
  - intros _. rewrite string_app_nil_l. cbn [split].
    by rewrite bool_decide_eq_true_2.
  - cbn [has_char]. intros [Hc Ht]%orb_false_iff.
    rewrite string_app_cons. cbn [split]. rewrite Hc. by rewrite IH.
Qed.

Lemma join_cons_char (sep : string) (c : ascii) (t : string) (ts : list string) :
  join sep (String c t :: ts) = String c (join sep (t :: ts)).
Proof. by destruct ts. Qed.

Lemma join_cons_cons (sep t u : string) (ts : list string) :
  join sep (t :: u :: ts) = t +:+ sep +:+ join sep (u :: ts).
Proof. reflexivity. Qed.

(** Splitting at the commas what was joined with a comma and a space. *)
Lemma split_join_comma (u : string) (ts : list string) :
  has_char "," u = false →
  Forall (λ t, has_char "," t = false) ts →
  split "," (join ", " (u :: ts)) = u :: map (String " ") ts.
Proof.
  intros Hu Hts. revert u Hu. induction Hts as [|t ts Ht Hts IH]; intros u Hu.
  - by apply split_without_separator.
  - rewrite join_cons_cons.
    change (u +:+ ", " +:+ join ", " (t :: ts))
      with (u +:+ String "," (String " " (join ", " (t :: ts)))).
    rewrite <-join_cons_char, split_app_separator by done.
    by rewrite IH.
Qed.

Lemma trim_tight (s : string) : trim s = s → tight_front s ∧ tight_back s.
Proof.
  intros Hs. destruct (trim_spec s) as (_ & _ & _ & _ & _ & ? & ?).
  by rewrite Hs in *.
Qed.

Lemma tight_back_app (a b : string) :
  b ≠ "" → tight_back b → tight_back (a +:+ b).
Proof.
  intros Hb Htight. induction a as [|c a IH]; [done|].
  rewrite string_app_cons. apply tight_back_cons; [|done].
  by destruct a, b.
Qed.

Lemma join_nonempty (sep u : string) (ts : list string) :
  u ≠ "" → join sep (u :: ts) ≠ "".
Proof. destruct u, ts; done. Qed.

Lemma trim_join (u : string) (ts : list string) :
  Forall (λ t, trim t = t ∧ t ≠ "") (u :: ts) →
  trim (join ", " (u :: ts)) = join ", " (u :: ts).
Proof.
  intros Hall.
  assert (tight_front (join ", " (u :: ts))) as Hfront.
  { apply Forall_cons in Hall as [[Hu Hne] _].
    apply trim_tight in Hu as [Hfront _].
    destruct u as [|c u]; [done|]. rewrite join_cons_char.
    intros c' s' [= <- <-]. by eapply Hfront. }
  assert (tight_back (join ", " (u :: ts))) as Hback.
  { revert u Hall Hfront. induction ts as [|t ts IH]; intros u Hall _.
    - apply Forall_cons in Hall as [[Hu _] _]. by apply trim_tight in Hu as [_ ?].
    - apply Forall_cons in Hall as [_ Hall]. rewrite join_cons_cons.
      rewrite <-string_app_assoc. apply tight_back_app.
      + apply join_nonempty. by apply Forall_cons in Hall as [[_ ?] _].
      + apply IH; [done|]. apply Forall_cons in Hall as [[Ht Hne] _].
        apply trim_tight in Ht as [Hfront _].
        destruct t as [|c t]; [done|]. rewrite join_cons_char.
        intros c' s' [= <- <-]. by eapply Hfront. }
  unfold trim. rewrite trimStart_tight by done. by apply trimEnd_tight.
Qed.

Lemma clean_tags_spaced (ts : list string) :
  Forall (λ t, trim t = t ∧ t ≠ "") ts →
  clean_tags (map (String " ") ts) = ts.
Proof.
  induction 1 as [|t ts [Ht Hne] _ IH]; [done|]. cbn [map].
  change (clean_tags (String " " t :: map (String " ") ts))
    with (match (if decide (trim (String " " t) = "") then None
                 else Some (trim (String " " t))) with
          | Some t' => t' :: clean_tags (map (String " ") ts)
          | None => clean_tags (map (String " ") ts)
          end).
  change (trim (String " " t)) with (trim t).
  rewrite Ht, decide_False by done. by rewrite IH.
Qed.

Lemma strip_newlines_app (s1 s2 : string) :
  SocialMediaApp.strip_newlines (s1 +:+ s2)
  = SocialMediaApp.strip_newlines s1 +:+ SocialMediaApp.strip_newlines s2.
Proof.
  induction s1 as [|c s1 IH]; [done|]. rewrite string_app_cons.
  cbn [SocialMediaApp.strip_newlines]. case_bool_decide; [done|].
  by rewrite string_app_cons, IH.
Qed.

Lemma strip_newlines_join (ts : list string) :
  Forall (λ t, SocialMediaApp.strip_newlines t = t) ts →
  SocialMediaApp.strip_newlines (join ", " ts) = join ", " ts.
Proof.
  induction 1 as [|t ts Ht Hts IH]; [done|].
  destruct ts as [|u ts]; [done|].
  rewrite join_cons_cons, !strip_newlines_app, Ht, IH. done.
Qed.

(** X14: opening a post in the form and saving it without a change gives
    the service the tags of the post again, in their order, when no tag
    is empty, starts or ends with white space, or has a comma or a line
    break in it; the title, the body and the media URL come back as the
    inputs keep them, trimmed. This needs a title and a body that are
    not blank. *)
Theorem edit_keeps_tags (p : SocialMediaApp.post) :
  let tags := default [] (SocialMediaApp.post_tags p) in
  let f := SocialMediaApp.showPostModal_form p in
  blank (SocialMediaApp.postTitle f) = false →
  blank (SocialMediaApp.postBody f) = false →
  Forall (λ t, trim t = t ∧ t ≠ "" ∧ has_char "," t = false ∧
               SocialMediaApp.strip_newlines t = t) tags →
  ∃ pd,
    SocialMediaApp.handleSavePost_postData f = Some pd ∧
    PostsService.title pd
      = trim (SocialMediaApp.strip_newlines (SocialMediaApp.post_title p)) ∧
    PostsService.body pd
      = trim (SocialMediaApp.normalize_newlines (SocialMediaApp.post_body p)) ∧
    PostsService.tags pd = Some tags ∧
    PostsService.media pd =
      match SocialMediaApp.post_media_url p with
      | Some u => if decide (trim (SocialMediaApp.sanitize_url u) = "") then None
                  else Some (trim (SocialMediaApp.sanitize_url u))
      | None => None
      end ∧
    Js.prop "tags" (PostsService.postPayload pd) = Some (JArr (JStr <$> tags)).
Proof.
  intros tags f Htitle Hbody Htags.
  assert (trim (SocialMediaApp.postTitle f) ≠ "") as Ht.
  { rewrite trim_nil_blank. by rewrite Htitle. }
  assert (trim (SocialMediaApp.postBody f) ≠ "") as Hb.
  { rewrite trim_nil_blank. by rewrite Hbody. }
  destruct (SocialMediaApp.handleSavePost_postData f) as [pd|] eqn:Hpd.
  2: { revert Hpd. unfold SocialMediaApp.handleSavePost_postData.
       apply nonempty_true in Ht, Hb. by rewrite Ht, Hb. }
  assert (PostsService.tags pd = Some tags) as Hkept.
  { rewrite (handleSavePost_tags _ _ Hpd). f_equal.
    unfold f, SocialMediaApp.showPostModal_form. cbn [SocialMediaApp.postTags].
    unfold tags in *. destruct (SocialMediaApp.post_tags p) as [[|u ts]|]; [done| |done].
    cbn [default from_option Datatypes.id] in *.
    rewrite strip_newlines_join.
    2: { eapply Forall_impl; [exact Htags|]. by intros t (_ & _ & _ & ?). }
    rewrite trim_join.
    - rewrite split_join_comma.
      + apply Forall_cons in Htags as [(Hu & Hne & _) Hts].
        change (clean_tags (u :: map (String " ") ts))
          with (match (if decide (trim u = "") then None else Some (trim u)) with
                | Some t' => t' :: clean_tags (map (String " ") ts)
                | None => clean_tags (map (String " ") ts)
                end).
        rewrite Hu, decide_False by done. f_equal. apply clean_tags_spaced.
        eapply Forall_impl; [exact Hts|]. by intros t (? & ? & _).
      + by apply Forall_cons in Htags as [(_ & _ & ? & _) _].
      + apply Forall_cons in Htags as [_ Hts].
        eapply Forall_impl; [exact Hts|]. by intros t (_ & _ & ? & _).
    - eapply Forall_impl; [exact Htags|]. by intros t (? & ? & _). }
  exists pd. split; [done|].
  revert Hpd. unfold SocialMediaApp.handleSavePost_postData.
  destruct (negb _ || negb _); [done|]. intros [= Hpd].
  split_and!.
  - by rewrite <-Hpd.
  - by rewrite <-Hpd.
  - done.
  - rewrite <-Hpd. cbn [PostsService.media].
    unfold f, SocialMediaApp.showPostModal_form. cbn [SocialMediaApp.postMedia].
    destruct (SocialMediaApp.post_media_url p) as [u|]; cbn [default from_option].
    + unfold id. case_decide as Hu; [by rewrite Hu|].
      by rewrite (proj2 (nonempty_true _) Hu).
    + done.
  - rewrite postPayload_cases.
    assert (Js.prop "tags" (JObj (base_fields pd))
            = Some (JArr (JStr <$> tags))) as Hbase.
    { unfold base_fields. cbn. rewrite Hkept. cbn [default from_option Datatypes.id].
      do 3 f_equal. clear -Htags.
      induction Htags as [|t ts (Ht & Hne & _) _ IH]; [done|].
      change (clean_tags (t :: ts))
        with (match (if decide (trim t = "") then None else Some (trim t)) with
              | Some t' => t' :: clean_tags ts
              | None => clean_tags ts
              end).
      rewrite Ht, decide_False by done. by rewrite IH. }
    destruct (PostsService.media pd); [case_decide|]; done.
Qed.

(** ** Deleting a post *)

Section Deleting.
Variable net : network.

(** X15: [deletePost] of the service does not read the body of a 2xx
    answer: it returns for every such answer, also for one without a
    JSON body, where [getPostById] throws. For an answer outside 2xx
    whose body is not JSON it throws the reason of the parser behind
    its prefix. *)
Theorem deletePost_ignores_body (id : string) (b : browser) (r : response) :
  let delete := authorized b (λ h,
    Request (Config.buildApiUrl Config.POSTS +:+ "/" +:+ id) "DELETE" h None) in
  let get := authorized b (λ h,
    Request (Config.buildApiUrl Config.POSTS +:+ "/" +:+ id
               +:+ "?_author=true&_comments=true&_reactions=true") "GET" h None) in
  (net (sent b) delete = Responded r → ok r = true →
   PostsService.deletePost net id b = (Normal (), after_request b delete)) ∧
  (∀ why, net (sent b) delete = Responded r → ok r = false →
          payload r = Malformed why →
          PostsService.deletePost net id b
          = (Throw (Error ("Failed to delete post: " +:+ why)),
             after_request b delete)) ∧
  (∀ why, net (sent b) get = Responded r → ok r = true →
          payload r = Malformed why →
          PostsService.getPostById net id b
          = (Throw (Error ("Failed to fetch post: " +:+ why)),
             after_request b get)).
Proof.
  intros delete get. split_and!.
  - intros Hnet Hok. rewrite run_deletePost. cbn zeta. fold delete.
    by rewrite Hnet, Hok.
  - intros why Hnet Hok Hpayload. rewrite run_deletePost. cbn zeta. fold delete.
    rewrite Hnet, Hok. unfold call_outcome. by rewrite Hpayload.
  - intros why Hnet Hok Hpayload.
    change (PostsService.getPostById net id)
      with (call net (λ h,
              Request (Config.buildApiUrl Config.POSTS +:+ "/" +:+ id
                         +:+ "?_author=true&_comments=true&_reactions=true")
                      "GET" h None)
              "Failed to fetch post" "Failed to fetch post: ").
    rewrite run_call_outcome. fold get. rewrite Hnet. unfold call_outcome.
    by rewrite Hpayload.
Qed.

End Deleting.

(** ** Profiles *)

Lemma string_app_inv_r (s1 s2 t : string) : s1 +:+ t = s2 +:+ t → s1 = s2.
Proof.
  revert s2. induction s1 as [|c s1 IH]; intros [|c' s2] Heq.
  - done.
  - apply (f_equal String.length) in Heq.
    rewrite !string_length_app in Heq. cbn in Heq. lia.
  - apply (f_equal String.length) in Heq.
    rewrite !string_length_app in Heq. cbn in Heq. lia.
  - rewrite !string_app_cons in Heq. injection Heq as -> Heq.
    by rewrite (IH _ Heq).
Qed.

Lemma plain_char (c : ascii) :
  form_unreserved c = true →
  uri_unreserved c = true ∧ bool_decide (code c = 32%nat) = false.
Proof. by destruct c as [[] [] [] [] [] [] [] []]. Qed.

(** Both encoders leave a plain string alone. *)
Lemma plain_encodings (s : string) :
  plain s = true → encodeURIComponent s = s ∧ form_urlencode s = s.
Proof.
  induction s as [|c s IH]; [done|]. cbn [plain].
  intros [Hc Hs]%andb_true_iff. destruct (IH Hs) as [IH1 IH2].
  destruct (plain_char c Hc) as [Huri Hspace].
  cbn [encodeURIComponent form_urlencode]. rewrite Huri, Hspace, Hc, IH1, IH2.
  done.
Qed.

Section Profiles.
Variable net : network.
Variable JSON_stringify : json → string.
Variable JSON_parse : string → content.

(** X16: the two ways to search profiles ask the same endpoint, and with
    the same address exactly when the two encoders agree on the query,
    as they do on every query of letters, digits and [* - . _]; they
    part on a space, which [getProfiles] sends as [%20] and
    [searchProfiles] as [+]. For the empty query [getProfiles] lists
    the profiles, and [searchProfiles] still searches. *)
Theorem profile_search_addresses (query : string) (limit page : option Z) :
  let o := ProfilesService.Options limit page (Some query) in
  let pagination :=
    ProfilesService.URLSearchParams_toString
      (ProfilesService.getProfiles_params o) in
  let endpoint := Config.buildApiUrl Config.PROFILES in
  ProfilesService.searchProfiles_url query limit page
    = endpoint +:+ "/search?q=" +:+ form_urlencode query +:+ "&" +:+ pagination ∧
  (query ≠ "" →
   ProfilesService.getProfiles_url o
     = endpoint +:+ "/search?q=" +:+ encodeURIComponent query +:+ "&"
         +:+ pagination ∧
   (ProfilesService.getProfiles_url o
      = ProfilesService.searchProfiles_url query limit page ↔
    encodeURIComponent query = form_urlencode query)) ∧
  (plain query = true →
   encodeURIComponent query = query ∧ form_urlencode query = query) ∧
  (query = "" →
   ProfilesService.getProfiles_url o = endpoint +:+ "?" +:+ pagination ∧
   ProfilesService.getProfiles_url o
     ≠ ProfilesService.searchProfiles_url query limit page) ∧
  encodeURIComponent "a b" = "a%20b" ∧
  form_urlencode "a b" = "a+b".
Proof.
  intros o pagination endpoint.
  assert (ProfilesService.searchProfiles_url query limit page
    = endpoint +:+ "/search?q=" +:+ form_urlencode query +:+ "&" +:+ pagination)
    as Hsearch.
  { transitivity (endpoint +:+ "/search?" +:+ ("q=" +:+ form_urlencode query)
                    +:+ "&" +:+ pagination); [reflexivity|].
    by rewrite !string_app_assoc. }
  split_and!; [done| | | |done..].
  - intros Hq.
    assert (ProfilesService.getProfiles_url o
      = endpoint +:+ "/search?q=" +:+ encodeURIComponent query +:+ "&"
          +:+ pagination) as Hget.
    { unfold ProfilesService.getProfiles_url.
      cbn [ProfilesService.search o default from_option Datatypes.id].
      by rewrite (proj2 (nonempty_true query) Hq). }
    split; [done|]. rewrite Hget, Hsearch. split.
    + intros Heq%(inj (String.app endpoint))%(inj (String.app "/search?q=")).
      rewrite <-!string_app_assoc in Heq. apply string_app_inv_r in Heq.
      by apply string_app_inv_r in Heq.
    + by intros ->.
  - apply plain_encodings.
  - intros ->. split; [done|]. rewrite Hsearch.
    change (ProfilesService.getProfiles_url o) with (endpoint +:+ "?" +:+ pagination).
    intros Heq%(inj (String.app endpoint)). discriminate Heq.
Qed.


Lemma image_field_none (name fallback : string) (i : option ProfilesService.image) :
  (∀ img u, i = Some img → ProfilesService.image_url img = Some u → u = "") →
  ProfilesService.image_field name fallback i = [].
Proof.
  intros Hempty. unfold ProfilesService.image_field.
  destruct i as [img|]; [|done].
  destruct (ProfilesService.image_url img) as [u|] eqn:Hu; [|done].
  by rewrite (Hempty img u eq_refl Hu).
Qed.

(** X18: the update of a profile sends only what it was given. The [bio]
    is in the payload whenever one is passed, trimmed, an empty one too
    (it clears the bio). An avatar or a banner is in it exactly when it
    is passed with a non-empty URL: then with that URL trimmed and with
    the alt text that was passed, or, when none or an empty one was
    passed, [Profile avatar] for the avatar and [Profile banner] for
    the banner. A URL of white space only is not dropped: it is sent as
    the empty URL. Without any field the payload is the empty object. *)
Theorem updateProfile_payload (p : ProfilesService.profileData) :
  let payload := ProfilesService.updateData p in
  let shown (fallback : string) (img : ProfilesService.image) (u : string)
            (field : value) :=
    ∃ alt,
      field = Some (JObj [("url", JStr (trim u)); ("alt", JStr alt)]) ∧
      alt ≠ "" ∧
      (∀ a, ProfilesService.image_alt img = Some a → a ≠ "" → alt = a) ∧
      (ProfilesService.image_alt img = None ∨
       ProfilesService.image_alt img = Some "" → alt = fallback) in
  let without (i : option ProfilesService.image) :=
    ∀ img u, i = Some img → ProfilesService.image_url img = Some u → u = "" in
  Js.prop "bio" payload = (λ text, JStr (trim text)) <$> ProfilesService.bio p ∧
  (∀ img u,
     ProfilesService.avatar p = Some img →
     ProfilesService.image_url img = Some u → u ≠ "" →
     shown "Profile avatar" img u (Js.prop "avatar" payload)) ∧
  (∀ img u,
     ProfilesService.banner p = Some img →
     ProfilesService.image_url img = Some u → u ≠ "" →
     shown "Profile banner" img u (Js.prop "banner" payload)) ∧
  (without (ProfilesService.avatar p) → Js.prop "avatar" payload = None) ∧
  (without (ProfilesService.banner p) → Js.prop "banner" payload = None) ∧
  (ProfilesService.bio p = None →
   ProfilesService.avatar p = None →
   ProfilesService.banner p = None →
   payload = JObj []) ∧
  (∀ k, k ≠ "bio" → k ≠ "avatar" → k ≠ "banner" → Js.prop k payload = None) ∧
  Js.prop "avatar"
    (ProfilesService.updateData
       (ProfilesService.ProfileData None
          (Some (ProfilesService.Image (Some "  ") None)) None))
  = Some (JObj [("url", JStr ""); ("alt", JStr "Profile avatar")]).
Proof.
  intros payload shown without. unfold payload, ProfilesService.updateData.
  assert (∀ name fallback i img u,
    i = Some img → ProfilesService.image_url img = Some u → u ≠ "" →
    fallback ≠ "" →
    ∃ alt,
      ProfilesService.image_field name fallback i
      = [(name, JObj [("url", JStr (trim u)); ("alt", JStr alt)])] ∧
      alt ≠ "" ∧
      (∀ a, ProfilesService.image_alt img = Some a → a ≠ "" → alt = a) ∧
      (ProfilesService.image_alt img = None ∨
       ProfilesService.image_alt img = Some "" → alt = fallback)) as Hfield.
  { intros name fallback i img u -> Hu Hne Hfallback.
    unfold ProfilesService.image_field. rewrite Hu.
    rewrite (proj2 (nonempty_true u) Hne).
    destruct (ProfilesService.image_alt img) as [[|c a]|] eqn:Halt.
    - exists fallback. split_and!; [done..| |done]. by intros a [= <-].
    - exists (String c a). split_and!; [done..| |].
      + by intros a' [= <-].
      + by intros [?|?].
    - exists fallback. split_and!; done. }
  assert (∀ name fallback i, ProfilesService.image_field name fallback i = [] ∨
            ∃ v, ProfilesService.image_field name fallback i = [(name, v)])
    as Hshape.
  { intros name fallback i. unfold ProfilesService.image_field.
    destruct i as [img|]; [|by left].
    destruct (ProfilesService.image_url img) as [u|]; [|by left].
    destruct (nonempty u); [right; by eexists|by left]. }
  split_and!; [| | | | | | |done].
  - destruct (Hshape "avatar" "Profile avatar" (ProfilesService.avatar p))
      as [->|[v ->]],
      (Hshape "banner" "Profile banner" (ProfilesService.banner p))
      as [->|[v' ->]], (ProfilesService.bio p) as [text|]; done.
  - intros img u Himg Hu Hne.
    destruct (Hfield "avatar" "Profile avatar" _ img u Himg Hu Hne)
      as (alt & -> & Halt); [done|].
    exists alt. split; [|done].
    by destruct (ProfilesService.bio p) as [text|].
  - intros img u Himg Hu Hne.
    destruct (Hfield "banner" "Profile banner" _ img u Himg Hu Hne)
      as (alt & -> & Halt); [done|].
    exists alt. split; [|done].
    destruct (Hshape "avatar" "Profile avatar" (ProfilesService.avatar p))
      as [->|[v ->]], (ProfilesService.bio p) as [text|]; done.
  - intros Hempty. rewrite (image_field_none "avatar" _ _ Hempty). cbn [app].
    destruct (Hshape "banner" "Profile banner" (ProfilesService.banner p))
      as [->|[v' ->]], (ProfilesService.bio p) as [text|]; done.
  - intros Hempty. rewrite (image_field_none "banner" _ _ Hempty).
    rewrite app_nil_r.
    destruct (Hshape "avatar" "Profile avatar" (ProfilesService.avatar p))
      as [->|[v ->]], (ProfilesService.bio p) as [text|]; done.
  - by intros -> -> ->.
  - intros k Hbio Havatar Hbanner.
    destruct (Hshape "avatar" "Profile avatar" (ProfilesService.avatar p))
      as [->|[v ->]],
      (Hshape "banner" "Profile banner" (ProfilesService.banner p))
      as [->|[v' ->]], (ProfilesService.bio p) as [text|];
      cbn [app Js.prop Js.field]; by rewrite ?decide_False by done.
Qed.

(** X19: without a stored user, so after every [logout],
    [getCurrentProfile] sends nothing and throws
    [Failed to fetch current profile: No authenticated user found]
    (given that [JSON.parse] reads [{}] as the empty object). With a
    stored user whose [name] is a non-empty string it asks for the
    profile of that name. *)
Theorem getCurrentProfile_needs_user (b : browser) :
  JSON_parse "{}" = Parsed (JObj []) →
  (present (localStorage b !! "userData") = false →
   ProfilesService.getCurrentProfile net JSON_parse b
   = (Throw (Error "Failed to fetch current profile: No authenticated user found"),
      b)) ∧
  ProfilesService.getCurrentProfile net JSON_parse (Session.logout b).2
  = (Throw (Error "Failed to fetch current profile: No authenticated user found"),
     (Session.logout b).2) ∧
  (∀ text user name,
     localStorage b !! "userData" = Some text → text ≠ "" →
     JSON_parse text = Parsed user →
     Js.prop "name" user = Some (JStr name) → name ≠ "" →
     ∃ c, ProfilesService.getCurrentProfile net JSON_parse b =
          (c, after_request b (authorized b (λ h,
                Request (Config.buildApiUrl Config.PROFILES +:+ "/" +:+ name
                           +:+ "?_followers=true&_following=true&_posts=true")
                        "GET" h None))) ∧
          prefixed "Failed to fetch current profile: Failed to fetch profile: " c).
Proof.
  intros Hparse.
  assert (∀ b0, present (localStorage b0 !! "userData") = false →
    ProfilesService.getCurrentProfile net JSON_parse b0
    = (Throw (Error "Failed to fetch current profile: No authenticated user found"),
       b0)) as Hnone.
  { intros b0 Hno. unfold ProfilesService.getCurrentProfile, try_catch.
    rewrite run_bind, run_getItem, Hno, Hparse. done. }
  split_and!.
  - apply Hnone.
  - apply Hnone. rewrite run_logout. cbn [snd localStorage].
    by rewrite lookup_delete_eq.
  - intros text user name Hstored Hne Hparsed Hname Hnne.
    unfold ProfilesService.getCurrentProfile, try_catch.
    rewrite run_bind, run_getItem, Hstored.
    cbn [present default from_option]. rewrite (proj2 (nonempty_true text) Hne).
    unfold id. rewrite Hparsed. rewrite run_bind. unfold ret at 1.
    assert (user ≠ JNull) as Huser by (by intros ->).
    assert (member user "name" = ret (Some (JStr name))) as ->.
    { rewrite <-Hname. by destruct user. }
    rewrite run_bind. unfold ret at 1.
    assert (Js.truthy (Some (JStr name)) = true) as -> by (by apply nonempty_true).
    cbn [negb Js.toString_value Js.toString].
    change (ProfilesService.getProfileByUsername net name)
      with (call net (λ h,
              Request (Config.buildApiUrl Config.PROFILES +:+ "/" +:+ name
                         +:+ "?_followers=true&_following=true&_posts=true")
                      "GET" h None)
              "Failed to fetch profile" "Failed to fetch profile: ").
    rewrite run_call_outcome.
    pose proof (call_outcome_prefixed
      (net (sent b) (authorized b (λ h,
         Request (Config.buildApiUrl Config.PROFILES +:+ "/" +:+ name
                    +:+ "?_followers=true&_following=true&_posts=true")
                 "GET" h None)))
      "Failed to fetch profile" "Failed to fetch profile: ") as Hprefixed.
    destruct (call_outcome _ _ _) as [data|e].
    + eexists. split; [reflexivity|]. by intros e [=].
    + eexists. split; [reflexivity|]. intros e' [= <-].
      destruct (Hprefixed e eq_refl) as [_ [reason ->]].
      split; [done|]. by exists reason.
Qed.

End Profiles.

(** ** The tag of a listing *)

Lemma has_char_app (c : ascii) (s1 s2 : string) :
  has_char c (s1 +:+ s2) = has_char c s1 || has_char c s2.
Proof.
  induction s1 as [|c1 s1 IH]; [done|]. rewrite string_app_cons. cbn [has_char].
  by rewrite IH, orb_assoc.
Qed.

Lemma form_char_no_separator (c : ascii) :
  let piece := if bool_decide (code c = 32%nat) then "+"
               else if form_unreserved c then String c "" else percent_all c in
  has_char "&" piece = false ∧ has_char "=" piece = false ∧
  has_char "#" piece = false.
Proof. by destruct c as [[] [] [] [] [] [] [] []]. Qed.

Lemma form_urlencode_no_separator (s : string) :
  has_char "&" (form_urlencode s) = false ∧
  has_char "=" (form_urlencode s) = false ∧
  has_char "#" (form_urlencode s) = false.
Proof.
  induction s as [|c s (IH1 & IH2 & IH3)]; [done|]. cbn [form_urlencode].
  destruct (form_char_no_separator c) as (H1 & H2 & H3). cbn zeta in H1, H2, H3.
  by rewrite !has_char_app, H1, H2, H3, IH1, IH2, IH3.
Qed.

Lemma join_snoc (sep : string) (ps : list string) (p : string) :
  ps ≠ [] → join sep (ps ++ [p]) = join sep ps +:+ sep +:+ p.
Proof.
  induction ps as [|q ps IH]; [done|]. intros _.
  destruct ps as [|q' ps]; [done|].
  change (join sep ((q :: q' :: ps) ++ [p]))
    with (q +:+ sep +:+ join sep ((q' :: ps) ++ [p])).
  rewrite IH by done. rewrite join_cons_cons. by rewrite !string_app_assoc.
Qed.

(** X20: a non-empty [tag] adds one parameter to the address of
    [getPosts], behind all the others, in the listing and in the search
    alike: [_tag] with the form-encoded tag. The encoded tag has none of
    the characters [& = #], so it cannot add a parameter of its own or
    cut the address short. Without a tag, or with an empty one, the
    address has no [_tag]. *)
Theorem getPosts_tag_parameter (o : PostsService.options) :
  let tag := default "" (PostsService.tag o) in
  let untagged :=
    PostsService.Options (PostsService.limit o) (PostsService.page o) None
      (PostsService.search o) in
  (tag ≠ "" →
   PostsService.getPosts_url o
   = PostsService.getPosts_url untagged +:+ "&_tag=" +:+ form_urlencode tag) ∧
  (tag = "" → PostsService.getPosts_url o = PostsService.getPosts_url untagged) ∧
  has_char "&" (form_urlencode tag) = false ∧
  has_char "=" (form_urlencode tag) = false ∧
  has_char "#" (form_urlencode tag) = false.
Proof.
  intros tag untagged. split_and!; [| |apply form_urlencode_no_separator..].
  - intros Htag.
    assert (PostsService.URLSearchParams_toString (PostsService.getPosts_params o)
            = PostsService.URLSearchParams_toString
                (PostsService.getPosts_params untagged)
              +:+ "&_tag=" +:+ form_urlencode tag) as Hparams.
    { unfold PostsService.getPosts_params at 1. fold tag.
      rewrite (proj2 (nonempty_true tag) Htag).
      unfold PostsService.URLSearchParams_toString at 1.
      rewrite map_app. cbn [map]. rewrite join_snoc by done. reflexivity. }
    unfold PostsService.getPosts_url. rewrite Hparams.
    change (PostsService.search untagged) with (PostsService.search o).
    destruct (nonempty (default "" (PostsService.search o)));
      by rewrite !string_app_assoc.
  - intros Htag. unfold PostsService.getPosts_url, PostsService.getPosts_params.
    fold tag. by rewrite Htag.
Qed.

(** ** The key request of [js/api/auth.js] and the requests after a logout *)

Section Anonymous.
Variable net : network.

(** X21: [createApiKey] of [js/api/auth.js] never throws: it sends one
    POST without body to the key endpoint and returns, whatever comes
    back. It stores the key of a 2xx answer that has one, and writes
    nothing else; after a transport failure or an answer outside 2xx
    the storage is as before. *)
Theorem createApiKey_auth_js_never_throws (b : browser) :
  let rq := bare_key_request b in
  ∃ b',
    AuthService.createApiKey net b = (Normal (), b') ∧
    sent b' = sent b ++ [rq] ∧
    url rq = "https://v2.api.noroff.dev/auth/create-api-key" ∧
    method rq = "POST" ∧
    body rq = None ∧
    (∀ k, k ≠ "apiKey" → localStorage b' !! k = localStorage b !! k) ∧
    (∀ r data key,
       net (sent b) rq = Responded r → ok r = true → payload r = Parsed data →
       Js.prop_opt "key" (Js.prop "data" data) = Some (JStr key) → key ≠ "" →
       localStorage b' !! "apiKey" = Some key) ∧
    ((∃ why, net (sent b) rq = Rejected why) ∨
     (∃ r, net (sent b) rq = Responded r ∧ ok r = false) →
     b' = after_request b rq).
Proof.
  intros rq. eexists. split; [apply run_createApiKey_silent|].
  fold rq. cbn [sent localStorage]. split_and!; [done..| | |].
  - intros k Hk. destruct (key_in_reply _); [|done]. by rewrite lookup_insert_ne.
  - intros r data key -> Hok Hpayload Hkey Hne. unfold key_in_reply.
    rewrite Hpayload, Hok, Hkey. cbn [andb].
    assert (Js.truthy (Some (JStr key)) = true) as -> by (by apply nonempty_true).
    by rewrite lookup_insert_eq.
  - intros [[why ->]|(r & -> & Hok)]; [done|]. unfold key_in_reply.
    destruct (payload r); [done|]. by rewrite Hok.
Qed.

(** X22: after a [logout] the auth headers are the plain headers, so the
    requests of the services go out without the bearer token and
    without the API key, whatever the storage held before. *)
Theorem logout_then_plain_headers (b : browser) (o : PostsService.options)
    (username : string) :
  let b' := (Session.logout b).2 in
  Config.getAuthHeaders b' = (Normal Config.HEADERS, b') ∧
  (∀ mk, authorized b' mk = mk Config.HEADERS) ∧
  (∃ c, PostsService.getPosts net o b' =
        (c, after_request b'
              (Request (PostsService.getPosts_url o) "GET" Config.HEADERS None))) ∧
  (∃ c, ProfilesService.followUser net username b' =
        (c, after_request b'
              (Request (Config.buildApiUrl Config.PROFILES +:+ "/" +:+ username
                          +:+ "/follow") "PUT" Config.HEADERS None))) ∧
  (∀ h, Config.HEADERS !! h = if decide (h = "Content-Type")
                              then Some "application/json" else None).
Proof.
  intros b'.
  assert (auth_headers_of (localStorage b' !! "authToken")
            (localStorage b' !! "apiKey") = Config.HEADERS) as Hheaders.
  { unfold b'. rewrite run_logout. cbn [snd localStorage].
    rewrite lookup_delete_ne, lookup_delete_ne, lookup_delete_eq by done.
    by rewrite lookup_delete_ne, lookup_delete_eq by done. }
  assert (∀ mk, authorized b' mk = mk Config.HEADERS) as Hplain.
  { intros mk. unfold authorized. by rewrite Hheaders. }
  split_and!.
  - by rewrite run_getAuthHeaders, Hheaders.
  - done.
  - rewrite getPosts_call, run_call_outcome, Hplain. by eexists.
  - change (ProfilesService.followUser net username)
      with (call net (λ h,
              Request (Config.buildApiUrl Config.PROFILES +:+ "/" +:+ username
                         +:+ "/follow") "PUT" h None)
              "Failed to follow user" "Failed to follow user: ").
    rewrite run_call_outcome, Hplain. by eexists.
  - intros h. unfold Config.HEADERS.
    case_decide as Hh; [by rewrite Hh, lookup_singleton_eq|].
    by rewrite lookup_singleton_ne.
Qed.

End Anonymous.

(** * The further properties at concrete inputs *)

(** Without connection, deleting the post 7 fails with the reason of the
    transport behind the prefix of the method. *)
Lemma PostsService_wraps_errors_offline :
  (PostsService.deletePost Example.offline "7" (Browser ∅ [])).1
  = Throw (Error "Failed to delete post: Failed to fetch").
Proof.
  destruct (PostsService_wraps_errors Example.offline Example.serialize
              PostsService.no_options "7"
              (PostsService.PostData "Hei" "Hallo" None None) (Browser ∅ []))
    as (_ & _ & _ & _ & c & Hrun & _ & Hrejected & _).
  rewrite Hrun. cbn [fst]. by apply Hrejected.
Defined.

(** A registration that the server refuses with a message of its own,
    met with a session in the storage; and refusals with the body
    [null], with an empty object, and with a body that is not JSON. *)
Lemma register_sends_plain_request_at_400 :
  let refused body := Example.replies (Response 400 body) in
  let b := Browser {[ "authToken" := "t0k3n"; "apiKey" := "k3y" ]} [] in
  let run net := AuthService.register net Example.serialize "ola"
                   "ola@stud.noroff.no" "hemmelig1" b in
  (∃ b', run (refused (Parsed (JObj
           [("errors", JArr [JObj [("message", JStr "Profile already exists")]])])))
         = (Throw (Error "Registration failed: Profile already exists"), b') ∧
         localStorage b' = localStorage b) ∧
  (run (refused (Parsed (JObj [])))).1
  = Throw (Error "Registration failed: Registration failed") ∧
  (run (refused (Parsed JNull))).1
  = Throw (Error "Registration failed: Cannot read properties of null (reading 'errors')") ∧
  (run (refused (Malformed "Unexpected token < in JSON"))).1
  = Throw (Error "Registration failed: Unexpected token < in JSON").
Proof.
  intros refused b run. split_and!.
  - destruct (register_sends_plain_request
                (refused (Parsed (JObj
                   [("errors", JArr [JObj [("message", JStr "Profile already exists")]])])))
                Example.serialize "ola" "ola@stud.noroff.no" "hemmelig1" b)
      as ((c & Hrun & _ & _ & Hrefused) & _).
    unfold run. rewrite Hrun.
    rewrite (Hrefused _ _ "Profile already exists" eq_refl eq_refl eq_refl eq_refl
               ltac:(discriminate)).
    by eexists.
  - destruct (register_sends_plain_request (refused (Parsed (JObj [])))
                Example.serialize "ola" "ola@stud.noroff.no" "hemmelig1" b)
      as (_ & _ & _ & _ & _ & Hplain & _).
    unfold run. by rewrite (Hplain _ (JObj []) eq_refl eq_refl eq_refl).
  - destruct (register_sends_plain_request (refused (Parsed JNull))
                Example.serialize "ola" "ola@stud.noroff.no" "hemmelig1" b)
      as (_ & _ & _ & _ & _ & _ & _ & Hnull & _).
    unfold run. by rewrite (Hnull _ eq_refl eq_refl eq_refl).
  - destruct (register_sends_plain_request
                (refused (Malformed "Unexpected token < in JSON"))
                Example.serialize "ola" "ola@stud.noroff.no" "hemmelig1" b)
      as (_ & _ & _ & _ & _ & _ & _ & _ & Hbad).
    unfold run. by rewrite (Hbad _ _ eq_refl eq_refl).
Defined.

(** A login without connection, with an entry in the storage. *)
Lemma login_failure_writes_nothing_offline :
  let b := Browser {[ "theme" := "dark" ]} [] in
  ∃ e b', AuthService2.login Example.offline Example.serialize
            "ola@stud.noroff.no" "hemmelig" b = (Throw e, b') ∧
          localStorage b' = localStorage b ∧
          name e = "Error".
Proof.
  intros b. eexists _, _. split; [reflexivity|].
  destruct (login_failure_writes_nothing Example.offline Example.serialize
              "ola@stud.noroff.no" "hemmelig" b _ _ (or_intror eq_refl))
    as (_ & Hstorage & Hname & _).
  by split.
Defined.

(** The first login of [ola] at a server that hands out the key [k3y]. *)
Lemma login_provisions_key_at_first_login :
  let net := Example.server (Response 200 (Parsed (JObj
               [("data", JObj [("name", JStr "Social Media App Key");
                               ("key", JStr "k3y")])]))) in
  ∃ data b',
    AuthService2.login net Example.serialize "ola@stud.noroff.no" "hemmelig"
      (Browser ∅ []) = (Normal data, b') ∧
    localStorage b' !! "authToken" = Some "t0k3n" ∧
    localStorage b' !! "apiKey" = Some "k3y" ∧
    Session.isAuthenticated b' = (Normal true, b').
Proof.
  intros net.
  destruct (login_provisions_key net Example.serialize
              "ola@stud.noroff.no" "hemmelig" "t0k3n" "k3y" (Browser ∅ [])
              (Response 200 (Parsed (JObj
                [("data", JObj [("name", JStr "ola");
                                ("email", JStr "ola@stud.noroff.no");
                                ("accessToken", JStr "t0k3n")]);
                 ("meta", JObj [])])))
              (Response 200 (Parsed (JObj
                [("data", JObj [("name", JStr "Social Media App Key");
                                ("key", JStr "k3y")])])))
              _ _ eq_refl eq_refl eq_refl eq_refl ltac:(discriminate) eq_refl
              eq_refl eq_refl eq_refl eq_refl ltac:(discriminate))
    as (b' & Hlogin & _ & Htoken & Hkey & _ & _ & _ & Hauth).
  by eexists _, b'.
Defined.

(** A login of [ola] with the key of an earlier session in the storage. *)
Lemma login_with_stored_key_at_second_login :
  let net := Example.server (Response 500 (Parsed (JObj []))) in
  let b := Browser {[ "apiKey" := "k3y" ]} [] in
  ∃ data b',
    AuthService2.login net Example.serialize "ola@stud.noroff.no" "hemmelig" b
    = (Normal data, b') ∧
    length (sent b') = 1%nat ∧
    localStorage b' !! "apiKey" = Some "k3y".
Proof.
  intros net b.
  destruct (login_with_stored_key net Example.serialize
              "ola@stud.noroff.no" "hemmelig" b
              (Response 200 (Parsed (JObj
                [("data", JObj [("name", JStr "ola");
                                ("email", JStr "ola@stud.noroff.no");
                                ("accessToken", JStr "t0k3n")]);
                 ("meta", JObj [])])))
              _ eq_refl eq_refl eq_refl eq_refl eq_refl)
    as (Hlogin & Hsent & Hkey & _).
  eexists _, _. split; [exact Hlogin|]. split; [by rewrite Hsent|by rewrite Hkey].
Defined.

(** The user [ola] read back after the login. *)
Lemma login_then_getCurrentUser_at_ola :
  let net := Example.server (Response 500 (Parsed (JObj []))) in
  let user := JObj [("name", JStr "ola"); ("email", JStr "ola@stud.noroff.no");
                    ("accessToken", JStr "t0k3n")] in
  ∃ data b',
    AuthService2.login net Example.serialize "ola@stud.noroff.no" "hemmelig"
      (Browser ∅ []) = (Normal data, b') ∧
    Session.getCurrentUser Example.parse b' = (Normal user, b').
Proof.
  intros net user. eexists _, _. split; [reflexivity|].
  apply (login_then_getCurrentUser net Example.serialize Example.parse
           "ola@stud.noroff.no" "hemmelig" (Browser ∅ []) _
           (Response 200 (Parsed (JObj
             [("data", user); ("meta", JObj [])])))
           _ user eq_refl eq_refl eq_refl eq_refl eq_refl ltac:(discriminate)
           eq_refl (or_intror eq_refl)).
Defined.

(** Two calls in a row at a server that hands out the key [k3y]. *)
Lemma ensureApiKey_idempotent_at_k3y :
  let net := Example.replies (Response 200 (Parsed (JObj
               [("data", JObj [("key", JStr "k3y")])]))) in
  ∃ b',
    AuthService2.ensureApiKey net Example.serialize (Browser ∅ []) = (Normal (), b') ∧
    length (sent b') = 1%nat ∧
    AuthService2.ensureApiKey net Example.serialize b' = (Normal (), b').
Proof.
  intros net.
  assert (AuthService2.ensureApiKey net Example.serialize (Browser ∅ [])
          = (Normal (),
             Browser {[ "apiKey" := "k3y" ]}
               [key_request Example.serialize (Browser ∅ [])])) as Hrun
    by reflexivity.
  destruct (ensureApiKey_idempotent net Example.serialize _ _ _ Hrun)
    as (_ & _ & Hagain & _).
  destruct (Hagain eq_refl) as [_ Hnoop].
  eexists. split; [exact Hrun|]. split; [reflexivity|]. by apply Hnoop.
Defined.

(** The search for [cats], and the empty search. *)
Lemma handleSearch_request_at_cats :
  (SocialMediaApp.handleSearch Example.offline "cats" (Browser ∅ [])).2
  = Browser ∅
      [Request "https://v2.api.noroff.dev/social/posts/search?q=cats&limit=12&page=1&_author=true&_comments=true&_reactions=true"
         "GET" Config.HEADERS None].
Proof.
  destruct (handleSearch_request Example.offline "cats" (Browser ∅ []))
    as (rq & Hrun & Hmethod & Hbody & Hheaders & Hurl).
  rewrite Hrun. cbn [snd]. destruct rq as [u m h bd].
  cbn [url method headers body] in *. by rewrite Hmethod, Hbody, Hheaders, Hurl.
Defined.

(** A confirmed delete that the server answers 204 without a body. *)
Lemma deletePost_then_reload_at_204 :
  let net := Example.replies (Response 204 (Malformed "Unexpected end of JSON input")) in
  ∃ b', SocialMediaApp.deletePost net "7" true (Browser ∅ []) = (Normal (), b') ∧
        method <$> sent b' = ["DELETE"; "GET"].
Proof.
  intros net.
  destruct (deletePost_then_reload net "7" true (Browser ∅ [])) as (_ & Hdone & _).
  eexists. split; [by eapply Hdone|]. reflexivity.
Defined.

(** A registration the form accepts, and one with a short password. *)
Lemma handleRegister_validates_at_ola :
  let run password :=
    SocialMediaApp.handleRegister Example.offline Example.serialize "ola"
      "Ola@Stud.Noroff.no" password (Browser ∅ []) in
  length (sent (run "hemmelig").2) = 1%nat ∧
  run "hemmeli" = (Normal (), Browser ∅ []).
Proof.
  intros run. split.
  - destruct (handleRegister_validates Example.offline Example.serialize "ola"
                "Ola@Stud.Noroff.no" "hemmelig" (Browser ∅ [])) as [Hvalid _].
    unfold run. rewrite Hvalid; [reflexivity|].
    split_and!; [done..|reflexivity|cbn; lia].
  - destruct (handleRegister_validates Example.offline Example.serialize "ola"
                "Ola@Stud.Noroff.no" "hemmeli" (Browser ∅ [])) as [_ Hinvalid].
    apply Hinvalid. intros (_ & _ & _ & _ & Hlen). cbn in Hlen. lia.
Defined.

(** A form in edit mode for the post 7 that the server accepts, and the
    same form when the post id is 0. *)
Lemma handleSavePost_saves_then_reloads_at_7 :
  let net := Example.replies (Response 200 (Parsed (JObj [("data", JObj [])]))) in
  let f := SocialMediaApp.Form "Hei" "Hallo" "" "" in
  let run id := SocialMediaApp.handleSavePost net Example.serialize f true
                  (Some (JNum id)) (Browser ∅ []) in
  (url <$> sent (run 7).2)
  = ["https://v2.api.noroff.dev/social/posts/7";
     "https://v2.api.noroff.dev/social/posts?limit=12&page=1&_author=true&_comments=true&_reactions=true"] ∧
  (method <$> sent (run 7).2) = ["PUT"; "GET"] ∧
  (method <$> sent (run 0).2) = ["POST"; "GET"].
Proof.
  intros net f run.
  destruct (handleSavePost_saves_then_reloads net Example.serialize f true
              (Some (JNum 7)) (Browser ∅ [])) as (_ & _ & Hsaved & _).
  destruct (Hsaved _ eq_refl) as [Hok _].
  unfold run. rewrite (Hok _ _ eq_refl eq_refl eq_refl). by split_and!.
Defined.

(** A text of six code units cut at three. *)
Lemma truncateText_bounds_at_three :
  Ui.truncateText "abcdef" (Some 3) = "abc..." ∧
  Ui.truncateText "abc" (Some 3) = "abc".
Proof.
  split.
  - destruct (truncateText_bounds "abcdef" (Some 3))
      as (_ & Hlong & _ & _ & _ & _).
    destruct Hlong as (kept & rest & Htext & -> & Hlength); [done|].
    destruct kept as [|c1 [|c2 [|c3 [|c4 kept]]]]; try done.
    by injection Htext as <- <- <- _.
  - destruct (truncateText_bounds "abc" (Some 3)) as (Hshort & _).
    by apply Hshort.
Defined.

(** A post with two tags, one of two words, opened and saved again. *)
Lemma edit_keeps_tags_at_two_tags :
  let p := SocialMediaApp.Post "Hei" "Hallo" (Some ["a"; "b c"])
             (Some " https://img.example/a.png") in
  ∃ pd,
    SocialMediaApp.handleSavePost_postData (SocialMediaApp.showPostModal_form p)
    = Some pd ∧
    PostsService.tags pd = Some ["a"; "b c"] ∧
    PostsService.media pd = Some "https://img.example/a.png".
Proof.
  intros p.
  destruct (edit_keeps_tags p eq_refl eq_refl) as (pd & Hpd & _ & _ & Htags & Hmedia & _).
  { by repeat constructor. }
  by exists pd.
Defined.

(** A 204 without a body: the delete returns and the read throws. *)
Lemma deletePost_ignores_body_at_204 :
  let net := Example.replies (Response 204 (Malformed "Unexpected end of JSON input")) in
  (PostsService.deletePost net "7" (Browser ∅ [])).1 = Normal () ∧
  (PostsService.getPostById net "7" (Browser ∅ [])).1
  = Throw (Error "Failed to fetch post: Unexpected end of JSON input").
Proof.
  intros net.
  destruct (deletePost_ignores_body net "7" (Browser ∅ [])
              (Response 204 (Malformed "Unexpected end of JSON input")))
    as (Hdelete & _ & Hget).
  rewrite Hdelete by done. by rewrite (Hget _ eq_refl eq_refl eq_refl).
Defined.

(** The search for [ola], where both methods agree, and for [a b]. *)
Lemma profile_search_addresses_at_ola :
  ProfilesService.getProfiles_url (ProfilesService.Options None None (Some "ola"))
  = ProfilesService.searchProfiles_url "ola" None None ∧
  ProfilesService.getProfiles_url (ProfilesService.Options None None (Some "a b"))
  ≠ ProfilesService.searchProfiles_url "a b" None None.
Proof.
  split.
  - destruct (profile_search_addresses "ola" None None) as (_ & Hsame & _).
    destruct Hsame as [_ Hiff]; [done|]. by apply Hiff.
  - destruct (profile_search_addresses "a b" None None) as (_ & Hsame & _).
    destruct Hsame as [_ Hiff]; [done|]. intros Heq%Hiff. discriminate Heq.
Defined.


(** An update with an empty bio, an avatar with an alt text of its own,
    and a banner without one; and an update with a banner only, whose
    URL is empty. *)
Lemma updateProfile_payload_at_avatar :
  let p := ProfilesService.ProfileData (Some "")
             (Some (ProfilesService.Image (Some " https://img.example/a.png ")
                      (Some "Ola")))
             (Some (ProfilesService.Image (Some "https://img.example/b.png") None)) in
  let q := ProfilesService.ProfileData None None
             (Some (ProfilesService.Image (Some "") (Some "Banner"))) in
  Js.prop "bio" (ProfilesService.updateData p) = Some (JStr "") ∧
  Js.prop "avatar" (ProfilesService.updateData p)
  = Some (JObj [("url", JStr "https://img.example/a.png"); ("alt", JStr "Ola")]) ∧
  Js.prop "banner" (ProfilesService.updateData p)
  = Some (JObj [("url", JStr "https://img.example/b.png");
                ("alt", JStr "Profile banner")]) ∧
  Js.prop "banner" (ProfilesService.updateData q) = None.
Proof.
  intros p q.
  destruct (updateProfile_payload p) as (Hbio & Havatar & Hbanner & _).
  destruct (Havatar _ _ eq_refl eq_refl) as (alt & -> & _ & Hgiven & _); [done|].
  destruct (Hbanner _ _ eq_refl eq_refl) as (alt' & -> & _ & _ & Hdefault); [done|].
  rewrite (Hgiven "Ola" eq_refl) by done. rewrite Hdefault by (by left).
  split_and!; [done..|].
  destruct (updateProfile_payload q) as (_ & _ & _ & _ & Hnone & _).
  apply Hnone. by intros img u [= <-] [= <-].
Defined.

(** A storage without user, at a parser that reads the empty object. *)
Lemma getCurrentProfile_needs_user_at_empty_storage :
  ProfilesService.getCurrentProfile Example.offline Example.parse (Browser ∅ [])
  = (Throw (Error "Failed to fetch current profile: No authenticated user found"),
     Browser ∅ []).
Proof.
  destruct (getCurrentProfile_needs_user Example.offline Example.parse
              (Browser ∅ []) eq_refl) as (Hnone & _).
  by apply Hnone.
Defined.

(** The tag [a b] of a listing. *)
Lemma getPosts_tag_parameter_at_two_words :
  PostsService.getPosts_url (PostsService.Options None None (Some "a b") None)
  = "https://v2.api.noroff.dev/social/posts?limit=12&page=1&_author=true&_comments=true&_reactions=true&_tag=a+b".
Proof.
  destruct (getPosts_tag_parameter
              (PostsService.Options None None (Some "a b") None)) as (Htag & _).
  by rewrite Htag.
Defined.

(** The key request without connection, and at a server with a key. *)
Lemma createApiKey_auth_js_never_throws_offline :
  AuthService.createApiKey Example.offline (Browser ∅ [])
  = (Normal (), Browser ∅ [bare_key_request (Browser ∅ [])]).
Proof.
  destruct (createApiKey_auth_js_never_throws Example.offline (Browser ∅ []))
    as (b' & Hrun & _ & _ & _ & _ & _ & _ & Hfailed).
  rewrite Hrun. f_equal. apply Hfailed. left. by eexists.
Defined.
